(** * kubetools-client: status aggregation, guarded removal, process runner

    A shallow embedding of
      - [kubetools_client/dev/docker_util.py]  ([get_containers_status],
        [get_container_status], [_read_command_output], [run_process],
        [_run_process_with_spinner]),
      - [kubetools_client/cli/deploy.py]       ([_get_objects_to_delete],
        [_delete_objects], [remove], the annotations of [deploy]),
      - [kubetools_client/cli/show.py]         ([_get_version_info]) and
      - [kubetools_client/dev/environment.py]  (the commands),
    followed by the properties of the reconciliation and status-aggregation
    engine that are stated about them.

    Python dictionaries are finite maps ([gmap]), exceptions are the [Err]
    arm of an error monad, and the calls to the cluster API and to the
    terminal are recorded as a trace of events. *)

From Stdlib Require Import ZArith String Ascii.
From stdpp Require Import gmap strings list fin_maps.

Local Open Scope string_scope.

(** ** Exceptions as values *)

Inductive result (E A : Type) : Type :=
| Ok (a : A)
| Err (e : E).
Arguments Ok {E A} a.
Arguments Err {E A} e.

#[global] Instance result_ret {E} : MRet (result E) := fun _ a => Ok a.
#[global] Instance result_bind {E} : MBind (result E) :=
  fun _ _ f r => match r with Ok a => f a | Err e => Err e end.

Definition is_Ok {E A} (r : result E A) : Prop :=
  match r with Ok _ => True | Err _ => False end.

(** A [for] loop whose body may raise: the first exception ends the loop. *)
Fixpoint for_each {E S A} (body : S -> A -> result E S) (st : S) (xs : list A)
  : result E S :=
  match xs with
  | [] => Ok st
  | x :: xs' => st' ← body st x; for_each body st' xs'
  end.

(** ** The Python string methods the code relies on *)

Module Py.

(** [s.split(sep)] for a one-character separator: never an empty list. *)
Fixpoint split (sep : ascii) (s : string) : list string :=
  match s with
  | EmptyString => [EmptyString]
  | String c s' =>
      if Ascii.eqb c sep then EmptyString :: split sep s'
      else match split sep s' with
           | [] => [String c EmptyString]
           | seg :: segs => String c seg :: segs
           end
  end.

(** [s.startswith(p)]. *)
Definition startswith (s p : string) : bool := String.prefix p s.

(** [old in s] on strings: [old] occurs somewhere in [s]. *)
Fixpoint contains (old s : string) : bool :=
  String.prefix old s ||
  match s with
  | EmptyString => false
  | String _ s' => contains old s'
  end.

(** [s.replace(old, new)] for a non-empty [old]: scan from the left, every
    occurrence found is replaced and the scan resumes after it ([skip]
    counts the characters of the occurrence still to be dropped). *)
Fixpoint replace_from (old new : string) (skip : nat) (s : string) : string :=
  match s with
  | EmptyString => EmptyString
  | String c s' =>
      match skip with
      | S k => replace_from old new k s'
      | O =>
          if String.prefix old s
          then new +:+ replace_from old new (String.length old - 1) s'
          else String c (replace_from old new 0 s')
      end
  end.

(** With an empty [old], Python puts [new] around every character. *)
Fixpoint intersperse (new s : string) : string :=
  match s with
  | EmptyString => new
  | String c s' => new +:+ String c (intersperse new s')
  end.

Definition replace (s old new : string) : string :=
  match old with
  | EmptyString => intersperse new s
  | String _ _ => replace_from old new 0 s
  end.

(** [' '.join(lines)] and the like. *)
Fixpoint join (sep : string) (lines : list string) : string :=
  match lines with
  | [] => EmptyString
  | [l] => l
  | l :: ls => l +:+ sep +:+ join sep ls
  end.

End Py.

(** ** [dev/docker_util.py]: the environment status aggregator *)

Module DockerUtil.

(** One entry of [attrs['NetworkSettings']['Ports'][local_port]]. *)
Record binding := { HostIp : string; HostPort : string }.

(** What the code reads of a container object of the Docker client. *)
Record container := {
  container_name : string;
  container_id : string;
  container_status : string;
  container_labels : gmap string string;
  (* attrs['NetworkSettings']['Ports']: None, or local port -> None or
     the list of host bindings, in the order the dictionary iterates *)
  container_ports : option (list (string * option (list binding)));
}.

Record port := { local : string; host : string }.

(** The dictionaries built at lines 156-161 and 180-187. A key that is not
    set yet is [None] in [labels], [is_dependency] and [is_deployment];
    for [up] and [id], [None] is Python's [None]. *)
Record container_data := {
  up : option bool;
  ports : list port;
  id : option string;
  labels : option (gmap string string);
  is_dependency : option bool;
  is_deployment : option bool;
}.

(** A container declared in the project configuration, as
    [get_all_containers] yields it next to its name: the two keys read
    with [container.get(key, False)]. *)
Record declaration := {
  decl_is_dependency : option bool;
  decl_is_deployment : option bool;
}.

(** What [get_containers_status] reads of [kubetools_config]. The helpers
    [dockerise_label] and [get_all_containers] come from [dev/config.py];
    their results are taken as given. *)
Record kubetools_config := {
  docker_name : string;       (* dockerise_label(kubetools_config['name']) *)
  env : string;               (* kubetools_config['env'] *)
  all_containers : list (string * declaration);
                              (* get_all_containers(kubetools_config) *)
}.

Inductive exn :=
| KeyError (key : string)
| IndexError
| ValueError_duplicate (env name : string) (data : container_data).

Abbreviation containers_map := (gmap string container_data).
Abbreviation env_map := (gmap string (gmap string container_data)).

Definition compose_project_label : string := "com.docker.compose.project".
Definition env_label : string := "kubetools.project.env".

(** Lines 133-136: the explicit label when it is set and not empty, else
    the compose project name with the project name taken out. *)
Definition get_env (cfg : kubetools_config) (c : container)
    (compose_project : string) : string :=
  match container_labels c !! env_label with
  | Some (String a e) => String a e
  | _ => Py.replace compose_project (docker_name cfg) ""
  end.

(** Line 139: [container.name.split('_')[1]]. *)
Definition get_name (c : container) : result exn string :=
  match Py.split "_" (container_name c) !! 1%nat with
  | Some n => Ok n
  | None => Err IndexError
  end.

(** Lines 142-154. *)
Definition get_ports (c : container) : list port :=
  match container_ports c with
  | Some (p :: ps) =>
      omap (fun '(local_port, host_port) =>
              match host_port with
              | Some (b :: _) => Some {| local := local_port; host := HostPort b |}
              | _ => None
              end) (p :: ps)
  | _ => []
  end.

(** Lines 141 and 156-161. *)
Definition get_container_data (c : container) : container_data :=
  {| up := Some (bool_decide (container_status c = "running"));
     ports := get_ports c;
     id := Some (container_id c);
     labels := Some (container_labels c);
     is_dependency := None;
     is_deployment := None |}.

(** Lines 129-139 for one container: it is passed over ([None]), or it is
    resolved to its environment and its logical name. *)
Definition resolve (cfg : kubetools_config) (all_environments : bool)
    (c : container) : result exn (option (string * string)) :=
  match container_labels c !! compose_project_label with
  | None => Err (KeyError compose_project_label)
  | Some compose_project =>
      if all_environments && negb (Py.startswith compose_project (docker_name cfg))
      then Ok None
      else
        name ← get_name c;
        Ok (Some (get_env cfg c compose_project, name))
  end.

(** The body of the loop of lines 128-170. *)
Definition loop_body (cfg : kubetools_config) (all_environments : bool)
    (env_to_containers : env_map) (c : container) : result exn env_map :=
  r ← resolve cfg all_environments c;
  match r with
  | None => Ok env_to_containers
  | Some (env, name) =>
      let container_data := get_container_data c in
      let env_containers := default ∅ (env_to_containers !! env) in
      match env_containers !! name with
      | Some _ => Err (ValueError_duplicate env name container_data)
      | None =>
          Ok (<[env := <[name := container_data]> env_containers]> env_to_containers)
      end
  end.

(** Lines 179-184. *)
Definition absent : container_data :=
  {| up := None; ports := []; id := None; labels := None;
     is_dependency := None; is_deployment := None |}.

(** Lines 186-187. *)
Definition set_flags (d : declaration) (r : container_data) : container_data :=
  {| up := up r; ports := ports r; id := id r; labels := labels r;
     is_dependency := Some (default false (decl_is_dependency d));
     is_deployment := Some (default false (decl_is_deployment d)) |}.

(** Lines 178-187 for one environment. *)
Definition merge_declared (declared : list (string * declaration))
    (containers : containers_map) : containers_map :=
  foldl (fun cs '(name, d) =>
           let cs' := match cs !! name with
                      | None => <[name := absent]> cs
                      | Some _ => cs
                      end in
           alter (set_flags d) name cs')
        containers declared.

(** Lines 172-175. *)
Definition provide_current (cfg : kubetools_config) (m : env_map) : env_map :=
  match m !! env cfg with
  | None => <[env cfg := ∅]> m
  | Some _ => m
  end.

(** [env_to_containers] when line 189 is reached. *)
Definition aggregate (cfg : kubetools_config) (all_environments : bool)
    (docker_containers : list container) : result exn env_map :=
  m ← for_each (loop_body cfg all_environments) ∅ docker_containers;
  Ok (merge_declared (all_containers cfg) <$> provide_current cfg m).

(** The function returns either the whole map or one environment's. *)
Inductive status :=
| AllEnvironments (m : env_map)
| CurrentEnvironment (cs : containers_map).

(** [get_containers_status]; [docker_containers] is what the listing of
    lines 121-123 returned. *)
Definition get_containers_status (cfg : kubetools_config)
    (all_environments : bool) (docker_containers : list container)
  : result exn status :=
  env_to_containers ← aggregate cfg all_environments docker_containers;
  if all_environments then Ok (AllEnvironments env_to_containers)
  else Ok (CurrentEnvironment (default ∅ (env_to_containers !! env cfg))).

End DockerUtil.

(** ** [dev/docker_util.py]: the process runner *)

Module Process.

Definition newline : string := String (ascii_of_nat 10) EmptyString.

(** What happened to the child process. [spawn_fails]: [Popen] raised
    [OSError]. [exits]: [output_lines] is the buffer the reader of lines
    199-221 filled, [returncode] is [command.returncode] as lines 274 and
    304 read it ([None] when [poll] found no exit code yet). The wait of
    lines 253-257 is taken to return. *)
Inductive child :=
| spawn_fails (strerror : string)
| exits (output_lines : list string) (returncode : option Z).

(** The second argument of [KubeDevCommandError]: the output, or, from the
    handler of line 314, [getattr(e, 'output', e)]. *)
Inductive detail :=
| Output (stdout : option string)
| Raised_OSError (strerror : string).

(** [KubeDevCommandError]'s message is ['Compose command failed: '] followed
    by the arguments; the arguments stand for it. *)
Inductive exn :=
| OSError (strerror : string)
| CalledProcessError (output : option string)
| TypeError
| KubeDevCommandError (args : list string) (d : detail).

(** Lines 224-274: the return code and the joined lines. *)
Definition _run_process_with_spinner (ch : child)
  : result exn (option Z * option string) :=
  match ch with
  | spawn_fails e => Err (OSError e)
  | exits output_lines returncode =>
      Ok (returncode, Some (Py.join newline output_lines))
  end.

(** Lines 302-304: [stdout] is not piped, so [communicate] gives [None]. *)
Definition run_inline (ch : child) : result exn (option Z * option string) :=
  match ch with
  | spawn_fails e => Err (OSError e)
  | exits _ returncode => Ok (returncode, None)
  end.

(** Lines 280-288; [debug] is [settings.debug]. *)
Definition capturing_output (capture_output : option bool) (debug : Z) : bool :=
  match capture_output with
  | Some true => true
  | Some false => false
  | None => (debug =? 0)%Z
  end.

(** Lines 296-312, the body of the [try]. In Python 3 [None > 0] raises
    [TypeError]. *)
Definition run_process_body (args : list string) (capturing : bool)
    (ch : child) : result exn (option string) :=
  '(code, stdout) ←
    (if capturing then _run_process_with_spinner ch else run_inline ch);
  match code with
  | None => Err TypeError
  | Some code =>
      if (code >? 0)%Z
      then Err (KubeDevCommandError args (Output stdout))
      else Ok stdout
  end.

(** [run_process]: the body under the handler of lines 314-318. *)
Definition run_process (args : list string) (capture_output : option bool)
    (debug : Z) (ch : child) : result exn (option string) :=
  match run_process_body args (capturing_output capture_output debug) ch with
  | Err (OSError e) => Err (KubeDevCommandError args (Raised_OSError e))
  | Err (CalledProcessError o) => Err (KubeDevCommandError args (Output o))
  | r => r
  end.

(** The run failed with the command-failure error. *)
Definition command_failure (r : result exn (option string)) : Prop :=
  match r with
  | Err (KubeDevCommandError _ _) => True
  | _ => False
  end.

End Process.

(** ** [cli/deploy.py]: guarded removal *)

Module Deploy.

Record Build := { build_env : string; build_namespace : string }.

(** What the code reads of a cluster object. *)
Record object := {
  metadata_name : string;
  metadata_labels : gmap string string;
}.

(** What the three listing calls answer. *)
Record cluster := {
  services : list object;
  deployments : list object;
  jobs : list object;
}.

Inductive message :=
| must_either_provide_app_names_or_all
| cannot_provide_both_app_names_and_all
| not_found (object_type : string) (leftover_app_names : gset string).

Inductive exn :=
| BadParameter (m : message)
| KeyError (key : string).

(** The calls that leave the process. *)
Inductive event :=
| api_list (object_type : string) (b : Build)
| api_delete (object_type : string) (b : Build) (obj : object)
| echo (line : string)
| confirm.

(** A computation: the events it caused, and its value or exception. *)
Definition M (A : Type) : Type := list event * result exn A.

#[global] Instance M_ret : MRet M := fun _ a => ([], Ok a).
#[global] Instance M_bind : MBind M :=
  fun _ _ f m =>
    match m with
    | (t, Ok a) => let '(t', r) := f a in ((t ++ t')%list, r)
    | (t, Err e) => (t, Err e)
    end.

Definition emit (e : event) : M unit := ([e], Ok tt).
Definition raise {A} (e : exn) : M A := ([], Err e).

Definition trace {A} (m : M A) : list event := m.1.
Definition outcome {A} (m : M A) : result exn A := m.2.

Fixpoint for_ {A} (xs : list A) (body : A -> M unit) : M unit :=
  match xs with
  | [] => mret tt
  | x :: xs' => body x;; for_ xs' body
  end.

Section api.
Context (cl : cluster).

Definition list_services (b : Build) : M (list object) :=
  emit (api_list "Services" b);; mret (services cl).
Definition list_deployments (b : Build) : M (list object) :=
  emit (api_list "Deployments" b);; mret (deployments cl).
Definition list_jobs (b : Build) : M (list object) :=
  emit (api_list "Jobs" b);; mret (jobs cl).
End api.

(** The three deletion calls, when they return. *)
Definition delete_service (b : Build) (obj : object) : M unit :=
  emit (api_delete "Services" b obj).
Definition delete_deployment (b : Build) (obj : object) : M unit :=
  emit (api_delete "Deployments" b obj).
Definition delete_job (b : Build) (obj : object) : M unit :=
  emit (api_delete "Jobs" b obj).

Definition name_label : string := "kubetools/name".

(** Line 178: [obj.metadata.labels.get('kubetools/name') in app_names]. *)
Definition requested (app_names : list string) (obj : object) : bool :=
  match metadata_labels obj !! name_label with
  | Some n => bool_decide (n ∈ app_names)
  | None => false
  end.

(** Lines 183-186: [obj.metadata.labels['kubetools/name']] for each object. *)
Fixpoint name_labels (objs : list object) : result exn (gset string) :=
  match objs with
  | [] => Ok ∅
  | obj :: objs' =>
      match metadata_labels obj !! name_label with
      | None => Err (KeyError name_label)
      | Some n => names ← name_labels objs'; Ok ({[ n ]} ∪ names)
      end
  end.

Definition lift {A} (r : result exn A) : M A := ([], r).

(** Lines 176-190: the objects to delete among the listed ones. *)
Definition select_objects (object_type : string) (objects : list object)
    (remove_all : bool) (app_names : list string) (check_leftovers : bool)
  : M (list object) :=
  if remove_all then mret objects
  else
    let objects_to_delete := List.filter (requested app_names) objects in
    if check_leftovers then
      object_names_to_delete ← lift (name_labels objects_to_delete);
      let leftover_app_names :=
        list_to_set app_names ∖ object_names_to_delete in
      if decide (leftover_app_names = ∅) then mret objects_to_delete
      else raise (BadParameter (not_found object_type leftover_app_names))
    else mret objects_to_delete.

(** Lines 192-196: telling what will be deleted. *)
Definition announce (object_type : string) (objects_to_delete : list object)
  : M unit :=
  match objects_to_delete with
  | [] => mret tt
  | _ :: _ =>
      emit (echo ("--> " +:+ object_type +:+ " to delete:"));;
      for_ objects_to_delete
           (fun service => emit (echo ("    " +:+ metadata_name service)));;
      emit (echo "")
  end.

(** [_get_objects_to_delete]. *)
Definition _get_objects_to_delete (object_type : string)
    (list_objects_function : Build -> M (list object))
    (b : Build) (remove_all : bool) (app_names : list string)
    (check_leftovers : bool) : M (list object) :=
  objects ← list_objects_function b;
  objects_to_delete ←
    select_objects object_type objects remove_all app_names check_leftovers;
  announce object_type objects_to_delete;;
  mret objects_to_delete.

(** [_delete_objects]. *)
Definition _delete_objects (delete_object_function : Build -> object -> M unit)
    (objects_to_delete : list object) (b : Build) : M unit :=
  for_ objects_to_delete
       (fun obj =>
          delete_object_function b obj;;
          emit (echo ("    " +:+ metadata_name obj +:+ " deleted"))).

(** Lines 254-265 of [remove]. The answer to [click.confirm] is not
    looked at (line 259). Here the prompt is answered and the calls to
    the cluster return; [Fallible] has [remove] when they may raise. *)
Definition confirm_and_delete (yes : bool) (build : Build)
    (services_to_delete deployments_to_delete jobs_to_delete : list object)
  : M unit :=
  match services_to_delete, deployments_to_delete, jobs_to_delete with
  | [], [], [] => emit (echo "Nothing to do!")
  | _, _, _ =>
      (if yes then mret tt else emit confirm);;
      _delete_objects delete_service services_to_delete build;;
      _delete_objects delete_deployment deployments_to_delete build;;
      _delete_objects delete_job jobs_to_delete build
  end.

(** [remove]; [kube_context] is [ctx.meta['kube_context']]. *)
Definition remove (cl : cluster) (kube_context : string)
    (remove_all yes : bool) (namespace : string) (app_names : list string)
  : M unit :=
  match app_names, remove_all with
  | [], false => raise (BadParameter must_either_provide_app_names_or_all)
  | _ :: _, true => raise (BadParameter cannot_provide_both_app_names_and_all)
  | _, _ =>
      let build := {| build_env := kube_context; build_namespace := namespace |} in
      services_to_delete ←
        _get_objects_to_delete "Services" (list_services cl)
                               build remove_all app_names true;
      deployments_to_delete ←
        _get_objects_to_delete "Deployments" (list_deployments cl)
                               build remove_all app_names true;
      jobs_to_delete ←
        _get_objects_to_delete "Jobs" (list_jobs cl)
                               build remove_all app_names false;
      confirm_and_delete yes build
        services_to_delete deployments_to_delete jobs_to_delete
  end.

End Deploy.

(** ** Notions used to state the properties *)

Module Spec.
Import DockerUtil.

(** The record filed under an environment and a logical name. *)
Definition record_of (m : env_map) (env name : string) : option container_data :=
  m !! env ≫= (fun containers => containers !! name).

(** The container came through lines 129-139 without an exception. *)
Definition resolves (cfg : kubetools_config) (all_environments : bool)
    (c : container) : Prop :=
  is_Ok (resolve cfg all_environments c).

(** The (environment, logical name) pairs of the containers that were
    resolved and not passed over, in the order of the listing. *)
Definition resolved_keys (cfg : kubetools_config) (all_environments : bool)
    (cs : list container) : list (string * string) :=
  omap (fun c => match resolve cfg all_environments c with
                 | Ok (Some k) => Some k
                 | _ => None
                 end) cs.

(** The declaration that counts for a name: the last one yielded. *)
Fixpoint last_declared (declared : list (string * declaration)) (name : string)
  : option declaration :=
  match declared with
  | [] => None
  | (n, d) :: rest =>
      match last_declared rest name with
      | Some d' => Some d'
      | None => if decide (n = name) then Some d else None
      end
  end.

(** The environments of a returned status, by name. *)
Definition environment_of (cfg : kubetools_config) (st : status)
    (env_name : string) : option containers_map :=
  match st with
  | AllEnvironments m => m !! env_name
  | CurrentEnvironment containers =>
      if decide (env_name = env cfg) then Some containers else None
  end.

(** The status of a call that returned. *)
Definition returned (r : result exn status) : status :=
  match r with Ok st => st | Err _ => CurrentEnvironment ∅ end.

Import Deploy.

(** The logical-name labels of the live objects matched by the request. *)
Definition matched_names (app_names : list string) (objs : list object)
  : gset string :=
  list_to_set (omap (fun obj => metadata_labels obj !! name_label)
                    (List.filter (requested app_names) objs)).

(** The requested names that no live object carries. *)
Definition leftover (app_names : list string) (objs : list object)
  : gset string :=
  list_to_set app_names ∖ matched_names app_names objs.

Definition is_deletion (e : event) : bool :=
  match e with api_delete _ _ _ => true | _ => false end.

Definition deletions (t : list event) : list event := List.filter is_deletion t.

(** A computation that returns. *)
Definition returns {A} (m : M A) : Prop := exists a, outcome m = Ok a.

(** A computation that returns and deletes nothing. *)
Definition quiet {A} (m : M A) : Prop :=
  returns m /\ deletions (trace m) = [].

(** The run of a child ended with a strictly positive exit code, or the
    process could not be started. *)
Definition failed (ch : Process.child) : Prop :=
  match ch with
  | Process.spawn_fails _ => True
  | Process.exits _ (Some code) => (0 < code)%Z
  | Process.exits _ None => False
  end.

(** What a run hands back as output: the joined lines when capturing,
    nothing when the child wrote to the terminal. *)
Definition output_of (capturing : bool) (output_lines : list string)
  : option string :=
  if capturing then Some (Py.join Process.newline output_lines) else None.

End Spec.

(** ** Sample inputs *)

Module Sample.
Import DockerUtil.

Definition mk_container (name id status : string)
    (labels : list (string * string)) : container :=
  {| container_name := name; container_id := id; container_status := status;
     container_labels := list_to_map labels; container_ports := None |}.

Definition web_decl : declaration :=
  {| decl_is_dependency := None; decl_is_deployment := Some true |}.
Definition db_decl : declaration :=
  {| decl_is_dependency := Some true; decl_is_deployment := None |}.

(** Project [app], environment [dev], containers [web] and [db]. *)
Definition app_dev : kubetools_config :=
  {| docker_name := "app"; env := "dev";
     all_containers := [("web", web_decl); ("db", db_decl)] |}.

Definition web_1 : container :=
  mk_container "appdev_web_1" "4f1a" "running"
    [("com.docker.compose.project", "appdev"); ("kubetools.project.env", "dev")].

(** A second container of the same service in the same environment. *)
Definition web_2 : container :=
  mk_container "appdev_web_2" "77c0" "exited"
    [("com.docker.compose.project", "appdev"); ("kubetools.project.env", "dev")].

(** [web_1] with one published port and one that is not bound. *)
Definition web_published : container :=
  {| container_name := "appdev_web_1"; container_id := "4f1a";
     container_status := "running";
     container_labels :=
       list_to_map [("com.docker.compose.project", "appdev");
                    ("kubetools.project.env", "dev")];
     container_ports :=
       Some [("8000/tcp", Some [{| HostIp := "0.0.0.0"; HostPort := "32000" |}]);
             ("9000/tcp", None)] |}.

(** Created before the environment label existed. *)
Definition legacy_web : container :=
  mk_container "appdev_web_1" "0b3e" "running"
    [("com.docker.compose.project", "appdev")].

(** The compose project is the bare project name: nothing is left once
    the project name is taken out. *)
Definition bare_web : container :=
  mk_container "app_web_1" "9d21" "running"
    [("com.docker.compose.project", "app")].

(** A container of another compose project, named with hyphens. *)
Definition foreign : container :=
  mk_container "other-web-1" "c2c2" "running"
    [("com.docker.compose.project", "other")].

(** A container of this project whose name has no underscore. *)
Definition hyphenated : container :=
  mk_container "appdev-web-1" "e5e5" "running"
    [("com.docker.compose.project", "appdev")].

(** Project [web] run in an environment called [webtest], created before
    the environment label existed. *)
Definition web_project : kubetools_config :=
  {| docker_name := "web"; env := "webtest"; all_containers := [] |}.
Definition webtest_api : container :=
  mk_container "webwebtest_api_1" "a1a1" "running"
    [("com.docker.compose.project", "webwebtest")].

Import Deploy.

Definition mk_object (name : string) (labels : list (string * string)) : object :=
  {| metadata_name := name; metadata_labels := list_to_map labels |}.

Definition api_object : object := mk_object "api" [("kubetools/name", "api")].
Definition web_object : object := mk_object "web" [("kubetools/name", "web")].

(** Only [api] is live. *)
Definition only_api : cluster :=
  {| services := [api_object]; deployments := [api_object]; jobs := [] |}.

(** [web] is live as a service and a deployment, with no job. *)
Definition web_no_job : cluster :=
  {| services := [web_object]; deployments := [web_object]; jobs := [] |}.

End Sample.

(** ** [dev/docker_util.py]: the status of one container *)

Module ContainerStatus.
Import DockerUtil.

(** [get_container_status] (lines 194-196); [docker_containers] is what the
    listing returned under the filter on the service name. The call is made
    without [all_environments], so the status is one environment's. *)
Definition get_container_status (cfg : kubetools_config) (name : string)
    (docker_containers : list container) : result exn (option container_data) :=
  containers ← get_containers_status cfg false docker_containers;
  match containers with
  | CurrentEnvironment containers => Ok (containers !! name)
  | AllEnvironments _ => Ok None
  end.

(** What a call that returned handed back. *)
Definition returned_record (r : result exn (option container_data))
  : option container_data :=
  match r with Ok o => o | Err _ => None end.

Definition returned_environments (r : result exn status) : env_map :=
  match r with Ok (AllEnvironments m) => m | _ => ∅ end.

End ContainerStatus.

(** ** [dev/docker_util.py]: the reader of the command's output *)

Module Reader.

(** Both the bytes read from the pipe and the text [decode] makes of them
    are strings; the text is written with characters below 256. *)

Definition in_range (lo hi : string) (c : ascii) : bool :=
  match lo, hi with
  | String l _, String h _ =>
      (N_of_ascii l <=? N_of_ascii c)%N && (N_of_ascii c <=? N_of_ascii h)%N
  | _, _ => false
  end.

(** The three character classes of the pattern of line 212:
    [[0-?]], [[ -\/]] and [[@-~]]. *)
Definition parameter_char : ascii -> bool := in_range "0" "?".
Definition intermediate_char : ascii -> bool := in_range " " "/".
Definition final_char : ascii -> bool := in_range "@" "~".

Definition ESC : ascii := ascii_of_nat 27.    (* \x1B *)
Definition CSI : ascii := ascii_of_nat 155.   (* \x9B *)

(** [cls*] followed by [k], as the regular expression engine tries it: the
    longest run first, then shorter ones. The result is the length of the
    match. *)
Fixpoint star_then (cls : ascii -> bool) (k : string -> option nat)
    (s : string) : option nat :=
  match s with
  | String c s' =>
      if cls c
      then match star_then cls k s' with
           | Some n => Some (S n)
           | None => k s
           end
      else k s
  | EmptyString => k s
  end.

Definition one (cls : ascii -> bool) (s : string) : option nat :=
  match s with
  | String c _ => if cls c then Some 1 else None
  | EmptyString => None
  end.

(** [[0-?]*[ -\/]*[@-~]] at the start of [s]. *)
Definition match_tail (s : string) : option nat :=
  star_then parameter_char (star_then intermediate_char (one final_char)) s.

(** The whole pattern [(\x9B|\x1B\[)[0-?]*[ -\/]*[@-~]] at the start of [s]. *)
Definition match_escape (s : string) : option nat :=
  match s with
  | String c s' =>
      if Ascii.eqb c CSI then S <$> match_tail s'
      else if Ascii.eqb c ESC then
        match s' with
        | String "[" s'' => (fun n => S (S n)) <$> match_tail s''
        | _ => None
        end
      else None
  | EmptyString => None
  end.

(** [re.sub(pattern, '', s)]: from the left, every match is dropped and the
    search resumes after it ([skip] counts what is left to drop). *)
Fixpoint sub_from (skip : nat) (s : string) : string :=
  match s with
  | EmptyString => EmptyString
  | String c s' =>
      match skip with
      | S k => sub_from k s'
      | O =>
          match match_escape s with
          | Some (S n) => sub_from n s'
          | _ => String c (sub_from 0 s')
          end
      end
  end.

(** Lines 211-215. *)
Definition strip_ansi (s : string) : string := sub_from 0 s.

(** [s.lstrip(c)], [s.rstrip(c)] and [s.strip(c)] for one character. *)
Fixpoint lstrip (c : ascii) (s : string) : string :=
  match s with
  | String a s' => if Ascii.eqb a c then lstrip c s' else s
  | EmptyString => EmptyString
  end.

Fixpoint rstrip (c : ascii) (s : string) : string :=
  match s with
  | EmptyString => EmptyString
  | String a s' =>
      match rstrip c s' with
      | EmptyString => if Ascii.eqb a c then EmptyString else String a EmptyString
      | r => String a r
      end
  end.

Definition strip (c : ascii) (s : string) : string := rstrip c (lstrip c s).

Definition LF : ascii := ascii_of_nat 10.

(** Lines 206-215 on the text of a line, once decoded. *)
Definition clean (stdout_line : string) : string :=
  strip_ansi (strip LF stdout_line).

(** What ends the reader other than an empty read: [decode] is strict and
    raises on bytes that are no text (line 206). *)
Inductive exn :=
| UnicodeDecodeError (bytes : string).

(** [_read_command_output]: [stdout] is what [readline] gives, call after
    call; an empty read, or the end of the stream, ends the loop. [decode]
    is [bytes.decode], [None] where it raises. The buffer is the caller's
    list: the result is the buffer as the reader leaves it, and how the
    reader ended. *)
Fixpoint _read_command_output (decode : string -> option string)
    (stdout : list string) (output_lines : list string)
  : list string * result exn unit :=
  match stdout with
  | [] => (output_lines, Ok tt)
  | stdout_line :: rest =>
      match stdout_line with
      | EmptyString => (output_lines, Ok tt)
      | _ =>
          match decode stdout_line with
          | None => (output_lines, Err (UnicodeDecodeError stdout_line))
          | Some text =>
              _read_command_output decode rest (output_lines ++ [clean text])%list
          end
      end
  end.

(** Every character of [s] is in the class. *)
Fixpoint all_chars (cls : ascii -> bool) (s : string) : bool :=
  match s with
  | EmptyString => true
  | String c s' => cls c && all_chars cls s'
  end.

(** Neither of the two characters an escape sequence can start with. *)
Definition plain_char (c : ascii) : bool :=
  negb (Ascii.eqb c ESC) && negb (Ascii.eqb c CSI).

Definition no_line_feed (s : string) : bool :=
  all_chars (fun c => negb (Ascii.eqb c LF)) s.

(** The text of the reads the loop gets through: those before the first
    read that is empty or that [decode] refuses. *)
Fixpoint decoded (decode : string -> option string) (stdout : list string)
  : list string :=
  match stdout with
  | [] => []
  | EmptyString :: _ => []
  | stdout_line :: rest =>
      match decode stdout_line with
      | Some text => text :: decoded decode rest
      | None => []
      end
  end.

(** A read that is not empty and that [decode] turns into [text]. *)
Definition read_as (decode : string -> option string)
    (stdout_line text : string) : Prop :=
  stdout_line <> EmptyString /\ decode stdout_line = Some text.

(** What [readline] gives before the end of the stream: text without line
    feed followed by one, or, for a last line that is not ended, such
    text alone (not empty). *)
Definition is_line (s : string) : Prop :=
  exists text, no_line_feed text = true /\
               (s = text +:+ String LF EmptyString \/ (s = text /\ text <> EmptyString)).

(** The two ways a sequence starts: [ESC] and an opening bracket, or the
    one-character introducer. *)
Definition introducers : list string := [String ESC "["; String CSI ""].

(** Two lines a command wrote, the second one in colour. *)
Definition two_reads : list string :=
  ["Pulling web" +:+ String LF "";
   String ESC "[32m" +:+ "done" +:+ String ESC "[0m" +:+ String LF ""].

(** Strict decoding of bytes below 128, where the codecs derived from
    ASCII, UTF-8 among them, all give the character of the same number;
    any other byte is refused, as the ASCII codec does. *)
Definition decode_ascii (bytes : string) : option string :=
  if all_chars (fun c => (N_of_ascii c <? 128)%N) bytes then Some bytes else None.

(** Three lines, the second one with the byte [0xFF], which is text in no
    encoding of Unicode. *)
Definition broken_reads : list string :=
  ["Pulling web" +:+ String LF "";
   String (ascii_of_nat 255) (String LF "");
   "done" +:+ String LF ""].

End Reader.

(** ** [cli/deploy.py] and [cli/show.py]: the version annotations *)

Module Annotations.
Import Deploy.

(** Lines 83-99 of [deploy]: the annotations of one application.
    [commit_hash] and [branch_name] are what the two [git rev-parse]
    commands printed, decoded and stripped; [git_tag] is what
    [git tag --points-at] printed, or [None] when the command raised
    [KubeBuildError]. *)
Definition annotations (build : Build) (commit_hash branch_name : string)
    (git_tag : option string) : gmap string string :=
  let annotations : gmap string string :=
    <["app.kubernetes.io/managed-by" := "kubetools"]>
      (<["kubetools/git_commit" := commit_hash]>
         (<["kubetools/namespace" := build_namespace build]>
            (<["kubetools/env" := build_env build]> ∅))) in
  let annotations :=
    if bool_decide (branch_name = "HEAD") then annotations
    else <["kubetools/git_branch" := branch_name]> annotations in
  match git_tag with
  | Some tag => <["kubetools/git_tag" := tag]> annotations
  | None => annotations
  end.

(** The three keys [show.py] imports from [kubetools_client.constants]. *)
Record constants := {
  GIT_BRANCH_ANNOTATION_KEY : string;
  GIT_COMMIT_ANNOTATION_KEY : string;
  GIT_TAG_ANNOTATION_KEY : string;
}.

(** [_get_version_info] of [show.py] (lines 87-99), on
    [item.metadata.annotations]. *)
Definition _get_version_info (K : constants) (annotations : gmap string string)
  : string :=
  let bits :=
    omap (fun '(name, key) =>
            match annotations !! key with
            | Some (String c data) => Some (name +:+ "=" +:+ String c data)
            | _ => None
            end)
         [("branch", GIT_BRANCH_ANNOTATION_KEY K);
          ("tag", GIT_TAG_ANNOTATION_KEY K);
          ("commit", GIT_COMMIT_ANNOTATION_KEY K)] in
  Py.join ", " bits.

(** The keys [deploy] writes. *)
Definition deploy_keys : constants :=
  {| GIT_BRANCH_ANNOTATION_KEY := "kubetools/git_branch";
     GIT_COMMIT_ANNOTATION_KEY := "kubetools/git_commit";
     GIT_TAG_ANNOTATION_KEY := "kubetools/git_tag" |}.

(** [name=data], or nothing for an empty [data]. *)
Definition bit (name data : string) : list string :=
  match data with
  | EmptyString => []
  | _ => [name +:+ "=" +:+ data]
  end.

End Annotations.

(** ** [dev/environment.py]: the commands of the development environment *)

Module Environment.

(** A list object of the configuration. Two entries can hold the same
    one: an alias in the configuration file gives the object of its
    anchor, not a copy. *)
Definition ref := nat.

(** An entry of [kubetools_config['upgrades']] or [kubetools_config['tests']]:
    the keys the commands read, [None] for a key that is not there. The
    command and the environment are list objects. *)
Record item := {
  item_name : option string;                (* 'name' *)
  item_command : option ref;                (* 'command' *)
  item_test_condition : option bool;        (* 'conditions' then 'test' *)
  item_environment : option ref;            (* 'environment' *)
}.

(** What the commands read of [kubetools_config], and what its list
    objects hold. *)
Record kubetools_config := {
  env : option string;
  upgrades : option (list item);
  tests : option (list item);
  contents : ref -> list string;
}.

(** The functions of [container_util] and [config] the commands call, with
    their arguments; [containers] is the tuple of names given on the
    command line. *)
Inductive call :=
| get_containers_status (cfg : kubetools_config)
| build_containers (cfg : kubetools_config) (containers : list string)
| up_containers (cfg : kubetools_config) (containers : list string)
| destroy_containers (cfg : kubetools_config) (containers : list string)
| start_containers (cfg : kubetools_config) (containers : list string)
| stop_containers (cfg : kubetools_config) (containers : list string)
| print_containers (cfg : kubetools_config) (all_environments : option bool)
| run_container (cfg : kubetools_config) (container_name : string)
                (command : list string) (envars : option (list string))
| find_container_for_config (cfg : kubetools_config) (it : item).

Inductive event :=
| called (c : call)
| echo (line : string).

Inductive exn :=
| KeyError (key : string)
| KubeDevError (message : string)
| raised_by (c : call) (what : string).

(** What is outside the commands. A call may end in an exception, and the
    two calls that answer something answer it; both may depend on all that
    happened before. [style] is [click.style] with its [fg] and [bold]
    arguments, [DEV_DEFAULT_ENV] the setting of that name. *)
Record world := {
  raises : list event -> call -> option exn;
  container_statuses : list event -> kubetools_config -> list string;
  found_container : list event -> kubetools_config -> item -> string;
  style : string -> option string -> bool -> string;
  DEV_DEFAULT_ENV : string;
}.

(** The configuration object is shared by all the functions of a command
    and [test] writes to it: it is part of the state, next to what
    happened so far. *)
Record state := {
  config : kubetools_config;
  history : list event;
}.

(** A computation takes the state and gives the state when it ends, with
    its value or its exception. *)
Definition Eff (A : Type) : Type := state -> state * result exn A.

#[global] Instance Eff_ret : MRet Eff := fun _ a s => (s, Ok a).
#[global] Instance Eff_bind : MBind Eff :=
  fun _ _ f m s =>
    match m s with
    | (s', Ok a) => f a s'
    | (s', Err e) => (s', Err e)
    end.

Definition raise {A} (e : exn) : Eff A := fun s => (s, Err e).

Definition record (e : event) (s : state) : state :=
  {| config := config s; history := (history s ++ [e])%list |}.

Definition click_echo (line : string) : Eff unit :=
  fun s => (record (echo line) s, Ok tt).

Definition get_config : Eff kubetools_config := fun s => (s, Ok (config s)).

Definition set_config (cfg : kubetools_config) : Eff unit :=
  fun s => ({| config := cfg; history := history s |}, Ok tt).

Section commands.
Context (w : world).

(** A call that is given the configuration and answers nothing. *)
Definition do (c : kubetools_config -> call) : Eff unit :=
  fun s =>
    (record (called (c (config s))) s,
     match raises w (history s) (c (config s)) with
     | Some e => Err e
     | None => Ok tt
     end).

(** A call that answers: the answer is the one of the moment of the call. *)
Definition ask {A} (c : kubetools_config -> call)
    (answer : list event -> kubetools_config -> A) : Eff A :=
  fun s =>
    (record (called (c (config s))) s,
     match raises w (history s) (c (config s)) with
     | Some e => Err e
     | None => Ok (answer (history s) (config s))
     end).

Fixpoint for_ {A} (xs : list A) (body : A -> Eff unit) : Eff unit :=
  match xs with
  | [] => mret tt
  | x :: xs' => body x;; for_ xs' body
  end.

(** [try: body finally: cleanup]. *)
Definition try_finally {A} (body : Eff A) (cleanup : Eff unit) : Eff A :=
  fun s =>
    match body s with
    | (s', r) =>
        match cleanup s' with
        | (s'', Ok _) => (s'', r)
        | (s'', Err e) => (s'', Err e)
        end
    end.

(** [try: body except Exception: handler; raise else: orelse]. *)
Definition try_except_raise_else (body : Eff unit) (handler orelse : Eff unit)
  : Eff unit :=
  fun s =>
    match body s with
    | (s', Err e) =>
        match handler s' with
        | (s'', Ok _) => (s'', Err e)
        | (s'', Err e') => (s'', Err e')
        end
    | (s', Ok _) => orelse s'
    end.

Definition bold (text : string) : string := style w text None true.
Definition blue (text : string) : string := style w text (Some "blue") false.

(** [status]. *)
Definition status (active : bool) : Eff unit :=
  click_echo "--> Loading environments...";;
  do (fun cfg => print_containers cfg (Some (negb active))).

(** [destroy]. *)
Definition destroy (containers : list string) : Eff unit :=
  click_echo "--> Destroying containers";;
  do (fun cfg => destroy_containers cfg containers);;
  click_echo "--> Dev environment down".

(** [start]. *)
Definition start (containers : list string) : Eff unit :=
  click_echo "--> Starting containers";;
  do (fun cfg => start_containers cfg containers);;
  click_echo "--> Containers started";;
  click_echo "";;
  do (fun cfg => print_containers cfg None).

(** [stop]. *)
Definition stop (containers : list string) : Eff unit :=
  click_echo "--> Stopping containers";;
  do (fun cfg => stop_containers cfg containers);;
  click_echo "--> Containers stopped";;
  click_echo "";;
  do (fun cfg => print_containers cfg None).

(** [entry.get('name', ' '.join(command))]. *)
Definition display_name (it : item) (command : list string) : string :=
  default (Py.join " " command) (item_name it).

(** [entry['command']]: the list object. *)
Definition command_of (it : item) : Eff ref :=
  match item_command it with
  | Some command => mret command
  | None => raise (KeyError "command")
  end.

(** What a list object holds at the moment. *)
Definition read (command : ref) : Eff (list string) :=
  fun s => (s, Ok (contents (config s) command)).

(** [test.get('environment', [])], as it is when [cfg] is the
    configuration. *)
Definition envars_of (cfg : kubetools_config) (it : item) : list string :=
  match item_environment it with
  | Some environment => contents cfg environment
  | None => []
  end.

(** Lines 156-181 for one upgrade. The default of [upgrade.get('name', ...)]
    reads [upgrade['command']] whether or not there is a name. *)
Definition run_upgrade (containers upgrade_containers : list string)
    (is_testing : bool) (upgrade : item) : Eff unit :=
  let apply_when_testing := default true (item_test_condition upgrade) in
  if is_testing && negb apply_when_testing then mret tt
  else
    container_name ←
      ask (fun cfg => find_container_for_config cfg upgrade)
          (fun h cfg => found_container w h cfg upgrade);
    if negb (bool_decide (containers = []))
       && negb (bool_decide (container_name ∈ upgrade_containers))
    then mret tt
    else
      command ← command_of upgrade;
      words ← read command;
      click_echo ("--> Running upgrade " +:+ bold (display_name upgrade words)
                  +:+ " in container " +:+ container_name);;
      do (fun cfg => run_container cfg container_name (contents cfg command) None);;
      click_echo "".

(** [up]. *)
Definition up (containers : list string) (no_upgrade is_testing : bool) : Eff unit :=
  container_statuses ←
    ask get_containers_status (container_statuses w);
  let upgrade_containers :=
    if no_upgrade then []
    else match containers with
         | [] => container_statuses
         | _ :: _ => containers
         end in
  click_echo "--> Building any out of date containers";;
  do (fun cfg => build_containers cfg containers);;
  click_echo "";;
  click_echo "--> Starting containers";;
  do (fun cfg => up_containers cfg containers);;
  click_echo "--> Dev environment up";;
  click_echo "";;
  match upgrade_containers with
  | [] => mret tt
  | _ :: _ =>
      click_echo "--> Running upgrades";;
      cfg ← get_config;
      for_ (default [] (upgrades cfg))
           (run_upgrade containers upgrade_containers is_testing)
  end;;
  do (fun cfg => print_containers cfg None);;
  click_echo "";;
  click_echo (blue "Use `" +:+ bold "ktd logs"
              +:+ blue "` to see what the containers are up to");;
  click_echo (blue "Use `" +:+ bold "ktd attach <container>"
              +:+ blue "` to attach to a running container").

(** [reload]. *)
Definition reload (containers : list string)
    (destroy_containers no_upgrade : bool) : Eff unit :=
  (if destroy_containers then destroy containers else stop containers);;
  click_echo "";;
  up containers no_upgrade false.

(** [command.extend(arguments)]: the list object is changed where it is,
    for every entry that holds it. *)
Definition extend (command : ref) (arguments : list string) : Eff unit :=
  fun s =>
    let cfg := config s in
    ({| config :=
          {| env := env cfg; upgrades := upgrades cfg; tests := tests cfg;
             contents := fun r => if decide (r = command)
                                  then (contents cfg r ++ arguments)%list
                                  else contents cfg r |};
        history := history s |}, Ok tt).

(** Lines 234-258. *)
Fixpoint run_tests (arguments : list string) (todo : list item) : Eff unit :=
  match todo with
  | [] => mret tt
  | test :: rest =>
      command ← command_of test;
      (match arguments with
       | [] => mret tt
       | _ :: _ => extend command arguments
       end);;
      container_name ←
        ask (fun cfg => find_container_for_config cfg test)
            (fun h cfg => found_container w h cfg test);
      words ← read command;
      click_echo ("--> Running test " +:+ bold (display_name test words)
                  +:+ " in container " +:+ container_name);;
      do (fun cfg => run_container cfg container_name (contents cfg command)
                       (Some (envars_of cfg test)));;
      click_echo "";;
      run_tests arguments rest
  end.

(** Lines 217-221. *)
Definition set_test_env : Eff unit :=
  cfg ← get_config;
  if bool_decide (default (DEV_DEFAULT_ENV w) (env cfg) = DEV_DEFAULT_ENV w)
  then set_config {| env := Some "test"; upgrades := upgrades cfg;
                     tests := tests cfg; contents := contents cfg |}
  else mret tt.

(** Lines 224-258, the body of the [try]. *)
Definition test_body (arguments : list string) : Eff unit :=
  up [] false true;;
  click_echo "";;
  click_echo "--> Executing tests...";;
  cfg ← get_config;
  match tests cfg with
  | None | Some [] => raise (KubeDevError "No tests provided in kubetools config!")
  | Some ts => run_tests arguments ts
  end.

(** [test]. *)
Definition test (keep_containers : bool) (arguments : list string) : Eff unit :=
  set_test_env;;
  try_finally
    (try_except_raise_else
       (test_body arguments)
       (click_echo (style w "Exception!" (Some "red") true))
       (click_echo (style w "--> Tests complete" (Some "green") false)))
    (if keep_containers then mret tt else destroy []).

End commands.

End Environment.

(** ** Notions used to state what [remove] calls *)

Module RemovalPlan.
Import Deploy Spec.

(** The events that are not output to the terminal: the calls to the
    cluster and the prompt. *)
Definition is_echo (e : event) : bool :=
  match e with echo _ => true | _ => false end.
Definition calls (t : list event) : list event :=
  List.filter (fun e => negb (is_echo e)) t.

(** The objects of lines 174-180, when nothing is left over. *)
Definition selected (remove_all : bool) (app_names : list string)
    (objs : list object) : list object :=
  if remove_all then objs else List.filter (requested app_names) objs.

(** The deletions of lines 263-265 for a cluster, in their order. *)
Definition planned_deletions (b : Build) (remove_all : bool)
    (app_names : list string) (cl : cluster) : list event :=
  (map (api_delete "Services" b) (selected remove_all app_names (services cl)) ++
   map (api_delete "Deployments" b) (selected remove_all app_names (deployments cl)) ++
   map (api_delete "Jobs" b) (selected remove_all app_names (jobs cl)))%list.

(** The prompt of lines 258-261. *)
Definition prompt (b : Build) (yes remove_all : bool)
    (app_names : list string) (cl : cluster) : list event :=
  match planned_deletions b remove_all app_names cl with
  | [] => []
  | _ :: _ => if yes then [] else [confirm]
  end.

(** What [remove] lists first. *)
Definition listings (b : Build) : list event :=
  [api_list "Services" b; api_list "Deployments" b; api_list "Jobs" b].

(** A computation that returns and only writes to the terminal. *)
Definition echoes {A} (m : M A) : Prop := returns m /\ calls (trace m) = [].

End RemovalPlan.

(** ** Notions used to state what the commands do *)

Module EnvironmentSpec.
Import Environment.

(** Running [m] from a configuration that satisfies [I] only adds events
    that satisfy [P] to what happened, leaves a configuration that satisfies
    [J] however it ends, and a value that satisfies [Q] when it returns. *)
Definition sat {A} (I J : kubetools_config -> Prop) (P : event -> Prop)
    (Q : A -> Prop) (m : Eff A) : Prop :=
  forall s, I (config s) ->
    exists new,
      history (m s).1 = (history s ++ new)%list /\
      Forall P new /\
      J (config (m s).1) /\
      forall a, (m s).2 = Ok a -> Q a.

(** The configuration a call is given. *)
Definition config_of (c : call) : kubetools_config :=
  match c with
  | get_containers_status cfg | build_containers cfg _ | up_containers cfg _
  | destroy_containers cfg _ | start_containers cfg _ | stop_containers cfg _
  | print_containers cfg _ | run_container cfg _ _ _
  | find_container_for_config cfg _ => cfg
  end.

Definition is_output (e : event) : Prop :=
  match e with echo _ => True | called _ => False end.

(** The calls [up] can make: it looks at the containers, builds them,
    brings them up, looks for the container of an upgrade, runs it there
    without extra environment, and prints. *)
Definition made_by_up (c : call) : Prop :=
  match c with
  | get_containers_status _ | build_containers _ _ | up_containers _ _
  | print_containers _ None | find_container_for_config _ _
  | run_container _ _ _ None => True
  | _ => False
  end.

(** The environment [test] runs in (lines 217-221). *)
Definition test_environment (w : world) (cfg : kubetools_config) : option string :=
  if bool_decide (default (DEV_DEFAULT_ENV w) (env cfg) = DEV_DEFAULT_ENV w)
  then Some "test" else env cfg.

(** What can be said of an upgrade that [up] runs from the configuration
    [cfg0]: the event is no run, or it is the run of a declared upgrade. *)
Definition runs_declared_upgrade (containers : list string)
    (no_upgrade is_testing : bool) (cfg0 : kubetools_config) (ev : event) : Prop :=
  forall cfg n cmd envs, ev = called (run_container cfg n cmd envs) ->
    cfg = cfg0 /\ envs = None /\ no_upgrade = false /\
    (containers <> [] -> n ∈ containers) /\
    exists u command,
      u ∈ default [] (upgrades cfg0) /\ item_command u = Some command /\
      cmd = contents cfg0 command /\
      (is_testing = true -> item_test_condition u <> Some false).

(** The entry holds the list object. *)
Definition holds (command : ref) (it : item) : bool :=
  bool_decide (item_command it = Some command).

(** How many of the entries hold the list object. *)
Definition holders (command : ref) (its : list item) : nat :=
  length (List.filter (holds command) its).

(** The arguments, [k] times over. *)
Definition repeated (k : nat) (arguments : list string) : list string :=
  concat (replicate k arguments).

(** What the list objects hold once the tests [ran] have been run, when
    they held [before]. *)
Definition extended (before : ref -> list string) (arguments : list string)
    (ran : list item) (cfg : kubetools_config) : Prop :=
  forall command,
    contents cfg command
      = (before command ++ repeated (holders command ran) arguments)%list.

(** What the command of a test holds when the test is run after the tests
    [ran], and what its environment holds then, when the list objects held
    [before]. *)
Definition command_run (before : ref -> list string) (arguments : list string)
    (ran : list item) (command : ref) : list string :=
  (before command ++ repeated (S (holders command ran)) arguments)%list.

Definition envars_run (before : ref -> list string) (arguments : list string)
    (ran : list item) (t : item) : list string :=
  match item_environment t with
  | Some environment =>
      (before environment ++ repeated (holders environment (ran ++ [t])) arguments)%list
  | None => []
  end.

(** No list object is the command of two of the entries, or the command
    of one and the environment of one. *)
Definition separate (its : list item) : Prop :=
  NoDup (omap item_command its) /\
  forall t t' environment,
    t ∈ its -> t' ∈ its -> item_environment t = Some environment ->
    item_command t' <> Some environment.

Definition not_destroy (ev : event) : Prop :=
  forall cfg cs, ev <> called (destroy_containers cfg cs).

(** What [reload] does first: it destroys or it stops. *)
Definition reload_first (destroy_flag : bool) (containers : list string)
    (cfg : kubetools_config) : list event :=
  if destroy_flag
  then [echo "--> Destroying containers"; called (destroy_containers cfg containers)]
  else [echo "--> Stopping containers"; called (stop_containers cfg containers)].



(** A world where every call returns: one container [web], in which
    everything is run. *)
Definition calm : world :=
  {| raises := fun _ _ => None;
     container_statuses := fun _ _ => ["web"];
     found_container := fun _ _ _ => "web";
     style := fun text _ _ => text;
     DEV_DEFAULT_ENV := "dev" |}.

(** List objects numbered from 0, with what they hold. *)
Definition holding (lists : list (list string)) : ref -> list string :=
  fun command => default [] (lists !! command).

Definition migrate : item :=
  {| item_name := Some "migrate"; item_command := Some 0;
     item_test_condition := None; item_environment := None |}.

(** An upgrade that is not for the test environment. *)
Definition load_fixtures : item :=
  {| item_name := None; item_command := Some 1;
     item_test_condition := Some false; item_environment := None |}.

Definition unit_tests : item :=
  {| item_name := None; item_command := Some 2;
     item_test_condition := None; item_environment := Some 3 |}.

Definition project : kubetools_config :=
  {| env := None; upgrades := Some [migrate; load_fixtures];
     tests := Some [unit_tests];
     contents := holding [["./manage.py"; "migrate"];
                          ["./manage.py"; "loaddata"];
                          ["pytest"];
                          ["CI=1"]] |}.


(** A second test, whose command is an alias of the command of
    [unit_tests]: the two entries hold the same list object. *)
Definition lint : item :=
  {| item_name := Some "lint"; item_command := Some 2;
     item_test_condition := None; item_environment := None |}.

Definition aliased : kubetools_config :=
  {| env := None; upgrades := None; tests := Some [unit_tests; lint];
     contents := holding [[]; []; ["pytest"]; ["CI=1"]] |}.

Definition fresh (cfg : kubetools_config) : state :=
  {| config := cfg; history := [] |}.

Definition calls_of (h : list event) : list call :=
  omap (fun ev => match ev with called c => Some c | echo _ => None end) h.

End EnvironmentSpec.

(** ** [cli/deploy.py]: removal when the prompt and the cluster can fail *)

Module Fallible.
Import Deploy.

(** What becomes of [click.confirm] (line 259): it returns the answer
    given, or it raises [click.Abort] when the input ends or is
    interrupted. *)
Inductive answer := accepted | declined | aborted.

(** How [remove] can end other than by returning. *)
Inductive failure :=
| rejected (e : exn)            (* raised by the code of [deploy.py] itself *)
| Abort                         (* [click.Abort], out of [click.confirm] *)
| ApiException (call : event).  (* whatever a call to the cluster raised *)

(** What is outside [remove]. A call to the cluster may raise, which may
    depend on the calls made to the cluster before it. *)
Record world := {
  raises : list event -> event -> bool;
  answer_to_prompt : answer;
}.

Definition is_request (e : event) : bool :=
  match e with
  | api_list _ _ | api_delete _ _ _ => true
  | _ => false
  end.

(** The calls to the cluster among the events. *)
Definition requests (t : list event) : list event := List.filter is_request t.

(** A computation is given what happened before it, and gives the events
    it caused with its value or its exception. *)
Definition IO (A : Type) : Type := list event -> list event * result failure A.

#[global] Instance IO_ret : MRet IO := fun _ a _ => ([], Ok a).
#[global] Instance IO_bind : MBind IO :=
  fun _ _ f m h =>
    match m h with
    | (t, Ok a) => let '(t', r) := f a (h ++ t)%list in ((t ++ t')%list, r)
    | (t, Err e) => (t, Err e)
    end.

(** The command, started when nothing has happened yet. *)
Definition run {A} (m : IO A) : list event * result failure A := m [].

Definition click_echo (line : string) : IO unit := fun _ => ([echo line], Ok tt).

Definition raise {A} (e : exn) : IO A := fun _ => ([], Err (rejected e)).

(** A block of [Deploy] that calls nothing outside [deploy.py], with the
    exceptions it raises. *)
Definition checked {A} (m : M A) : IO A :=
  fun _ => (trace m, match outcome m with
                     | Ok a => Ok a
                     | Err e => Err (rejected e)
                     end).

(** A call to the cluster, which answers [a] when it does not raise. *)
Definition request {A} (w : world) (call : event) (a : A) : IO A :=
  fun h => ([call], if raises w (requests h) call
                    then Err (ApiException call) else Ok a).

(** [click.confirm(...)], without [abort=True]. *)
Definition click_confirm (w : world) : IO bool :=
  fun _ => ([confirm], match answer_to_prompt w with
                       | accepted => Ok true
                       | declined => Ok false
                       | aborted => Err Abort
                       end).

Fixpoint for_ {A} (xs : list A) (body : A -> IO unit) : IO unit :=
  match xs with
  | [] => mret tt
  | x :: xs' => body x;; for_ xs' body
  end.

Section api.
Context (w : world).

Definition list_services (cl : cluster) (b : Build) : IO (list object) :=
  request w (api_list "Services" b) (services cl).
Definition list_deployments (cl : cluster) (b : Build) : IO (list object) :=
  request w (api_list "Deployments" b) (deployments cl).
Definition list_jobs (cl : cluster) (b : Build) : IO (list object) :=
  request w (api_list "Jobs" b) (jobs cl).

Definition delete_service (b : Build) (obj : object) : IO unit :=
  request w (api_delete "Services" b obj) tt.
Definition delete_deployment (b : Build) (obj : object) : IO unit :=
  request w (api_delete "Deployments" b obj) tt.
Definition delete_job (b : Build) (obj : object) : IO unit :=
  request w (api_delete "Jobs" b obj) tt.

(** [_get_objects_to_delete]: the listing, then lines 176-190 and
    lines 192-196 as in [Deploy]. *)
Definition _get_objects_to_delete (object_type : string)
    (list_objects_function : Build -> IO (list object))
    (b : Build) (remove_all : bool) (app_names : list string)
    (check_leftovers : bool) : IO (list object) :=
  objects ← list_objects_function b;
  objects_to_delete ←
    checked (select_objects object_type objects remove_all app_names check_leftovers);
  checked (announce object_type objects_to_delete);;
  mret objects_to_delete.

(** [_delete_objects]: there is no handler around the call, and the line
    is printed once the call has returned. *)
Definition _delete_objects (delete_object_function : Build -> object -> IO unit)
    (objects_to_delete : list object) (b : Build) : IO unit :=
  for_ objects_to_delete
       (fun obj =>
          delete_object_function b obj;;
          click_echo ("    " +:+ metadata_name obj +:+ " deleted")).

(** Lines 254-265 of [remove]. What [click.confirm] returns is dropped. *)
Definition confirm_and_delete (yes : bool) (build : Build)
    (services_to_delete deployments_to_delete jobs_to_delete : list object)
  : IO unit :=
  match services_to_delete, deployments_to_delete, jobs_to_delete with
  | [], [], [] => click_echo "Nothing to do!"
  | _, _, _ =>
      (if yes then mret tt else (_ ← click_confirm w; mret tt));;
      _delete_objects delete_service services_to_delete build;;
      _delete_objects delete_deployment deployments_to_delete build;;
      _delete_objects delete_job jobs_to_delete build
  end.

(** [remove]. *)
Definition remove (cl : cluster) (kube_context : string)
    (remove_all yes : bool) (namespace : string) (app_names : list string)
  : IO unit :=
  match app_names, remove_all with
  | [], false => raise (BadParameter must_either_provide_app_names_or_all)
  | _ :: _, true => raise (BadParameter cannot_provide_both_app_names_and_all)
  | _, _ =>
      let build := {| build_env := kube_context; build_namespace := namespace |} in
      services_to_delete ←
        _get_objects_to_delete "Services" (list_services cl)
                               build remove_all app_names true;
      deployments_to_delete ←
        _get_objects_to_delete "Deployments" (list_deployments cl)
                               build remove_all app_names true;
      jobs_to_delete ←
        _get_objects_to_delete "Jobs" (list_jobs cl)
                               build remove_all app_names false;
      confirm_and_delete yes build
        services_to_delete deployments_to_delete jobs_to_delete
  end.

End api.

End Fallible.

(** ** Notions used to state what a removal that can fail does *)

Module FallibleSpec.
Import Deploy Spec RemovalPlan Fallible.

(** The three listings of [remove], with what they select. *)
Definition plan (w : world) (cl : cluster) (b : Build) (remove_all : bool)
    (app_names : list string) : IO (list object * list object * list object) :=
  s ← _get_objects_to_delete "Services" (list_services w cl) b remove_all app_names true;
  d ← _get_objects_to_delete "Deployments" (list_deployments w cl) b remove_all app_names true;
  j ← _get_objects_to_delete "Jobs" (list_jobs w cl) b remove_all app_names false;
  mret (s, d, j).

(** The three loops of lines 263-265. *)
Definition deleting (w : world) (b : Build) (s d j : list object) : IO unit :=
  _delete_objects (delete_service w) s b;;
  _delete_objects (delete_deployment w) d b;;
  _delete_objects (delete_job w) j b.

(** A computation that does not look at the terminal: what it does only
    depends on the calls made to the cluster before it. *)
Definition blind {A} (m : IO A) : Prop :=
  forall h1 h2, requests h1 = requests h2 -> m h1 = m h2.

(** What can be said, after the history [h], of a phase that only lists:
    it deletes nothing and does not prompt; it does not end in
    [click.Abort]; and when it ends in the exception of a call, that call
    is the last thing it did. *)
Definition lists_only {A} (w : world) (h : list event)
    (r : list event * result failure A) : Prop :=
  Forall (fun e => is_deletion e = false /\ e <> confirm) r.1 /\
  r.2 <> Err Abort /\
  forall call, r.2 = Err (ApiException call) ->
    exists before, r.1 = (before ++ [call])%list /\
                   raises w (requests (h ++ before)) call = true.

(** What can be said, after the history [h], of a phase that is to make
    the deletions [planned]: it makes them in order, and all of them when
    it returns; it stops at the first call that raises, which is then the
    last thing it did, and ends in that exception and in no other. *)
Definition attempts (w : world) (planned : list event) (h : list event)
    (r : list event * result failure unit) : Prop :=
  prefix (deletions r.1) planned /\
  (confirm ∉ r.1) /\
  (r.2 = Ok tt -> deletions r.1 = planned) /\
  forall f, r.2 = Err f ->
    exists before call,
      f = ApiException call /\ r.1 = (before ++ [call])%list /\
      raises w (requests (h ++ before)) call = true.

(** The computation does what the one of [Deploy] does, whatever happened
    before. *)
Definition agrees {A} (m : IO A) (m' : M A) : Prop := forall h, m h = checked m' h.

(** A world where nothing fails, whatever is answered. *)
Definition calm (a : answer) : world :=
  {| raises := fun _ _ => false; answer_to_prompt := a |}.

(** A cluster that refuses to delete the deployments. *)
Definition no_deployment_deleted : world :=
  {| raises := fun _ call =>
                 match call with
                 | api_delete "Deployments" _ _ => true
                 | _ => false
                 end;
     answer_to_prompt := accepted |}.

End FallibleSpec.

(** ** The environment status aggregator: properties *)

Module Aggregator.
Import DockerUtil Spec Sample.

Lemma for_each_app {E S A} (body : S -> A -> result E S) st xs ys :
  for_each body st (xs ++ ys)%list =
  match for_each body st xs with
  | Ok st' => for_each body st' ys
  | Err e => Err e
  end.
Proof.
  revert st. induction xs as [|x xs IH]; intros st; simpl; [done|].
  destruct (body st x) as [st'|e]; simpl; [apply IH | done].
Qed.

Section loop.
Context (cfg : kubetools_config) (all_environments : bool).
Local Abbreviation body := (loop_body cfg all_environments).
Local Abbreviation res := (resolve cfg all_environments).
Local Abbreviation keys := (resolved_keys cfg all_environments).

Lemma loop_body_skip m c : res c = Ok None -> body m c = Ok m.
Proof. intros H. unfold loop_body. by rewrite H. Qed.

Lemma loop_body_raise m c e : res c = Err e -> body m c = Err e.
Proof. intros H. unfold loop_body. by rewrite H. Qed.

Lemma loop_body_duplicate m c e n :
  res c = Ok (Some (e, n)) -> is_Some (record_of m e n) ->
  body m c = Err (ValueError_duplicate e n (get_container_data c)).
Proof.
  intros H [d Hd]. unfold loop_body. rewrite H. simpl.
  unfold record_of in Hd.
  destruct (m !! e) as [cs|] eqn:He; simpl in *; [|done].
  by rewrite Hd.
Qed.

Lemma loop_body_fresh m c e n :
  res c = Ok (Some (e, n)) -> record_of m e n = None ->
  exists m', body m c = Ok m' /\
    forall e' n', record_of m' e' n' =
      if decide ((e', n') = (e, n)) then Some (get_container_data c)
      else record_of m e' n'.
Proof.
  intros H Hd. unfold loop_body. rewrite H. simpl.
  unfold record_of in *.
  assert (default ∅ (m !! e) !! n = None) as Hn.
  { destruct (m !! e) as [cs|] eqn:He; simpl in *; [done|apply lookup_empty]. }
  rewrite Hn. eexists. split; [done|].
  intros e' n'. destruct (decide (e' = e)) as [->|Hne].
  - rewrite lookup_insert_eq. simpl.
    destruct (decide (n' = n)) as [->|Hnn].
    + rewrite lookup_insert_eq. by rewrite decide_True.
    + rewrite lookup_insert_ne by done. rewrite decide_False by congruence.
      destruct (m !! e); simpl; [done|apply lookup_empty].
  - rewrite lookup_insert_ne by done. by rewrite decide_False by congruence.
Qed.

Lemma keys_cons c cs :
  keys (c :: cs) =
  match res c with Ok (Some k) => k :: keys cs | _ => keys cs end.
Proof. unfold resolved_keys. simpl. by destruct (res c) as [[?|]|]. Qed.

Lemma elem_of_keys e n cs :
  (e, n) ∈ keys cs <-> exists c, c ∈ cs /\ res c = Ok (Some (e, n)).
Proof.
  unfold resolved_keys. rewrite list_elem_of_omap. split.
  - intros (c & Hc & Hr). exists c. split; [done|].
    destruct (res c) as [[?|]|]; congruence.
  - intros (c & Hc & Hr). exists c. split; [done|]. by rewrite Hr.
Qed.

(** What a completed loop says about its input and its result. *)
Lemma loop_completed cs : forall m0 m,
  for_each body m0 cs = Ok m ->
  Forall (resolves cfg all_environments) cs /\
  NoDup (keys cs) /\
  (forall e n, (e, n) ∈ keys cs -> record_of m0 e n = None) /\
  (forall e n d, record_of m e n = Some d <->
     record_of m0 e n = Some d \/
     exists c, c ∈ cs /\ res c = Ok (Some (e, n)) /\ d = get_container_data c).
Proof.
  induction cs as [|c cs IH]; intros m0 m Hm; simpl in Hm.
  - injection Hm as <-. split_and!; [constructor|constructor| |].
    + intros e n H. by apply elem_of_nil in H.
    + intros e n d. split; [by left|]. intros [?|(c & Hc & _)]; [done|].
      by apply elem_of_nil in Hc.
  - destruct (body m0 c) as [m1|err] eqn:Hb; simpl in Hm; [|done].
    destruct (IH _ _ Hm) as (Hall & Hnd & Hfresh & Hrec).
    rewrite keys_cons.
    destruct (res c) as [[[e0 n0]|]|err] eqn:Hr.
    + destruct (record_of m0 e0 n0) as [d0|] eqn:H0.
      { rewrite (loop_body_duplicate m0 c e0 n0) in Hb by eauto. done. }
      destruct (loop_body_fresh m0 c e0 n0 Hr H0) as (m1' & Hb' & Hm1).
      rewrite Hb in Hb'. injection Hb' as <-.
      split_and!.
      * constructor; [|done]. unfold resolves. by rewrite Hr.
      * constructor; [|done]. intros Hin.
        specialize (Hfresh _ _ Hin). rewrite Hm1 in Hfresh.
        by rewrite decide_True in Hfresh.
      * intros e n Hin. apply elem_of_cons in Hin as [[= -> ->]|Hin]; [done|].
        specialize (Hfresh _ _ Hin). rewrite Hm1 in Hfresh.
        by destruct (decide ((e, n) = (e0, n0))).
      * intros e n d. rewrite Hrec, Hm1. split.
        -- intros [H|(c' & Hc' & Hr' & ->)].
           ++ destruct (decide ((e, n) = (e0, n0))) as [[= -> ->]|]; [|by left].
              injection H as <-. right. exists c. split_and!; [left|done|done].
           ++ right. exists c'. split_and!; [by right|done|done].
        -- intros [H|(c' & Hc' & Hr' & ->)].
           ++ left. destruct (decide ((e, n) = (e0, n0))) as [[= -> ->]|]; [congruence|done].
           ++ apply elem_of_cons in Hc' as [->|Hc'].
              ** left. rewrite Hr in Hr'. injection Hr' as -> ->. by rewrite decide_True.
              ** right. exists c'. done.
    + rewrite (loop_body_skip m0 c Hr) in Hb. injection Hb as <-.
      split_and!; [|done|done|].
      * constructor; [|done]. unfold resolves. by rewrite Hr.
      * intros e n d. rewrite Hrec. split.
        -- intros [?|(c' & Hc' & Hr' & ->)]; [by left|]. right. exists c'.
           split_and!; [by right|done|done].
        -- intros [?|(c' & Hc' & Hr' & ->)]; [by left|].
           apply elem_of_cons in Hc' as [->|Hc']; [congruence|].
           right. by exists c'.
    + by rewrite (loop_body_raise m0 c err Hr) in Hb.
Qed.

(** The loop completes when every container resolves to a fresh key. *)
Lemma loop_completes cs : forall m0,
  Forall (resolves cfg all_environments) cs ->
  NoDup (keys cs) ->
  (forall e n, (e, n) ∈ keys cs -> record_of m0 e n = None) ->
  exists m, for_each body m0 cs = Ok m.
Proof.
  induction cs as [|c cs IH]; intros m0 Hall Hnd Hfresh; simpl; [by eexists|].
  apply Forall_cons in Hall as [Hc Hall]. rewrite keys_cons in Hnd, Hfresh.
  unfold resolves in Hc.
  destruct (res c) as [[[e0 n0]|]|err] eqn:Hr; [| |done].
  - apply NoDup_cons in Hnd as [Hnotin Hnd].
    destruct (loop_body_fresh m0 c e0 n0 Hr) as (m1 & -> & Hm1).
    { apply Hfresh. left. }
    simpl. apply IH; [done|done|].
    intros e n Hin. rewrite Hm1. rewrite decide_False.
    + apply Hfresh. by right.
    + intros [= -> ->]. done.
  - rewrite (loop_body_skip m0 c Hr). simpl. by apply IH.
Qed.

End loop.
Lemma set_flags_set_flags d d' r : set_flags d (set_flags d' r) = set_flags d r.
Proof. done. Qed.

Lemma last_declared_elem declared name :
  name ∈ declared.*1 ->
  exists d, last_declared declared name = Some d /\ (name, d) ∈ declared.
Proof.
  induction declared as [|[n d] rest IH]; simpl; intros Hin.
  - by apply elem_of_nil in Hin.
  - destruct (last_declared rest name) as [d'|] eqn:Hl.
    + destruct (decide (name ∈ rest.*1)) as [Hr|Hr].
      * destruct (IH Hr) as (d1 & [= ->] & Hd1). exists d1. split; [done|by right].
      * exfalso. clear IH Hin. induction rest as [|[n2 d2] rest IH2]; simpl in *; [done|].
        apply not_elem_of_cons in Hr as [Hne Hr].
        destruct (last_declared rest name); [by apply IH2|].
        by rewrite decide_False in Hl by done.
    + apply elem_of_cons in Hin as [->|Hin].
      * exists d. rewrite decide_True by done. split; [done|left].
      * destruct (IH Hin) as (? & ? & ?). done.
Qed.

Lemma last_declared_unique declared name d :
  NoDup declared.*1 -> (name, d) ∈ declared -> last_declared declared name = Some d.
Proof.
  induction declared as [|[n d0] rest IH]; simpl; intros Hnd Hin.
  - by apply elem_of_nil in Hin.
  - apply NoDup_cons in Hnd as [Hn Hnd].
    apply elem_of_cons in Hin as [[= -> ->]|Hin].
    + destruct (last_declared rest n) as [d'|] eqn:Hl.
      * exfalso. apply Hn. clear -Hl.
        induction rest as [|[n2 d2] rest IH2]; simpl in *; [done|].
        destruct (last_declared rest n); [right; by apply IH2|].
        destruct (decide (n2 = n)) as [->|]; [left|done].
      * by rewrite decide_True.
    + by rewrite (IH Hnd Hin).
Qed.

(** Lines 178-187 on one environment: a declared name gets the flags of its
    last declaration, on the live record or on a fresh absent one; the
    other names are left alone. *)
Lemma merge_declared_lookup declared : forall containers name,
  merge_declared declared containers !! name =
  match last_declared declared name with
  | Some d => Some (set_flags d (default absent (containers !! name)))
  | None => containers !! name
  end.
Proof.
  unfold merge_declared.
  induction declared as [|[n d] rest IH]; intros containers name; simpl; [done|].
  rewrite IH. clear IH.
  set (cs' := match containers !! n with None => <[n:=absent]> containers | Some _ => containers end).
  assert (alter (set_flags d) n cs' !! name =
          if decide (n = name) then Some (set_flags d (default absent (containers !! name)))
          else containers !! name) as ->.
  { rewrite lookup_alter. subst cs'. destruct (decide (n = name)) as [->|Hne].
    - destruct (containers !! name) eqn:Hc; simpl.
      + by rewrite Hc.
      + by rewrite lookup_insert_eq.
    - destruct (containers !! n); [done|]. by rewrite lookup_insert_ne. }
  destruct (last_declared rest name) as [d'|]; destruct (decide (n = name)); simpl; try done.
Qed.

Section aggregate.
Context (cfg : kubetools_config) (all_environments : bool).
Local Abbreviation body := (loop_body cfg all_environments).
Local Abbreviation res := (resolve cfg all_environments).
Local Abbreviation keys := (resolved_keys cfg all_environments).

Lemma record_of_provide_current m e n :
  record_of (provide_current cfg m) e n = record_of m e n.
Proof.
  unfold provide_current, record_of.
  destruct (m !! env cfg) eqn:Hc; [done|].
  destruct (decide (e = env cfg)) as [->|Hne].
  - rewrite lookup_insert_eq, Hc. simpl. apply lookup_empty.
  - by rewrite lookup_insert_ne.
Qed.

Lemma provide_current_lookup m : is_Some (provide_current cfg m !! env cfg).
Proof.
  unfold provide_current. destruct (m !! env cfg) eqn:Hc.
  - rewrite Hc. eauto.
  - rewrite lookup_insert_eq. eauto.
Qed.

(** The aggregated map, environment by environment. *)
Lemma aggregate_inv cs m :
  aggregate cfg all_environments cs = Ok m ->
  exists live,
    for_each body ∅ cs = Ok live /\
    m = merge_declared (all_containers cfg) <$> provide_current cfg live.
Proof.
  unfold aggregate. destruct (for_each body ∅ cs) as [live|e]; simpl; [|done].
  intros [= <-]. eauto.
Qed.


Lemma aggregate_lookup cs m e containers :
  aggregate cfg all_environments cs = Ok m ->
  m !! e = Some containers ->
  exists live livecs,
    for_each body ∅ cs = Ok live /\
    containers = merge_declared (all_containers cfg) livecs /\
    forall n, livecs !! n = record_of live e n.
Proof.
  intros Ha Hm. destruct (aggregate_inv cs m Ha) as (live & Hl & ->).
  rewrite lookup_fmap in Hm.
  destruct (provide_current cfg live !! e) as [livecs|] eqn:Hp; simpl in Hm; [|done].
  injection Hm as <-. exists live, livecs. split_and!; [done|done|].
  intros n. rewrite <- record_of_provide_current. unfold record_of. by rewrite Hp.
Qed.

Lemma aggregate_current cs m :
  aggregate cfg all_environments cs = Ok m -> is_Some (m !! env cfg).
Proof.
  intros Ha. destruct (aggregate_inv cs m Ha) as (live & Hl & ->).
  rewrite lookup_fmap. destruct (provide_current_lookup live) as [x ->]. simpl. eauto.
Qed.

Lemma get_containers_status_inv cs st :
  get_containers_status cfg all_environments cs = Ok st ->
  exists m containers,
    aggregate cfg all_environments cs = Ok m /\
    m !! env cfg = Some containers /\
    st = if all_environments then AllEnvironments m
         else CurrentEnvironment containers.
Proof.
  unfold get_containers_status.
  destruct (aggregate cfg all_environments cs) as [m|e] eqn:Ha; simpl; [|done].
  destruct (aggregate_current cs m Ha) as [containers Hc].
  intros Hst. exists m, containers. split_and!; [done|done|].
  rewrite Hc in Hst. simpl in Hst. destruct all_environments; congruence.
Qed.

Lemma status_environment cs st e containers :
  get_containers_status cfg all_environments cs = Ok st ->
  environment_of cfg st e = Some containers ->
  exists m, aggregate cfg all_environments cs = Ok m /\ m !! e = Some containers.
Proof.
  intros Hst He. destruct (get_containers_status_inv cs st Hst) as (m & cur & Ha & Hc & ->).
  exists m. split; [done|]. destruct all_environments; simpl in He; [done|].
  destruct (decide (e = env cfg)) as [->|]; congruence.
Qed.

Lemma record_of_empty e n : record_of ∅ e n = None.
Proof. unfold record_of. by rewrite lookup_empty. Qed.

Lemma keys_app xs ys : keys (xs ++ ys)%list = (keys xs ++ keys ys)%list.
Proof. apply omap_app. Qed.

(** A completed aggregation has seen every resolved key once. *)
Lemma returns_only_when_unique cs st :
  get_containers_status cfg all_environments cs = Ok st ->
  Forall (resolves cfg all_environments) cs /\ NoDup (keys cs).
Proof.
  intros Hst. destruct (get_containers_status_inv cs st Hst) as (m & cur & Ha & _).
  destruct (aggregate_inv cs m Ha) as (live & Hl & _).
  destruct (loop_completed cfg all_environments cs _ _ Hl) as (? & ? & _). done.
Qed.

(** It completes whenever every container resolves and the keys differ. *)
Lemma returns_when_unique cs :
  Forall (resolves cfg all_environments) cs -> NoDup (keys cs) ->
  exists st, get_containers_status cfg all_environments cs = Ok st.
Proof.
  intros Hall Hnd.
  destruct (loop_completes cfg all_environments cs ∅ Hall Hnd) as [live Hl].
  { intros. apply record_of_empty. }
  unfold get_containers_status, aggregate. rewrite Hl. simpl.
  destruct all_environments; eauto.
Qed.

Lemma loop_raises_at pre c post m1 err :
  for_each body ∅ pre = Ok m1 -> body m1 c = Err err ->
  get_containers_status cfg all_environments (pre ++ c :: post) = Err err.
Proof.
  intros Hpre Hc. unfold get_containers_status, aggregate.
  rewrite for_each_app, Hpre. simpl. by rewrite Hc.
Qed.

(** The loop stops at the first container whose key was already seen. *)
Lemma first_duplicate cs :
  Forall (resolves cfg all_environments) cs -> ~ NoDup (keys cs) ->
  exists pre c post e n,
    cs = (pre ++ c :: post)%list /\ NoDup (keys pre) /\ (e, n) ∈ keys pre /\
    res c = Ok (Some (e, n)) /\
    get_containers_status cfg all_environments cs =
      Err (ValueError_duplicate e n (get_container_data c)).
Proof.
  induction cs as [|x cs IH] using rev_ind; intros Hall Hdup.
  - exfalso. apply Hdup. constructor.
  - apply Forall_app in Hall as [Hall Hx]. apply Forall_inv in Hx.
    destruct (decide (NoDup (keys cs))) as [Hnd|Hnd].
    + destruct (loop_completes cfg all_environments cs ∅ Hall Hnd) as [m1 Hm1].
      { intros. apply record_of_empty. }
      rewrite keys_app, keys_cons in Hdup. unfold resolves in Hx.
      destruct (res x) as [[[e n]|]|] eqn:Hr; [| |by destruct Hx].
      * assert ((e, n) ∈ keys cs) as Hin.
        { destruct (decide ((e, n) ∈ keys cs)); [done|]. exfalso. apply Hdup.
          apply NoDup_app. split_and!; [done| |apply NoDup_singleton].
          intros k Hk Hk'. apply list_elem_of_singleton in Hk'. by subst. }
        exists cs, x, [], e, n. split_and!; [done|done|done|done|].
        apply loop_raises_at with m1; [done|].
        apply loop_body_duplicate; [done|].
        destruct (loop_completed cfg all_environments cs _ _ Hm1) as (_ & _ & _ & Hrec).
        apply elem_of_keys in Hin as (c & Hc & Hrc).
        exists (get_container_data c). apply Hrec. right. by exists c.
      * exfalso. apply Hdup. simpl. by rewrite app_nil_r.
    + destruct (IH Hall Hnd) as (pre & c & post & e & n & -> & ? & ? & ? & Hget).
      exists pre, c, (post ++ [x])%list, e, n.
      split_and!; [by rewrite <- app_assoc|done|done|done|].
      revert Hget. unfold get_containers_status, aggregate.
      rewrite <- app_assoc. simpl. rewrite !for_each_app.
      destruct (for_each body ∅ pre) as [m1|]; simpl; [|done].
      destruct (body m1 c); simpl; [|done].
      rewrite for_each_app.
      destruct (for_each body a post); simpl; [|done].
      destruct all_environments; done.
Qed.

Lemma two_records_not_unique cs i j ci cj e n :
  i < j -> cs !! i = Some ci -> cs !! j = Some cj ->
  res ci = Ok (Some (e, n)) -> res cj = Ok (Some (e, n)) ->
  ~ NoDup (keys cs).
Proof.
  intros Hij Hi Hj Hri Hrj Hnd.
  rewrite <- (take_drop_middle cs i ci Hi) in Hnd.
  rewrite keys_app, keys_cons, Hri in Hnd.
  apply NoDup_app in Hnd as (_ & _ & Hnd). apply NoDup_cons in Hnd as [Hnotin _].
  apply Hnotin. apply elem_of_keys. exists cj. split; [|done].
  apply list_elem_of_lookup. exists (j - S i). rewrite lookup_drop.
  replace (S i + (j - S i)) with j by lia. done.
Qed.

(** An exception of the loop body is the one of identity resolution or the
    duplicate error. *)
Lemma loop_body_error m c err :
  body m c = Err err ->
  res c = Err err \/
  exists e n, res c = Ok (Some (e, n)) /\ is_Some (record_of m e n) /\
              err = ValueError_duplicate e n (get_container_data c).
Proof.
  intros Hb. destruct (res c) as [[[e n]|]|err'] eqn:Hr.
  - right. exists e, n. destruct (record_of m e n) as [d|] eqn:Hd.
    + rewrite (loop_body_duplicate cfg all_environments m c e n) in Hb by eauto.
      injection Hb as <-. eauto.
    + destruct (loop_body_fresh cfg all_environments m c e n Hr Hd) as (m' & Hb' & _). congruence.
  - rewrite (loop_body_skip cfg all_environments m c Hr) in Hb. done.
  - rewrite (loop_body_raise cfg all_environments m c err' Hr) in Hb. left. congruence.
Qed.

(** A loop that raises went through the containers before the one that
    made it raise. *)
Lemma loop_error cs : forall m0 err,
  for_each body m0 cs = Err err ->
  exists pre c post m1,
    cs = (pre ++ c :: post)%list /\ for_each body m0 pre = Ok m1 /\
    body m1 c = Err err.
Proof.
  induction cs as [|x cs IH]; intros m0 err Hl; simpl in Hl; [done|].
  destruct (body m0 x) as [m1|e] eqn:Hb; simpl in Hl.
  - destruct (IH _ _ Hl) as (pre & c & post & m2 & -> & Hpre & Hc).
    exists (x :: pre), c, post, m2. simpl. rewrite Hb. simpl. done.
  - injection Hl as <-. exists [], x, cs, m0. done.
Qed.

Lemma status_error cs err :
  get_containers_status cfg all_environments cs = Err err ->
  for_each body ∅ cs = Err err.
Proof.
  unfold get_containers_status, aggregate.
  destruct (for_each body ∅ cs) as [live|e]; simpl; [by destruct all_environments|by intros [= ->]].
Qed.

(** What made the loop raise is not looked at again. *)
Lemma status_error_prefix pre post err :
  get_containers_status cfg all_environments pre = Err err ->
  get_containers_status cfg all_environments (pre ++ post) = Err err.
Proof.
  intros H. apply status_error in H.
  unfold get_containers_status, aggregate. rewrite for_each_app, H. done.
Qed.

End aggregate.

(** *** Strings *)

Lemma prefix_empty s : String.prefix "" s = true.
Proof. by destruct s. Qed.

Lemma contains_cons old c s :
  Py.contains old (String c s) = false ->
  String.prefix old (String c s) = false /\ Py.contains old s = false.
Proof. simpl. intros H. by apply orb_false_iff in H. Qed.

Lemma split_no_separator sep s :
  Py.contains (String sep "") s = false -> Py.split sep s = [s].
Proof.
  induction s as [|c s IH]; [done|]. intros H.
  apply contains_cons in H as [Hp Hc]. simpl in *.
  destruct (ascii_dec sep c) as [->|Hne]; [by rewrite prefix_empty in Hp|].
  destruct (Ascii.eqb_spec c sep) as [->|_]; [done|]. by rewrite (IH Hc).
Qed.

Lemma split_at_separator sep a t :
  Py.contains (String sep "") a = false ->
  Py.split sep (a +:+ String sep t) = a :: Py.split sep t.
Proof.
  induction a as [|c a IH]; intros H; simpl.
  - by rewrite Ascii.eqb_refl.
  - apply contains_cons in H as [Hp Hc]. simpl in Hp.
    destruct (ascii_dec sep c) as [->|Hne]; [by rewrite prefix_empty in Hp|].
    destruct (Ascii.eqb_spec c sep) as [->|_]; [done|]. by rewrite (IH Hc).
Qed.

Lemma replace_from_skip old new s1 : forall s2,
  Py.replace_from old new (String.length s1) (s1 +:+ s2) = Py.replace_from old new 0 s2.
Proof.
  induction s1 as [|c s1 IH]; intros s2; simpl; [|apply IH].
  by destruct s2.
Qed.

Lemma replace_from_no_occurrence old c s :
  Py.contains (String c old) s = false -> Py.replace_from (String c old) "" 0 s = s.
Proof.
  induction s as [|b s IH]; [done|]. intros H.
  apply contains_cons in H as [Hp Hc].
  change (Py.replace_from (String c old) "" 0 (String b s))
    with (if String.prefix (String c old) (String b s)
          then "" +:+ Py.replace_from (String c old) "" (String.length (String c old) - 1) s
          else String b (Py.replace_from (String c old) "" 0 s)).
  rewrite Hp. by rewrite (IH Hc).
Qed.

Lemma prefix_app s t : String.prefix s (s +:+ t) = true.
Proof.
  induction s as [|c s IH]; simpl; [apply prefix_empty|].
  by destruct (ascii_dec c c).
Qed.

(** Taking the project name out of [project + E] gives back [E] as long as
    the project name does not occur in [E]. *)
Lemma replace_strips_prefix project e :
  project <> "" -> Py.contains project e = false ->
  Py.replace (project +:+ e) project "" = e.
Proof.
  destruct project as [|c old]; [done|]. intros _ H. unfold Py.replace.
  change (Py.replace_from (String c old) "" 0 (String c old +:+ e))
    with (if String.prefix (String c old) (String c (old +:+ e))
          then "" +:+ Py.replace_from (String c old) "" (String.length (String c old) - 1) (old +:+ e)
          else String c (Py.replace_from (String c old) "" 0 (old +:+ e))).
  change (String c (old +:+ e)) with (String c old +:+ e). rewrite prefix_app.
  replace (String.length (String c old) - 1) with (String.length old) by (simpl; lia).
  rewrite replace_from_skip. simpl.
  by apply replace_from_no_occurrence.
Qed.

(** *** Identity resolution *)

Lemma get_name_no_separator c :
  Py.contains "_" (container_name c) = false -> get_name c = Err IndexError.
Proof. intros H. unfold get_name. by rewrite (split_no_separator _ _ H). Qed.

(** [project_component_N] gives [component]. *)
Lemma get_name_component c project component rest :
  Py.contains "_" project = false -> Py.contains "_" component = false ->
  container_name c = project +:+ "_" +:+ component +:+ "_" +:+ rest ->
  get_name c = Ok component.
Proof.
  intros Hp Hc Hn. unfold get_name. rewrite Hn.
  change (project +:+ "_" +:+ component +:+ "_" +:+ rest)
    with (project +:+ String "_" (component +:+ String "_" rest)).
  rewrite (split_at_separator _ _ _ Hp), (split_at_separator _ _ _ Hc). done.
Qed.

Lemma get_env_explicit cfg c cp e :
  container_labels c !! env_label = Some e -> e <> "" -> get_env cfg c cp = e.
Proof. intros H Hne. unfold get_env. rewrite H. by destruct e. Qed.

Lemma get_env_legacy cfg c cp :
  container_labels c !! env_label = None \/ container_labels c !! env_label = Some "" ->
  get_env cfg c cp = Py.replace cp (docker_name cfg) "".
Proof. intros [H|H]; unfold get_env; by rewrite H. Qed.

Lemma get_env_legacy_prefix cfg c e :
  container_labels c !! env_label = None ->
  docker_name cfg <> "" -> Py.contains (docker_name cfg) e = false ->
  get_env cfg c (docker_name cfg +:+ e) = e.
Proof.
  intros H Hne Hc. rewrite get_env_legacy by auto. by apply replace_strips_prefix.
Qed.

Lemma resolve_processed cfg all_environments c cp n :
  container_labels c !! compose_project_label = Some cp ->
  (all_environments = true -> Py.startswith cp (docker_name cfg) = true) ->
  get_name c = Ok n ->
  resolve cfg all_environments c = Ok (Some (get_env cfg c cp, n)).
Proof.
  intros Hcp Hs Hn. unfold resolve. rewrite Hcp.
  destruct all_environments; simpl; [rewrite Hs by done; simpl|]; by rewrite Hn.
Qed.

Lemma resolve_no_separator cfg all_environments c cp :
  container_labels c !! compose_project_label = Some cp ->
  (all_environments = true -> Py.startswith cp (docker_name cfg) = true) ->
  Py.contains "_" (container_name c) = false ->
  resolve cfg all_environments c = Err IndexError.
Proof.
  intros Hcp Hs Hn. unfold resolve. rewrite Hcp.
  destruct all_environments; simpl; [rewrite Hs by done; simpl|];
    by rewrite (get_name_no_separator _ Hn).
Qed.

Lemma resolve_errors cfg all_environments c e :
  resolve cfg all_environments c = Err e ->
  (e = KeyError compose_project_label /\
   container_labels c !! compose_project_label = None) \/
  (e = IndexError /\ get_name c = Err IndexError).
Proof.
  unfold resolve, get_name.
  destruct (container_labels c !! compose_project_label) as [cp|]; [|intros [= <-]; by left].
  destruct (all_environments && negb (Py.startswith cp (docker_name cfg))); [done|].
  destruct (Py.split "_" (container_name c) !! 1%nat); simpl; [done|].
  intros [= <-]. by right.
Qed.

Section claims.
Context (cfg : kubetools_config) (all_environments : bool).
Local Abbreviation body := (loop_body cfg all_environments).
Local Abbreviation res := (resolve cfg all_environments).
Local Abbreviation keys := (resolved_keys cfg all_environments).

(** The declarations only touch the two flags of a live record. *)
Lemma aggregate_keeps_live cs m live e n d :
  for_each body ∅ cs = Ok live ->
  aggregate cfg all_environments cs = Ok m ->
  record_of live e n = Some d ->
  exists r, record_of m e n = Some r /\
    up r = up d /\ ports r = ports d /\ id r = id d /\ labels r = labels d.
Proof.
  intros Hl Ha Hd. destruct (aggregate_inv cfg all_environments cs m Ha) as (live' & Hl' & ->).
  rewrite Hl in Hl'. injection Hl' as <-.
  unfold record_of. rewrite lookup_fmap.
  rewrite <- (record_of_provide_current cfg) in Hd. unfold record_of in Hd.
  destruct (provide_current cfg live !! e) as [livecs|]; simpl in *; [|done].
  rewrite merge_declared_lookup, Hd.
  destruct (last_declared (all_containers cfg) n); eexists; (split; [done|]); done.
Qed.


(** C1. Whenever the status is returned, every environment of the result
    holds a record for every declared container name. Its two flags are
    those of the declaration of that name (the last one yielded, [false]
    for a flag the declaration does not set). When no live container was
    resolved to that environment and name, the record is the synthesized
    one: [up] and [id] are [None] and the port list is empty; otherwise it
    keeps what the live container gave. *)
Theorem C1_declared_containers_never_lost cs st env_name containers name :
  get_containers_status cfg all_environments cs = Ok st ->
  environment_of cfg st env_name = Some containers ->
  name ∈ (all_containers cfg).*1 ->
  exists d r,
    last_declared (all_containers cfg) name = Some d /\
    (name, d) ∈ all_containers cfg /\
    containers !! name = Some r /\
    is_dependency r = Some (default false (decl_is_dependency d)) /\
    is_deployment r = Some (default false (decl_is_deployment d)) /\
    ((env_name, name) ∉ keys cs ->
       up r = None /\ id r = None /\ ports r = [] /\ labels r = None) /\
    (forall c, c ∈ cs -> res c = Ok (Some (env_name, name)) ->
       up r = up (get_container_data c) /\ id r = Some (container_id c) /\
       ports r = get_ports c /\ labels r = Some (container_labels c)).
Proof.
  intros Hst He Hname.
  destruct (status_environment cfg all_environments cs st env_name containers Hst He)
    as (m & Ha & Hm).
  destruct (aggregate_lookup cfg all_environments cs m env_name containers Ha Hm)
    as (live & livecs & Hl & -> & Hlive).
  destruct (last_declared_elem _ _ Hname) as (d & Hd & Hin).
  destruct (loop_completed cfg all_environments cs _ _ Hl) as (_ & _ & _ & Hrec).
  exists d, (set_flags d (default absent (livecs !! name))).
  split_and!; [done|done| |done|done| |].
  - rewrite merge_declared_lookup, Hd. done.
  - intros Hnot. rewrite Hlive.
    destruct (record_of live env_name name) as [x|] eqn:Hx; [|done].
    exfalso. apply Hnot. apply Hrec in Hx as [Hx|(c & Hc & Hr & _)].
    + by rewrite record_of_empty in Hx.
    + apply elem_of_keys. eauto.
  - intros c Hc Hr. rewrite Hlive.
    assert (record_of live env_name name = Some (get_container_data c)) as ->.
    { apply Hrec. right. eauto. }
    done.
Qed.

(** C2, as the code has it. When two containers of the listing resolve to
    the same logical name in the same environment, the status is never
    returned: the call ends in an exception and nothing is overwritten.
    When every container listed before the second of the two resolves,
    that exception is the duplicate error, raised at the first container
    whose environment and name were already filed, at the second of the
    two at the latest, and naming them. In any case the exception is the
    duplicate error or the one a container listed before the second of
    the two raised when it was resolved. *)
Theorem C2_duplicate_name_is_fatal cs i j ci cj e n :
  i < j -> cs !! i = Some ci -> cs !! j = Some cj ->
  res ci = Ok (Some (e, n)) -> res cj = Ok (Some (e, n)) ->
  (exists err, get_containers_status cfg all_environments cs = Err err) /\
  (Forall (resolves cfg all_environments) (take j cs) ->
   exists pre c post e' n',
     cs = (pre ++ c :: post)%list /\ length pre <= j /\
     NoDup (keys pre) /\ (e', n') ∈ keys pre /\
     res c = Ok (Some (e', n')) /\
     get_containers_status cfg all_environments cs =
       Err (ValueError_duplicate e' n' (get_container_data c))) /\
  (forall err, get_containers_status cfg all_environments cs = Err err ->
     (exists e' n' d, err = ValueError_duplicate e' n' d) \/
     (exists k ck, k < j /\ cs !! k = Some ck /\ res ck = Err err)).
Proof.
  intros Hij Hi Hj Hri Hrj.
  pose proof (two_records_not_unique cfg all_environments cs i j ci cj e n
                Hij Hi Hj Hri Hrj) as Hdup.
  split_and!.
  - destruct (get_containers_status cfg all_environments cs) as [st|err] eqn:Hst; [|eauto].
    exfalso. apply Hdup. by apply (returns_only_when_unique cfg all_environments cs st).
  - intros Hall.
    assert (take (S j) cs = (take j cs ++ [cj])%list) as Htake by (by apply take_S_r).
    assert (Forall (resolves cfg all_environments) (take (S j) cs)) as Hall'.
    { rewrite Htake. apply Forall_app. split; [done|].
      constructor; [|constructor]. unfold resolves. by rewrite Hrj. }
    assert (~ NoDup (keys (take (S j) cs))) as Hdup'.
    { apply (two_records_not_unique cfg all_environments _ i j ci cj e n);
        [done| | |done|done].
      - rewrite lookup_take_lt by lia. done.
      - rewrite lookup_take_lt by lia. done. }
    destruct (first_duplicate cfg all_environments _ Hall' Hdup')
      as (pre & c & post & e' & n' & Hcs & Hnd & Hin & Hrc & Hget).
    exists pre, c, (post ++ drop (S j) cs)%list, e', n'.
    split_and!; [| |done|done|done|].
    + rewrite <- (take_drop (S j) cs) at 1. rewrite Hcs, <- app_assoc. done.
    + apply (f_equal length) in Hcs. rewrite length_take, length_app in Hcs.
      rewrite length_cons in Hcs. lia.
    + rewrite <- (take_drop (S j) cs). by apply status_error_prefix.
  - intros err Herr. apply status_error in Herr.
    destruct (loop_error cfg all_environments cs _ _ Herr)
      as (pre & c & post & m1 & Hcs & Hpre & Hc).
    apply loop_body_error in Hc as [Hc|(e' & n' & _ & _ & ->)]; [|left; eauto].
    right. exists (length pre), c.
    assert (cs !! length pre = Some c) as Hk.
    { rewrite Hcs. by apply list_lookup_middle. }
    split_and!; [|done|done].
    destruct (decide (length pre < j)) as [|Hge]; [done|exfalso].
    destruct (decide (length pre = j)) as [Heq|Hne].
    + rewrite Heq, Hj in Hk. injection Hk as ->. congruence.
    + destruct (loop_completed cfg all_environments pre _ _ Hpre) as (_ & Hnd & _).
      apply (two_records_not_unique cfg all_environments pre i j ci cj e n);
        [done| | |done|done|done].
      * rewrite Hcs in Hi. rewrite lookup_app_l in Hi by lia. done.
      * rewrite Hcs in Hj. rewrite lookup_app_l in Hj by lia. done.
Qed.

(** C5. Whenever the status is returned, the aggregated map has the
    current environment among its keys; with [all_environments] the whole
    map is returned, without it exactly the current environment's
    containers. When no live container belongs to the current
    environment, its containers are the declared ones, all absent. *)
Theorem C5_current_environment_present cs st :
  get_containers_status cfg all_environments cs = Ok st ->
  exists m containers,
    aggregate cfg all_environments cs = Ok m /\
    m !! env cfg = Some containers /\
    st = (if all_environments then AllEnvironments m
          else CurrentEnvironment containers) /\
    environment_of cfg st (env cfg) = Some containers /\
    ((forall n, (env cfg, n) ∉ keys cs) ->
     containers = merge_declared (all_containers cfg) ∅).
Proof.
  intros Hst.
  destruct (get_containers_status_inv cfg all_environments cs st Hst)
    as (m & containers & Ha & Hm & ->).
  exists m, containers. split_and!; [done|done|done| |].
  - destruct all_environments; simpl; [done|]. by rewrite decide_True.
  - intros Hnone.
    destruct (aggregate_lookup cfg all_environments cs m _ _ Ha Hm)
      as (live & livecs & Hl & -> & Hlive).
    destruct (loop_completed cfg all_environments cs _ _ Hl) as (_ & _ & _ & Hrec).
    f_equal. apply map_eq. intros n. rewrite Hlive, lookup_empty.
    destruct (record_of live (env cfg) n) as [x|] eqn:Hx; [|done].
    exfalso. apply Hrec in Hx as [Hx|(c & Hc & Hr & _)].
    + by rewrite record_of_empty in Hx.
    + apply (Hnone n). apply elem_of_keys. eauto.
Qed.

(** C7, as the code has it. A container that carries the compose-project
    label always gets an environment: resolving it can only fail on its
    name. Without an explicit environment label the environment is the
    compose project name with the project name taken out, whatever is
    left of it, and a container that is not passed over is filed under
    that environment with what the runtime reported. *)
Theorem C7_environment_always_derived c cp :
  container_labels c !! compose_project_label = Some cp ->
  (forall err, res c = Err err -> err = IndexError) /\
  (container_labels c !! env_label = None ->
   get_env cfg c cp = Py.replace cp (docker_name cfg) "") /\
  (forall n pre post m,
     (all_environments = true -> Py.startswith cp (docker_name cfg) = true) ->
     get_name c = Ok n ->
     aggregate cfg all_environments (pre ++ c :: post) = Ok m ->
     res c = Ok (Some (get_env cfg c cp, n)) /\
     exists r, record_of m (get_env cfg c cp) n = Some r /\
       id r = Some (container_id c) /\ up r = up (get_container_data c)).
Proof.
  intros Hcp. split_and!.
  - intros err Herr. apply resolve_errors in Herr as [[_ H]|[-> _]]; [congruence|done].
  - intros H. apply get_env_legacy. by left.
  - intros n pre post m Hs Hn Ha.
    pose proof (resolve_processed cfg all_environments c cp n Hcp Hs Hn) as Hr.
    split; [done|].
    destruct (aggregate_inv cfg all_environments _ m Ha) as (live & Hl & _).
    destruct (loop_completed cfg all_environments _ _ _ Hl) as (_ & _ & _ & Hrec).
    destruct (aggregate_keeps_live _ m live (get_env cfg c cp) n (get_container_data c) Hl Ha)
      as (r & Hrm & Hup & _ & Hid & _).
    { apply Hrec. right. exists c. split_and!; [|done|done].
      apply elem_of_app. right. left. }
    exists r. split_and!; [done| |done]. by rewrite Hid.
Qed.

(** C10, as the code has it. The logical name is the second segment of
    the container name cut at underscores. When the containers before it
    went through the loop, a container that is not passed over and whose
    name has no underscore ends the call with [IndexError]. *)
Theorem C10_name_without_separator pre c post cp live :
  for_each body ∅ pre = Ok live ->
  container_labels c !! compose_project_label = Some cp ->
  (all_environments = true -> Py.startswith cp (docker_name cfg) = true) ->
  Py.contains "_" (container_name c) = false ->
  Py.split "_" (container_name c) = [container_name c] /\
  get_name c = Err IndexError /\
  get_containers_status cfg all_environments (pre ++ c :: post) = Err IndexError.
Proof.
  intros Hpre Hcp Hs Hn. split_and!.
  - by apply split_no_separator.
  - by apply get_name_no_separator.
  - apply loop_raises_at with live; [done|].
    apply loop_body_raise. by apply resolve_no_separator with cp.
Qed.

End claims.

Lemma C1_declared_containers_never_lost_witness :
  exists d r,
    last_declared (all_containers app_dev) "db" = Some d /\
    (default ∅ (environment_of app_dev
       (returned (get_containers_status app_dev false [web_1])) "dev")) !! "db" = Some r /\
    is_dependency r = Some true /\ is_deployment r = Some false /\ up r = None.
Proof.
  destruct (C1_declared_containers_never_lost app_dev false [web_1]
              (returned (get_containers_status app_dev false [web_1])) "dev"
              (default ∅ (environment_of app_dev
                 (returned (get_containers_status app_dev false [web_1])) "dev"))
              "db")
    as (d & r & Hd & _ & Hr & Hdep & Hdpl & Habs & _).
  - vm_compute. reflexivity.
  - vm_compute. reflexivity.
  - refine (bool_decide_unpack _ _); vm_compute; exact I.
  - exists d, r. vm_compute in Hd. injection Hd as <-.
    split_and!; [vm_compute; reflexivity|exact Hr|exact Hdep|exact Hdpl|].
    apply Habs. refine (bool_decide_unpack _ _); vm_compute; exact I.
Defined.

Lemma C2_duplicate_name_is_fatal_witness :
  exists err, get_containers_status app_dev false [web_1; web_2] = Err err.
Proof.
  apply (C2_duplicate_name_is_fatal app_dev false [web_1; web_2] 0 1 web_1 web_2 "dev" "web").
  - lia.
  - reflexivity.
  - reflexivity.
  - vm_compute. reflexivity.
  - vm_compute. reflexivity.
Defined.

(** C2 as stated fails: [web_1] and [web_2] resolve to the same name in
    the same environment, but the container listed between them has a name
    without underscore: the call ends in the exception raised for that
    name, which is not the duplicate error. *)
Lemma C2_counterexample :
  resolve app_dev false web_1 = Ok (Some ("dev", "web")) /\
  resolve app_dev false web_2 = Ok (Some ("dev", "web")) /\
  resolve app_dev false hyphenated = Err IndexError /\
  get_containers_status app_dev false [web_1; hyphenated; web_2] = Err IndexError /\
  forall e n d, IndexError <> ValueError_duplicate e n d.
Proof. split_and!; [vm_compute; reflexivity..|]. intros e n d. discriminate. Qed.

Lemma C5_current_environment_present_witness :
  exists m containers,
    aggregate app_dev true [] = Ok m /\ m !! "dev" = Some containers.
Proof.
  destruct (C5_current_environment_present app_dev true []
              (returned (get_containers_status app_dev true [])))
    as (m & containers & Ha & Hm & _).
  - vm_compute. reflexivity.
  - exists m, containers. split; [exact Ha|exact Hm].
Defined.

Lemma C7_environment_always_derived_witness :
  get_env app_dev bare_web "app" = Py.replace "app" "app" "".
Proof.
  destruct (C7_environment_always_derived app_dev true bare_web "app") as (_ & H & _).
  - vm_compute. reflexivity.
  - apply H. vm_compute. reflexivity.
Defined.

(** C7 as stated fails: [bare_web] has no environment label and nothing is
    left of its compose project name once the project name is taken out,
    yet it is resolved, the status is returned, and the record is filed
    under the environment with the empty name. *)
Lemma C7_counterexample :
  container_labels bare_web !! env_label = None /\
  Py.replace "app" (docker_name app_dev) "" = "" /\
  resolve app_dev true bare_web = Ok (Some ("", "web")) /\
  exists st containers r,
    get_containers_status app_dev true [bare_web] = Ok st /\
    environment_of app_dev st "" = Some containers /\
    containers !! "web" = Some r /\ id r = Some "9d21".
Proof.
  split_and!; [vm_compute; reflexivity..|].
  exists (returned (get_containers_status app_dev true [bare_web])).
  eexists. eexists. split_and!; vm_compute; reflexivity.
Qed.

Lemma C10_name_without_separator_witness :
  get_containers_status app_dev false [web_1; hyphenated] = Err IndexError.
Proof.
  apply (C10_name_without_separator app_dev false [web_1] hyphenated [] "appdev"
           (match for_each (loop_body app_dev false) ∅ [web_1] with
            | Ok live => live | Err _ => ∅ end)).
  - vm_compute. reflexivity.
  - vm_compute. reflexivity.
  - intros H. discriminate H.
  - vm_compute. reflexivity.
Defined.

(** C10 as stated fails: with [all_environments], a container of another
    compose project is passed over before its name is looked at, so its
    name without underscore raises nothing and the status is returned. *)
Lemma C10_counterexample :
  Py.contains "_" (container_name foreign) = false /\
  resolve app_dev true foreign = Ok None /\
  exists st, get_containers_status app_dev true [foreign] = Ok st.
Proof.
  split_and!; [vm_compute; reflexivity..|].
  exists (returned (get_containers_status app_dev true [foreign])).
  vm_compute. reflexivity.
Qed.

(** The fallback on a container made before the label existed. *)
Example legacy_web_resolves :
  resolve app_dev true legacy_web = Ok (Some ("dev", "web")).
Proof. vm_compute. reflexivity. Qed.

(** [web] is live with a published port, [db] was never started. *)
Example web_up_db_absent :
  exists containers web db,
    get_containers_status app_dev false [web_published]
      = Ok (CurrentEnvironment containers) /\
    containers !! "web" = Some web /\ containers !! "db" = Some db /\
    up web = Some true /\
    ports web = [{| local := "8000/tcp"; host := "32000" |}] /\
    is_deployment web = Some true /\ is_dependency web = Some false /\
    db = set_flags db_decl absent.
Proof.
  eexists _, _, _. split_and!; [vm_compute; reflexivity..].
Qed.

(** C6 at a failing input. Project [web], environment [webtest], no
    environment label: the compose project name is the project name
    followed by [webtest], and the code resolves the container to the
    environment [test], because every occurrence of the project name is
    taken out, not only the leading one. *)
Theorem C6_legacy_environment_not_prefix_stripped :
  container_labels webtest_api !! env_label = None /\
  container_labels webtest_api !! compose_project_label
    = Some (docker_name web_project +:+ "webtest") /\
  get_env web_project webtest_api (docker_name web_project +:+ "webtest") = "test" /\
  resolve web_project true webtest_api = Ok (Some ("test", "api")) /\
  resolve web_project false webtest_api = Ok (Some ("test", "api")).
Proof. split_and!; vm_compute; reflexivity. Qed.

End Aggregator.

(** ** The process runner: properties *)

Module Runner.
Import Process Spec.

Lemma run_process_spawn_fails args capture_output debug e :
  run_process args capture_output debug (spawn_fails e) =
  Err (KubeDevCommandError args (Raised_OSError e)).
Proof. unfold run_process, run_process_body. by destruct (capturing_output _ _). Qed.

Lemma run_process_exits args capture_output debug output_lines code :
  run_process args capture_output debug (exits output_lines (Some code)) =
  let stdout := output_of (capturing_output capture_output debug) output_lines in
  if (code >? 0)%Z then Err (KubeDevCommandError args (Output stdout))
  else Ok stdout.
Proof.
  unfold run_process, run_process_body, output_of.
  destruct (capturing_output _ _); simpl; by destruct (code >? 0)%Z.
Qed.

Lemma run_process_no_exit_code args capture_output debug output_lines :
  run_process args capture_output debug (exits output_lines None) = Err TypeError.
Proof. unfold run_process, run_process_body. by destruct (capturing_output _ _). Qed.

(** C8. The run ends in the command-failure error exactly when the exit
    code is strictly positive or the process could not be started. The
    error carries the arguments, with the error of the operating system
    when the start failed, and with the output when the exit code is
    positive: in captured mode the captured lines joined with newlines. An
    exit code that is zero or negative returns the output. *)
Theorem C8_failure_classification args capture_output debug ch :
  (command_failure (run_process args capture_output debug ch) <-> failed ch) /\
  (forall e, ch = spawn_fails e ->
     run_process args capture_output debug ch =
       Err (KubeDevCommandError args (Raised_OSError e))) /\
  (forall output_lines code, ch = exits output_lines (Some code) -> (0 < code)%Z ->
     run_process args capture_output debug ch =
       Err (KubeDevCommandError args
              (Output (output_of (capturing_output capture_output debug) output_lines)))) /\
  (forall output_lines code, ch = exits output_lines (Some code) -> (code <= 0)%Z ->
     run_process args capture_output debug ch =
       Ok (output_of (capturing_output capture_output debug) output_lines)) /\
  (forall output_lines,
     output_of true output_lines = Some (Py.join newline output_lines)).
Proof.
  split_and!.
  - destruct ch as [e|output_lines [code|]].
    + by rewrite run_process_spawn_fails.
    + rewrite run_process_exits. simpl.
      destruct (Z.gtb_spec code 0); simpl; [done|]. split; [done|lia].
    + by rewrite run_process_no_exit_code.
  - intros e ->. apply run_process_spawn_fails.
  - intros output_lines code -> Hpos. rewrite run_process_exits. simpl.
    destruct (Z.gtb_spec code 0); [done|lia].
  - intros output_lines code -> Hpos. rewrite run_process_exits. simpl.
    destruct (Z.gtb_spec code 0); [lia|done].
  - done.
Qed.

(** A captured command that exits with code 2. *)
Example captured_exit_2 :
  run_process ["docker-compose"; "up"] None 0 (exits ["pulling"; "failed"] (Some 2%Z)) =
  Err (KubeDevCommandError ["docker-compose"; "up"]
         (Output (Some ("pulling" +:+ newline +:+ "failed")))).
Proof. reflexivity. Qed.

End Runner.

(** ** Guarded removal: properties *)

Module Removal.
Import Deploy Spec Sample.

Lemma bind_Ok {A B} (m : M A) (f : A -> M B) a :
  outcome m = Ok a ->
  outcome (m ≫= f) = outcome (f a) /\
  trace (m ≫= f) = (trace m ++ trace (f a))%list.
Proof.
  destruct m as [t r]. simpl. intros ->.
  unfold mbind, M_bind, trace, outcome. by destruct (f a).
Qed.

Lemma bind_Err {A B} (m : M A) (f : A -> M B) e :
  outcome m = Err e ->
  outcome (m ≫= f) = Err e /\ trace (m ≫= f) = trace m.
Proof. destruct m as [t r]. simpl. by intros ->. Qed.

Lemma deletions_app t1 t2 :
  deletions (t1 ++ t2)%list = (deletions t1 ++ deletions t2)%list.
Proof. apply List.filter_app. Qed.

Lemma quiet_bind {A B} (m : M A) (f : A -> M B) :
  quiet m -> (forall a, quiet (f a)) -> quiet (m ≫= f).
Proof.
  intros [[a Ha] Hd] Hf. destruct (bind_Ok m f a Ha) as [Ho Ht].
  destruct (Hf a) as [[b Hb] Hdb]. split.
  - exists b. by rewrite Ho.
  - by rewrite Ht, deletions_app, Hd, Hdb.
Qed.

Lemma quiet_echo line : quiet (emit (echo line)).
Proof. split; [by exists tt|done]. Qed.

Lemma quiet_ret {A} (a : A) : quiet (mret a : M A).
Proof. split; [by exists a|done]. Qed.

Lemma quiet_for {A} (xs : list A) (body : A -> M unit) :
  (forall x, quiet (body x)) -> quiet (for_ xs body).
Proof.
  intros Hb. induction xs as [|x xs IH]; [apply (quiet_ret tt)|].
  simpl. apply quiet_bind; [apply Hb|]. intros _. apply IH.
Qed.

Lemma quiet_announce object_type objs : quiet (announce object_type objs).
Proof.
  destruct objs as [|o objs]; [apply (quiet_ret tt)|]. unfold announce.
  apply quiet_bind; [apply quiet_echo|]. intros _.
  apply quiet_bind; [|intros _; apply quiet_echo].
  apply quiet_for. intros x. apply quiet_echo.
Qed.

Lemma quiet_outcome_unit (m : M unit) : quiet m -> outcome m = Ok tt.
Proof. intros [[[] H] _]. done. Qed.

(** The labels read at lines 183-186 are those of matched objects: they
    are all there. *)
Lemma name_labels_matched app_names objs :
  name_labels (List.filter (requested app_names) objs) = Ok (matched_names app_names objs).
Proof.
  unfold matched_names. induction objs as [|o objs IH]; [done|]. simpl.
  destruct (requested app_names o) eqn:Hreq; [|done].
  unfold requested in Hreq.
  destruct (metadata_labels o !! name_label) as [n|] eqn:Hn; [|done].
  simpl. rewrite Hn, IH. simpl. done.
Qed.

Lemma elem_of_matched_names app_names objs n :
  n ∈ matched_names app_names objs <->
  n ∈ app_names /\ exists o, o ∈ objs /\ metadata_labels o !! name_label = Some n.
Proof.
  unfold matched_names. rewrite elem_of_list_to_set, list_elem_of_omap. split.
  - intros (o & Ho & Hn). apply list_elem_of_In, List.filter_In in Ho as [Ho Hreq].
    unfold requested in Hreq. rewrite Hn in Hreq. apply bool_decide_eq_true in Hreq.
    split; [done|]. exists o. split; [by apply list_elem_of_In|done].
  - intros (Hin & o & Ho & Hn). exists o. split; [|done].
    apply list_elem_of_In, List.filter_In. split; [by apply list_elem_of_In|].
    unfold requested. rewrite Hn. by apply bool_decide_eq_true.
Qed.

(** The leftover names are the requested names that no live object has as
    its logical-name label. *)
Lemma elem_of_leftover app_names objs n :
  n ∈ leftover app_names objs <->
  n ∈ app_names /\ forall o, o ∈ objs -> metadata_labels o !! name_label <> Some n.
Proof.
  unfold leftover. rewrite elem_of_difference, elem_of_list_to_set, elem_of_matched_names.
  split.
  - intros [Hin Hno]. split; [done|]. intros o Ho Hn. apply Hno. eauto.
  - intros [Hin Hno]. split; [done|]. intros (_ & o & Ho & Hn). by apply (Hno o).
Qed.

Lemma returns_bind {A B} (m : M A) (f : A -> M B) :
  returns m -> (forall a, returns (f a)) -> returns (m ≫= f).
Proof.
  intros [a Ha] Hf. destruct (bind_Ok m f a Ha) as [Ho _].
  destruct (Hf a) as [b Hb]. exists b. by rewrite Ho.
Qed.

Lemma returns_for {A} (xs : list A) (body : A -> M unit) :
  (forall x, returns (body x)) -> returns (for_ xs body).
Proof.
  intros Hb. induction xs as [|x xs IH]; [by exists tt|].
  simpl. apply returns_bind; [apply Hb|]. intros _. apply IH.
Qed.

Lemma returns_unit (m : M unit) : returns m -> outcome m = Ok tt.
Proof. intros [[] H]. done. Qed.

Lemma returns_delete_objects delete_object_function objs b :
  (forall o, returns (delete_object_function b o)) ->
  returns (_delete_objects delete_object_function objs b).
Proof.
  intros Hd. apply returns_for. intros o.
  apply returns_bind; [apply Hd|]. intros _. by exists tt.
Qed.

(** The selection of lines 176-190 calls nothing; its outcome: *)
Lemma select_objects_eq object_type objs remove_all app_names check_leftovers :
  select_objects object_type objs remove_all app_names check_leftovers =
  ([], if remove_all then Ok objs
       else if check_leftovers
            then if decide (leftover app_names objs = ∅)
                 then Ok (List.filter (requested app_names) objs)
                 else Err (BadParameter
                             (not_found object_type (leftover app_names objs)))
            else Ok (List.filter (requested app_names) objs)).
Proof.
  unfold select_objects. destruct remove_all; [done|].
  destruct check_leftovers; [|done].
  unfold lift. rewrite name_labels_matched. fold (leftover app_names objs).
  unfold mbind, M_bind.
  fold (matched_names app_names objs). fold (leftover app_names objs).
  by destruct (decide (leftover app_names objs = ∅)).
Qed.

Lemma select_objects_checked object_type objs app_names :
  select_objects object_type objs false app_names true =
  ([], if decide (leftover app_names objs = ∅)
       then Ok (List.filter (requested app_names) objs)
       else Err (BadParameter (not_found object_type (leftover app_names objs)))).
Proof. apply (select_objects_eq object_type objs false app_names true). Qed.

Lemma select_objects_unchecked object_type objs app_names :
  select_objects object_type objs false app_names false =
  ([], Ok (List.filter (requested app_names) objs)).
Proof. apply (select_objects_eq object_type objs false app_names false). Qed.

Section listing.
Context (object_type : string) (list_objects_function : Build -> M (list object)).
Context (b : Build) (t0 : list event) (objs : list object).
Hypothesis listed : list_objects_function b = (t0, Ok objs).

Lemma get_objects_Ok remove_all app_names check_leftovers sel :
  outcome (select_objects object_type objs remove_all app_names check_leftovers)
    = Ok sel ->
  outcome (_get_objects_to_delete object_type list_objects_function b
             remove_all app_names check_leftovers) = Ok sel /\
  deletions (trace (_get_objects_to_delete object_type list_objects_function b
                      remove_all app_names check_leftovers)) = deletions t0.
Proof.
  intros Hsel. unfold _get_objects_to_delete.
  destruct (bind_Ok (list_objects_function b)
              (fun objects =>
                 objects_to_delete ←
                   select_objects object_type objects remove_all app_names check_leftovers;
                 announce object_type objects_to_delete;; mret objects_to_delete)
              objs) as [-> ->]; [by rewrite listed|].
  destruct (bind_Ok (select_objects object_type objs remove_all app_names check_leftovers)
              (fun objects_to_delete =>
                 announce object_type objects_to_delete;; mret objects_to_delete)
              sel Hsel) as [-> ->].
  destruct (quiet_announce object_type sel) as [[[] Ha] Hq].
  destruct (bind_Ok (announce object_type sel) (fun _ => mret sel) tt Ha) as [-> ->].
  split; [done|].
  rewrite select_objects_eq, listed. simpl.
  by rewrite deletions_app, deletions_app, Hq, !app_nil_r.
Qed.

Lemma get_objects_Err remove_all app_names check_leftovers e :
  outcome (select_objects object_type objs remove_all app_names check_leftovers)
    = Err e ->
  _get_objects_to_delete object_type list_objects_function b
    remove_all app_names check_leftovers = (t0, Err e).
Proof.
  intros Hsel. unfold _get_objects_to_delete.
  destruct (bind_Ok (list_objects_function b)
              (fun objects =>
                 objects_to_delete ←
                   select_objects object_type objects remove_all app_names check_leftovers;
                 announce object_type objects_to_delete;; mret objects_to_delete)
              objs) as [Ho Ht]; [by rewrite listed|].
  destruct (bind_Err (select_objects object_type objs remove_all app_names check_leftovers)
              (fun objects_to_delete =>
                 announce object_type objects_to_delete;; mret objects_to_delete)
              e Hsel) as [Ho' Ht'].
  assert (trace (list_objects_function b) = t0) as Ht0 by (by rewrite listed).
  assert (trace (select_objects object_type objs remove_all app_names check_leftovers)
          = []) as Hts by (by rewrite select_objects_eq).
  rewrite Ho' in Ho. rewrite Ht', Ht0, Hts, app_nil_r in Ht.
  apply injective_projections; [exact Ht|exact Ho].
Qed.

End listing.


Lemma bind_cases {A B} (m : M A) (f : A -> M B) :
  (exists e, outcome m = Err e /\ outcome (m ≫= f) = Err e /\
             trace (m ≫= f) = trace m) \/
  (exists a, outcome m = Ok a /\ outcome (m ≫= f) = outcome (f a) /\
             trace (m ≫= f) = (trace m ++ trace (f a))%list).
Proof.
  destruct (outcome m) as [a|e] eqn:Ho.
  - right. exists a. split; [done|]. by apply bind_Ok.
  - left. exists e. split; [done|]. by apply bind_Err.
Qed.

(** A listing step of [remove]: an error can only be the leftover one, and
    nothing is deleted. *)
Lemma get_objects_cases object_type list_objects_function b t0 objs
    remove_all app_names check_leftovers :
  list_objects_function b = (t0, Ok objs) ->
  let r := _get_objects_to_delete object_type list_objects_function b
             remove_all app_names check_leftovers in
  deletions (trace r) = deletions t0 /\
  ((exists sel, outcome r = Ok sel) \/
   (remove_all = false /\ check_leftovers = true /\
    leftover app_names objs <> ∅ /\
    outcome r = Err (BadParameter (not_found object_type (leftover app_names objs))))).
Proof.
  intros listed r. subst r.
  destruct (outcome (select_objects object_type objs remove_all app_names check_leftovers))
    as [sel|e] eqn:Hsel.
  - destruct (get_objects_Ok object_type list_objects_function b t0 objs listed
                remove_all app_names check_leftovers sel Hsel) as [Ho Ht].
    split; [done|]. left. eauto.
  - rewrite (get_objects_Err object_type list_objects_function b t0 objs listed
               remove_all app_names check_leftovers e Hsel).
    split; [done|]. right.
    rewrite select_objects_eq in Hsel. simpl in Hsel.
    destruct remove_all; [done|]. destruct check_leftovers; [|done].
    destruct (decide (leftover app_names objs = ∅)); [done|].
    injection Hsel as <-. done.
Qed.

Lemma returns_confirm_and_delete yes b s d j : returns (confirm_and_delete yes b s d j).
Proof.
  assert (returns ((if yes then mret tt else emit confirm);;
                   _delete_objects delete_service s b;;
                   _delete_objects delete_deployment d b;;
                   _delete_objects delete_job j b)) as H.
  { apply returns_bind; [destruct yes; by exists tt|]. intros _.
    apply returns_bind; [apply returns_delete_objects; intros; by exists tt|]. intros _.
    apply returns_bind; [apply returns_delete_objects; intros; by exists tt|]. intros _.
    apply returns_delete_objects; intros; by exists tt. }
  unfold confirm_and_delete. destruct s, d, j; try exact H. by exists tt.
Qed.

Section remove.
Context (cl : cluster) (kube_context : string) (remove_all yes : bool).
Context (namespace : string) (app_names : list string).

Local Abbreviation build :=
  {| build_env := kube_context; build_namespace := namespace |}.
Local Abbreviation listed_services :=
  (_get_objects_to_delete "Services" (list_services cl) build remove_all app_names true).
Local Abbreviation listed_deployments :=
  (_get_objects_to_delete "Deployments" (list_deployments cl) build remove_all app_names true).
Local Abbreviation listed_jobs :=
  (_get_objects_to_delete "Jobs" (list_jobs cl) build remove_all app_names false).

Lemma remove_neither :
  app_names = [] -> remove_all = false ->
  remove cl kube_context remove_all yes namespace app_names =
  ([], Err (BadParameter must_either_provide_app_names_or_all)).
Proof. by intros -> ->. Qed.

Lemma remove_both :
  app_names <> [] -> remove_all = true ->
  remove cl kube_context remove_all yes namespace app_names =
  ([], Err (BadParameter cannot_provide_both_app_names_and_all)).
Proof. intros H ->. by destruct app_names. Qed.

Lemma remove_exactly_one :
  (app_names = [] <-> remove_all = true) ->
  remove cl kube_context remove_all yes namespace app_names =
  (services_to_delete ← listed_services;
   deployments_to_delete ← listed_deployments;
   jobs_to_delete ← listed_jobs;
   confirm_and_delete yes build
     services_to_delete deployments_to_delete jobs_to_delete).
Proof.
  intros [H1 H2]. unfold remove.
  destruct app_names as [|n ns], remove_all; try done.
  - by specialize (H1 eq_refl).
  - by specialize (H2 eq_refl).
Qed.

(** On the path past the guard, [remove] fails on the first listing that
    has leftover names, having deleted nothing, and returns otherwise. *)
Lemma remove_outcome :
  (app_names = [] <-> remove_all = true) ->
  let r := remove cl kube_context remove_all yes namespace app_names in
  ((remove_all = false -> leftover app_names (services cl) = ∅ /\
                          leftover app_names (deployments cl) = ∅) /\
   outcome r = Ok tt) \/
  (deletions (trace r) = [] /\ remove_all = false /\
   ((leftover app_names (services cl) <> ∅ /\
     outcome r = Err (BadParameter
                        (not_found "Services" (leftover app_names (services cl))))) \/
    (leftover app_names (services cl) = ∅ /\
     leftover app_names (deployments cl) <> ∅ /\
     outcome r = Err (BadParameter
                        (not_found "Deployments" (leftover app_names (deployments cl))))))).
Proof.
  intros Hone r. subst r. rewrite (remove_exactly_one Hone).
  destruct (get_objects_cases "Services" (list_services cl) build _ _
              remove_all app_names true eq_refl) as [Hds Hs].
  destruct (get_objects_cases "Deployments" (list_deployments cl) build _ _
              remove_all app_names true eq_refl) as [Hdd Hd].
  destruct (get_objects_cases "Jobs" (list_jobs cl) build _ _
              remove_all app_names false eq_refl) as [Hdj Hj].
  assert (forall object_type lf objs sel,
            lf build = ([api_list object_type build], Ok objs) ->
            outcome (_get_objects_to_delete object_type lf build
                       remove_all app_names true) = Ok sel ->
            remove_all = false -> leftover app_names objs = ∅) as Hmatched.
  { intros ot lf objs sel Hlf Hsel Hall.
    destruct (decide (leftover app_names objs = ∅)) as [|Hne]; [done|].
    exfalso. rewrite Hall in Hsel.
    rewrite (get_objects_Err ot lf build _ objs Hlf false app_names true
               (BadParameter (not_found ot (leftover app_names objs)))) in Hsel; [done|].
    rewrite select_objects_checked. simpl. by rewrite decide_False. }
  destruct Hs as [[s Hs]|(Hall & _ & HL & Hs)].
  2:{ right. destruct (bind_Err listed_services
              (fun s => d ← listed_deployments; j ← listed_jobs;
                        confirm_and_delete yes build s d j) _ Hs) as [-> ->].
      split_and!; [done|done|]. left. done. }
  destruct (bind_Ok listed_services
              (fun s => d ← listed_deployments; j ← listed_jobs;
                        confirm_and_delete yes build s d j) _ Hs) as [-> ->].
  pose proof (Hmatched "Services" (list_services cl) (services cl) s eq_refl Hs) as HLs.
  destruct Hd as [[d Hd]|(Hall & _ & HL & Hd)].
  2:{ right. destruct (bind_Err listed_deployments
              (fun d => j ← listed_jobs; confirm_and_delete yes build s d j) _ Hd)
        as [-> ->].
      split_and!; [by rewrite deletions_app, Hds, Hdd|done|]. right. auto. }
  destruct (bind_Ok listed_deployments
              (fun d => j ← listed_jobs; confirm_and_delete yes build s d j) _ Hd)
    as [-> _].
  pose proof (Hmatched "Deployments" (list_deployments cl) (deployments cl) d eq_refl Hd)
    as HLd.
  destruct Hj as [[j Hj]|(_ & ? & _)]; [|done].
  destruct (bind_Ok listed_jobs (fun j => confirm_and_delete yes build s d j) _ Hj)
    as [-> _].
  left. split; [auto|]. apply returns_unit, returns_confirm_and_delete.
Qed.

(** When [remove] ends in an error, nothing was deleted. *)
Lemma remove_error_deletes_nothing e :
  outcome (remove cl kube_context remove_all yes namespace app_names) = Err e ->
  deletions (trace (remove cl kube_context remove_all yes namespace app_names)) = [].
Proof.
  intros He.
  destruct (decide (app_names = [] <-> remove_all = true)) as [Hone|Hone].
  - destruct (remove_outcome Hone) as [[_ Hok]|[Hd _]]; [congruence|done].
  - destruct (decide (app_names = [])) as [Hn|Hn].
    + rewrite remove_neither; [done|done|]. destruct remove_all; [|done].
      exfalso. by apply Hone.
    + rewrite remove_both; [done|done|]. destruct remove_all; [done|].
      exfalso. apply Hone. split; [done|discriminate].
Qed.

End remove.

(** C3. With explicit names and the leftover check, the call fails exactly
    when some requested name is the logical-name label of no matched live
    object. The error names the object type and exactly the set of those
    names: the requested names that no live object carries. Nothing was
    called but the listing and nothing is deleted by the call; and when
    [remove] ends in an error for these names, it has deleted nothing. *)
Theorem C3_leftover_names_fail_removal
    object_type list_objects_function b t0 objs app_names :
  list_objects_function b = (t0, Ok objs) ->
  let r := _get_objects_to_delete object_type list_objects_function b
                                  false app_names true in
  let leftover_app_names := leftover app_names objs in
  (forall n, n ∈ leftover_app_names <->
     n ∈ app_names /\
     forall o, o ∈ objs -> metadata_labels o !! name_label <> Some n) /\
  ((exists e, outcome r = Err e) <-> leftover_app_names <> ∅) /\
  (leftover_app_names <> ∅ ->
     r = (t0, Err (BadParameter (not_found object_type leftover_app_names)))) /\
  (leftover_app_names = ∅ ->
     outcome r = Ok (List.filter (requested app_names) objs)) /\
  deletions (trace r) = deletions t0 /\
  (forall cl kube_context yes namespace e,
     outcome (remove cl kube_context false yes namespace app_names) = Err e ->
     deletions (trace (remove cl kube_context false yes namespace app_names)) = []).
Proof.
  intros listed r L.
  pose proof (select_objects_checked object_type objs app_names) as Hsel.
  fold L in Hsel.
  assert (L <> ∅ -> r = (t0, Err (BadParameter (not_found object_type L)))) as Herr.
  { intros HL. apply get_objects_Err with objs; [done|]. rewrite Hsel. simpl.
    by rewrite decide_False. }
  assert (L = ∅ -> outcome r = Ok (List.filter (requested app_names) objs) /\
                   deletions (trace r) = deletions t0) as Hok.
  { intros HL. apply get_objects_Ok with objs; [done|]. rewrite Hsel. simpl.
    by rewrite decide_True. }
  split_and!.
  - intros n. apply elem_of_leftover.
  - split.
    + intros [e He] HL. destruct (Hok HL) as [Ho _]. congruence.
    + intros HL. rewrite (Herr HL). eauto.
  - done.
  - intros HL. by destruct (Hok HL).
  - destruct (decide (L = ∅)) as [HL|HL]; [by destruct (Hok HL)|by rewrite (Herr HL)].
  - intros cl kube_context yes namespace e. apply remove_error_deletes_nothing.
Qed.

(** [web] is asked for when only [api] is live: the error lists [web], only
    the services were listed, and [remove] deletes nothing. *)
Lemma C3_leftover_names_fail_removal_witness :
  let b := {| build_env := "staging"; build_namespace := "default" |} in
  elements (leftover ["web"] [api_object]) = ["web"] /\
  _get_objects_to_delete "Services" (list_services only_api) b false ["web"] true =
    ([api_list "Services" b],
     Err (BadParameter (not_found "Services" (leftover ["web"] [api_object])))) /\
  deletions (trace (remove only_api "staging" false true "default" ["web"])) = [].
Proof.
  intros b.
  assert (elements (leftover ["web"] [api_object]) = ["web"]) as HL
    by (vm_compute; reflexivity).
  destruct (C3_leftover_names_fail_removal "Services" (list_services only_api) b
              [api_list "Services" b] [api_object] ["web"] eq_refl)
    as (_ & _ & Herr & _ & _ & Hdel).
  split_and!.
  - exact HL.
  - apply Herr. intros Hempty. rewrite Hempty in HL. discriminate HL.
  - apply (Hdel only_api "staging" true "default"
             (BadParameter (not_found "Services" (leftover ["web"] [api_object])))).
    vm_compute. reflexivity.
Defined.

(** C4. With neither names nor the flag, and with both, [remove] raises
    its own error before anything is listed or deleted: no event at all.
    With exactly one of the two it raises neither of these errors. *)
Theorem C4_names_xor_all cl kube_context remove_all yes namespace app_names :
  let r := remove cl kube_context remove_all yes namespace app_names in
  (app_names = [] -> remove_all = false ->
     r = ([], Err (BadParameter must_either_provide_app_names_or_all))) /\
  (app_names <> [] -> remove_all = true ->
     r = ([], Err (BadParameter cannot_provide_both_app_names_and_all))) /\
  ((app_names = [] <-> remove_all = true) ->
     outcome r <> Err (BadParameter must_either_provide_app_names_or_all) /\
     outcome r <> Err (BadParameter cannot_provide_both_app_names_and_all)).
Proof.
  intros r. split_and!.
  - apply remove_neither.
  - apply remove_both.
  - intros Hone.
    destruct (remove_outcome cl kube_context remove_all yes namespace app_names Hone)
      as [[_ Hok]|(_ & _ & [[_ He]|(_ & _ & He)])]; fold r in Hok || fold r in He;
      split; congruence.
Qed.

(** C9. In [remove] with explicit names, a requested name that matches no
    service fails the call with the services' leftover error; when the
    services match, one that matches no deployment fails it with the
    deployments' error; when both match, the call returns whatever jobs
    are live, and listing the jobs never fails. *)
Theorem C9_jobs_are_not_checked cl kube_context yes namespace app_names :
  app_names <> [] ->
  let r := remove cl kube_context false yes namespace app_names in
  (leftover app_names (services cl) <> ∅ ->
     outcome r = Err (BadParameter
                        (not_found "Services" (leftover app_names (services cl))))) /\
  (leftover app_names (services cl) = ∅ ->
   leftover app_names (deployments cl) <> ∅ ->
     outcome r = Err (BadParameter
                        (not_found "Deployments" (leftover app_names (deployments cl))))) /\
  (leftover app_names (services cl) = ∅ ->
   leftover app_names (deployments cl) = ∅ ->
     outcome r = Ok tt) /\
  (forall b, outcome (_get_objects_to_delete "Jobs" (list_jobs cl) b
                        false app_names false)
             = Ok (List.filter (requested app_names) (jobs cl))).
Proof.
  intros Hnames r.
  assert (app_names = [] <-> false = true) as Hone by (split; [done|discriminate]).
  pose proof (remove_outcome cl kube_context false yes namespace app_names Hone) as H.
  fold r in H. split_and!.
  - intros HL. destruct H as [[Hm _]|(_ & _ & [[_ He]|(HL' & _)])]; [|done|done].
    by destruct (Hm eq_refl).
  - intros HLs HLd. destruct H as [[Hm _]|(_ & _ & [[HL' _]|(_ & _ & He)])]; [|done|done].
    by destruct (Hm eq_refl).
  - intros HLs HLd. destruct H as [[_ Hok]|(_ & _ & [[HL' _]|(_ & HL' & _)])]; done.
  - intros b.
    apply (get_objects_Ok "Jobs" (list_jobs cl) b _ (jobs cl) eq_refl false app_names false).
    by rewrite select_objects_unchecked.
Qed.

(** [web] is asked for and is live as a service and a deployment; no job
    carries the name, and the call returns. *)
Lemma C9_jobs_are_not_checked_witness :
  leftover ["web"] (jobs web_no_job) <> ∅ /\
  outcome (remove web_no_job "staging" false true "default" ["web"]) = Ok tt.
Proof.
  split.
  - intros Hempty. apply (f_equal elements) in Hempty.
    vm_compute in Hempty. discriminate Hempty.
  - destruct (C9_jobs_are_not_checked web_no_job "staging" true "default" ["web"])
      as (_ & _ & Hok & _).
    + discriminate.
    + apply Hok; vm_compute; reflexivity.
Defined.

End Removal.

(** ** Guarded removal: what is called and deleted *)

Module RemovalMore.
Import Deploy Spec Sample Removal RemovalPlan.

Lemma calls_app t1 t2 : calls (t1 ++ t2)%list = (calls t1 ++ calls t2)%list.
Proof. apply List.filter_app. Qed.

Lemma deletions_calls t : deletions (calls t) = deletions t.
Proof.
  induction t as [|e t IH]; [done|]. unfold calls, deletions in *. simpl.
  destruct e; simpl; by rewrite ?IH.
Qed.

Lemma echoes_bind {A B} (m : M A) (f : A -> M B) :
  echoes m -> (forall a, echoes (f a)) -> echoes (m ≫= f).
Proof.
  intros [[a Ha] Hc] Hf. destruct (bind_Ok m f a Ha) as [Ho Ht].
  destruct (Hf a) as [[b Hb] Hcb]. split.
  - exists b. by rewrite Ho.
  - by rewrite Ht, calls_app, Hc, Hcb.
Qed.

Lemma echoes_echo line : echoes (emit (echo line)).
Proof. split; [by exists tt|done]. Qed.

Lemma echoes_for {A} (xs : list A) (body : A -> M unit) :
  (forall x, echoes (body x)) -> echoes (for_ xs body).
Proof.
  intros Hb. induction xs as [|x xs IH]; [split; [by exists tt|done]|].
  simpl. apply echoes_bind; [apply Hb|]. intros _. apply IH.
Qed.

Lemma echoes_announce object_type objs : echoes (announce object_type objs).
Proof.
  destruct objs as [|o objs]; [split; [by exists tt|done]|]. unfold announce.
  apply echoes_bind; [apply echoes_echo|]. intros _.
  apply echoes_bind; [|intros _; apply echoes_echo].
  apply echoes_for. intros x. apply echoes_echo.
Qed.

(** [_delete_objects] deletes every object once, in the order given. *)
Lemma delete_objects_calls object_type delete_object_function objs b :
  (forall o, delete_object_function b o = emit (api_delete object_type b o)) ->
  returns (_delete_objects delete_object_function objs b) /\
  calls (trace (_delete_objects delete_object_function objs b))
    = map (api_delete object_type b) objs.
Proof.
  intros Hd. unfold _delete_objects.
  induction objs as [|o objs [IHr IHc]]; [split; [by exists tt|done]|].
  simpl for_. rewrite Hd.
  set (rest := for_ objs _) in *.
  destruct IHr as [[] Hr]. split.
  - exists tt. unfold mbind, M_bind, outcome in *. simpl. by destruct rest as [t [[]|e]].
  - unfold mbind, M_bind, outcome, trace in *. simpl.
    destruct rest as [t [[]|e]]; simpl in *; [|done]. by rewrite IHc.
Qed.

Lemma planned_deletions_nil b remove_all app_names cl :
  planned_deletions b remove_all app_names cl = [] <->
  selected remove_all app_names (services cl) = [] /\
  selected remove_all app_names (deployments cl) = [] /\
  selected remove_all app_names (jobs cl) = [].
Proof.
  unfold planned_deletions. split.
  - intros H. apply app_eq_nil in H as [H1 H]. apply app_eq_nil in H as [H2 H3].
    apply map_eq_nil in H1, H2, H3. done.
  - intros (-> & -> & ->). done.
Qed.

(** The calls of lines 254-265. *)
Lemma confirm_and_delete_calls yes b s d j :
  calls (trace (confirm_and_delete yes b s d j)) =
  match (map (api_delete "Services" b) s ++ map (api_delete "Deployments" b) d ++
         map (api_delete "Jobs" b) j)%list with
  | [] => []
  | ds => ((if yes then [] else [confirm]) ++ ds)%list
  end.
Proof.
  destruct (delete_objects_calls "Services" delete_service s b) as [[[] Hs] Hcs]; [done|].
  destruct (delete_objects_calls "Deployments" delete_deployment d b) as [[[] Hd] Hcd]; [done|].
  destruct (delete_objects_calls "Jobs" delete_job j b) as [[[] Hj] Hcj]; [done|].
  assert (calls (trace ((if yes then mret tt else emit confirm);;
                        _delete_objects delete_service s b;;
                        _delete_objects delete_deployment d b;;
                        _delete_objects delete_job j b)) =
          ((if yes then [] else [confirm]) ++
           map (api_delete "Services" b) s ++ map (api_delete "Deployments" b) d ++
           map (api_delete "Jobs" b) j)%list) as H.
  { destruct (bind_Ok (if yes then mret tt else emit confirm)
                (fun _ => _delete_objects delete_service s b;;
                          _delete_objects delete_deployment d b;;
                          _delete_objects delete_job j b) tt) as [_ ->];
      [by destruct yes|].
    destruct (bind_Ok (_delete_objects delete_service s b)
                (fun _ => _delete_objects delete_deployment d b;;
                          _delete_objects delete_job j b) tt Hs) as [_ ->].
    destruct (bind_Ok (_delete_objects delete_deployment d b)
                (fun _ => _delete_objects delete_job j b) tt Hd) as [_ ->].
    rewrite !calls_app, Hcs, Hcd, Hcj. by destruct yes. }
  unfold confirm_and_delete.
  destruct s as [|s0 s]; [|rewrite H; by destruct yes].
  destruct d as [|d0 d]; [|rewrite H; by destruct yes].
  destruct j as [|j0 j]; [done|rewrite H; by destruct yes].
Qed.

Section listing.
Context (object_type : string) (list_objects_function : Build -> M (list object)).
Context (b : Build) (t0 : list event) (objs : list object).
Hypothesis listed : list_objects_function b = (t0, Ok objs).

(** A listing that returns hands back the selected objects, having made
    no other call than the listing. *)
Lemma get_objects_returns remove_all app_names check_leftovers sel :
  outcome (_get_objects_to_delete object_type list_objects_function b
             remove_all app_names check_leftovers) = Ok sel ->
  sel = selected remove_all app_names objs /\
  calls (trace (_get_objects_to_delete object_type list_objects_function b
                  remove_all app_names check_leftovers)) = calls t0.
Proof.
  intros Hout.
  destruct (outcome (select_objects object_type objs remove_all app_names check_leftovers))
    as [sel'|e] eqn:Hsel.
  2:{ rewrite (get_objects_Err object_type list_objects_function b t0 objs listed
                 remove_all app_names check_leftovers e Hsel) in Hout. done. }
  destruct (get_objects_Ok object_type list_objects_function b t0 objs listed
              remove_all app_names check_leftovers sel' Hsel) as [Ho _].
  rewrite Ho in Hout. injection Hout as ->.
  split.
  - rewrite select_objects_eq in Hsel. simpl in Hsel. unfold selected.
    destruct remove_all; [congruence|].
    destruct check_leftovers; [|congruence].
    destruct (decide (leftover app_names objs = ∅)); congruence.
  - unfold _get_objects_to_delete.
    destruct (bind_Ok (list_objects_function b)
                (fun objects =>
                   objects_to_delete ←
                     select_objects object_type objects remove_all app_names check_leftovers;
                   announce object_type objects_to_delete;; mret objects_to_delete)
                objs) as [_ ->]; [by rewrite listed|].
    destruct (bind_Ok (select_objects object_type objs remove_all app_names check_leftovers)
                (fun objects_to_delete =>
                   announce object_type objects_to_delete;; mret objects_to_delete)
                sel Hsel) as [_ ->].
    destruct (echoes_announce object_type sel) as [[[] Ha] Hq].
    destruct (bind_Ok (announce object_type sel) (fun _ => mret sel) tt Ha) as [_ ->].
    rewrite !calls_app, Hq, select_objects_eq, listed. simpl. by rewrite !app_nil_r.
Qed.

End listing.


Section remove.
Context (cl : cluster) (kube_context : string) (remove_all yes : bool).
Context (namespace : string) (app_names : list string).

Local Abbreviation build :=
  {| build_env := kube_context; build_namespace := namespace |}.
Local Abbreviation listed_services :=
  (_get_objects_to_delete "Services" (list_services cl) build remove_all app_names true).
Local Abbreviation listed_deployments :=
  (_get_objects_to_delete "Deployments" (list_deployments cl) build remove_all app_names true).
Local Abbreviation listed_jobs :=
  (_get_objects_to_delete "Jobs" (list_jobs cl) build remove_all app_names false).

Lemma remove_returns_exactly_one :
  outcome (remove cl kube_context remove_all yes namespace app_names) = Ok tt ->
  (app_names = [] <-> remove_all = true).
Proof.
  intros Hok. destruct app_names as [|n ns], remove_all; simpl in Hok; try done.
Qed.

(** X1. When [remove] returns, the calls it made are, in this order: the
    listing of the services, of the deployments and of the jobs; then, when
    something is to be deleted and [--yes] was not given, the prompt; then
    the deletion of every selected service, deployment and job, each once
    and in the order of its listing. *)
Theorem remove_call_sequence :
  outcome (remove cl kube_context remove_all yes namespace app_names) = Ok tt ->
  calls (trace (remove cl kube_context remove_all yes namespace app_names)) =
    (listings build ++ prompt build yes remove_all app_names cl ++
     planned_deletions build remove_all app_names cl)%list.
Proof.
  intros Hok. pose proof (remove_returns_exactly_one Hok) as Hone.
  rewrite (remove_exactly_one cl kube_context remove_all yes namespace app_names Hone)
    in Hok |- *.
  destruct (bind_cases listed_services
              (fun s => d ← listed_deployments; j ← listed_jobs;
                        confirm_and_delete yes build s d j))
    as [(e & _ & He & _)|(s & Hs & Ho & ->)]; [congruence|].
  rewrite Ho in Hok. clear Ho.
  destruct (bind_cases listed_deployments
              (fun d => j ← listed_jobs; confirm_and_delete yes build s d j))
    as [(e & _ & He & _)|(d & Hd & Ho & ->)]; [congruence|].
  rewrite Ho in Hok. clear Ho.
  destruct (bind_cases listed_jobs (fun j => confirm_and_delete yes build s d j))
    as [(e & _ & He & _)|(j & Hj & Ho & ->)]; [congruence|].
  destruct (get_objects_returns "Services" (list_services cl) build _ _ eq_refl
              remove_all app_names true s Hs) as [-> Hcs].
  destruct (get_objects_returns "Deployments" (list_deployments cl) build _ _ eq_refl
              remove_all app_names true d Hd) as [-> Hcd].
  destruct (get_objects_returns "Jobs" (list_jobs cl) build _ _ eq_refl
              remove_all app_names false j Hj) as [-> Hcj].
  rewrite !calls_app, Hcs, Hcd, Hcj, confirm_and_delete_calls.
  unfold prompt, planned_deletions, listings. simpl.
  by destruct (map _ _ ++ map _ _ ++ map _ _)%list.
Qed.

(** Whatever the outcome, the deletions are the planned ones or none. *)
Lemma remove_deletions :
  deletions (trace (remove cl kube_context remove_all yes namespace app_names)) =
  match outcome (remove cl kube_context remove_all yes namespace app_names) with
  | Ok _ => planned_deletions build remove_all app_names cl
  | Err _ => []
  end.
Proof.
  destruct (outcome (remove cl kube_context remove_all yes namespace app_names))
    as [[]|e] eqn:Hout.
  - rewrite <- deletions_calls, (remove_call_sequence Hout), !deletions_app.
    assert (deletions (prompt build yes remove_all app_names cl) = []) as ->.
    { unfold prompt. destruct (planned_deletions _ _ _ _); [done|by destruct yes]. }
    assert (forall ot objs, deletions (map (api_delete ot build) objs)
                            = map (api_delete ot build) objs) as Hmap.
    { intros ot objs. induction objs as [|o objs IH]; [done|].
      unfold deletions in *. simpl. by rewrite IH. }
    unfold planned_deletions. by rewrite !deletions_app, !Hmap.
  - by apply remove_error_deletes_nothing with e.
Qed.

End remove.

(** X2. Whatever happens, [remove] called with names only deletes objects
    that the listing of their type returned and whose logical-name label
    is one of the names: an object without that label, or with another
    name, is never deleted. *)
Theorem remove_deletes_only_requested
    cl kube_context remove_all yes namespace app_names object_type b o :
  app_names <> [] ->
  api_delete object_type b o ∈
    trace (remove cl kube_context remove_all yes namespace app_names) ->
  (exists n, metadata_labels o !! name_label = Some n /\ n ∈ app_names) /\
  ((object_type = "Services" /\ o ∈ services cl) \/
   (object_type = "Deployments" /\ o ∈ deployments cl) \/
   (object_type = "Jobs" /\ o ∈ jobs cl)).
Proof.
  intros Hnames Hin.
  assert (api_delete object_type b o ∈
          deletions (trace (remove cl kube_context remove_all yes namespace app_names)))
    as Hd.
  { apply list_elem_of_In, List.filter_In. split; [by apply list_elem_of_In|done]. }
  rewrite remove_deletions in Hd.
  destruct (outcome (remove cl kube_context remove_all yes namespace app_names))
    as [[]|e] eqn:Hout; [|by apply elem_of_nil in Hd].
  pose proof (remove_returns_exactly_one _ _ _ _ _ _ Hout) as Hone.
  destruct remove_all; [by destruct Hnames; apply Hone|].
  assert (forall ot objs, api_delete object_type b o ∈
            map (api_delete ot {| build_env := kube_context; build_namespace := namespace |})
                (selected false app_names objs) ->
          object_type = ot /\ o ∈ objs /\ requested app_names o = true) as Hsel.
  { intros ot objs H. apply list_elem_of_fmap in H as (o' & [= -> _ ->] & Ho').
    unfold selected in Ho'. apply list_elem_of_In, List.filter_In in Ho' as [Ho' Hreq].
    split_and!; [done|by apply list_elem_of_In|done]. }
  assert (requested app_names o = true ->
          exists n, metadata_labels o !! name_label = Some n /\ n ∈ app_names) as Hreq.
  { unfold requested. destruct (metadata_labels o !! name_label) as [n|]; [|done].
    intros H. exists n. split; [done|]. by apply bool_decide_eq_true in H. }
  unfold planned_deletions in Hd.
  apply elem_of_app in Hd as [Hd|Hd]; [|apply elem_of_app in Hd as [Hd|Hd]];
    apply Hsel in Hd as (-> & Ho & Hr); (split; [by apply Hreq|]); auto.
Qed.


Lemma remove_call_sequence_witness :
  let b := {| build_env := "staging"; build_namespace := "default" |} in
  calls (trace (remove web_no_job "staging" false false "default" ["web"])) =
    [api_list "Services" b; api_list "Deployments" b; api_list "Jobs" b; confirm;
     api_delete "Services" b web_object; api_delete "Deployments" b web_object].
Proof.
  intros b.
  rewrite (remove_call_sequence web_no_job "staging" false false "default" ["web"]).
  - vm_compute. reflexivity.
  - vm_compute. reflexivity.
Defined.

Lemma remove_deletes_only_requested_witness :
  exists n, metadata_labels web_object !! name_label = Some n /\ n ∈ ["web"].
Proof.
  apply (remove_deletes_only_requested web_no_job "staging" false true "default" ["web"]
           "Services" {| build_env := "staging"; build_namespace := "default" |} web_object).
  - discriminate.
  - apply list_elem_of_In. vm_compute. repeat (first [left; reflexivity | right]).
Defined.

End RemovalMore.

(** ** Removal when the prompt and the cluster can fail: properties *)

Module FallibleFacts.
Import Deploy Spec Sample RemovalPlan Fallible FallibleSpec.

Lemma bind_at {A B} (m : IO A) (f : A -> IO B) h :
  (m ≫= f) h =
  match m h with
  | (t, Ok a) => ((t ++ (f a (h ++ t)%list).1)%list, (f a (h ++ t)%list).2)
  | (t, Err e) => (t, Err e)
  end.
Proof.
  unfold mbind, IO_bind. destruct (m h) as [t [a|e]]; [|done].
  by destruct (f a (h ++ t)%list).
Qed.

Lemma requests_app t1 t2 : requests (t1 ++ t2)%list = (requests t1 ++ requests t2)%list.
Proof. apply List.filter_app. Qed.

(** *** Computations that do not look at the terminal *)

Lemma blind_ret {A} (a : A) : blind (mret a : IO A).
Proof. by intros h1 h2 _. Qed.

Lemma blind_echo line : blind (click_echo line).
Proof. by intros h1 h2 _. Qed.

Lemma blind_request {A} w call (a : A) : blind (request w call a).
Proof. intros h1 h2 H. unfold request. by rewrite H. Qed.

Lemma blind_bind {A B} (m : IO A) (f : A -> IO B) :
  blind m -> (forall a, blind (f a)) -> blind (m ≫= f).
Proof.
  intros Hm Hf h1 h2 H. rewrite !bind_at, (Hm h1 h2 H).
  destruct (m h2) as [t [a|e]]; [|done].
  rewrite (Hf a (h1 ++ t)%list (h2 ++ t)%list); [done|].
  by rewrite !requests_app, H.
Qed.

Lemma blind_for {A} (xs : list A) (body : A -> IO unit) :
  (forall x, blind (body x)) -> blind (for_ xs body).
Proof.
  intros Hb. induction xs as [|x xs IH]; [apply (blind_ret tt)|].
  simpl. apply blind_bind; [apply Hb|]. intros _. apply IH.
Qed.

Lemma blind_delete_objects w object_type objs b :
  blind (_delete_objects (fun b obj => request w (api_delete object_type b obj) tt) objs b).
Proof.
  apply blind_for. intros o. apply blind_bind; [apply blind_request|].
  intros _. apply blind_echo.
Qed.

Lemma blind_deleting w b s d j : blind (deleting w b s d j).
Proof.
  unfold deleting.
  apply blind_bind; [apply (blind_delete_objects w "Services")|]. intros _.
  apply blind_bind; [apply (blind_delete_objects w "Deployments")|]. intros _.
  apply (blind_delete_objects w "Jobs").
Qed.

(** *** The listings *)

Lemma lists_only_ret {A} w h (a : A) : lists_only w h ((mret a : IO A) h).
Proof. split_and!; [constructor|done|done]. Qed.

Lemma lists_only_bind {A B} w (m : IO A) (f : A -> IO B) h :
  lists_only w h (m h) -> (forall a h', lists_only w h' (f a h')) ->
  lists_only w h ((m ≫= f) h).
Proof.
  intros (Hm1 & Hm2 & Hm3) Hf. rewrite bind_at.
  destruct (m h) as [t [a|e]] eqn:Hmh; simpl in *.
  - destruct (Hf a (h ++ t)%list) as (Hf1 & Hf2 & Hf3).
    split_and!; simpl; [by apply Forall_app|done|].
    intros call Hcall. destruct (Hf3 call Hcall) as (before & Hb & Hr).
    exists (t ++ before)%list. rewrite Hb, !app_assoc. split; [done|].
    by rewrite <- app_assoc in Hr |- *.
  - split_and!; simpl.
    + done.
    + intros [= ->]. by apply Hm2.
    + intros call [= ->]. by apply Hm3.
Qed.

Lemma calls_nil_echoes t : calls t = [] -> Forall (fun e => is_echo e = true) t.
Proof.
  induction t as [|e t IH]; [constructor|]. unfold calls in *. simpl.
  destruct e; simpl; try discriminate. intros H. constructor; [done|by apply IH].
Qed.

Lemma trace_announce_quiet object_type sel :
  Forall (fun e => is_deletion e = false /\ e <> confirm)
         (trace (announce object_type sel)) /\
  outcome (announce object_type sel) = Ok tt /\
  requests (trace (announce object_type sel)) = [].
Proof.
  destruct (RemovalMore.echoes_announce object_type sel) as [[[] Hr] Hc].
  apply calls_nil_echoes in Hc. split_and!; [|done|].
  - eapply Forall_impl; [exact Hc|]. intros e He. by destruct e.
  - induction Hc as [|e t He _ IH]; [done|]. unfold requests in *. simpl.
    destruct e; simpl in *; done.
Qed.

(** A listing step at a history: the call, then the selection. *)
Lemma get_objects_at w object_type call objs
    (list_objects_function : Build -> IO (list object))
    b remove_all app_names check_leftovers h :
  list_objects_function b = request w call objs ->
  _get_objects_to_delete object_type list_objects_function b
    remove_all app_names check_leftovers h =
  if raises w (requests h) call then ([call], Err (ApiException call))
  else
    match outcome (select_objects object_type objs remove_all app_names check_leftovers) with
    | Err e => ([call], Err (rejected e))
    | Ok sel => ((call :: trace (announce object_type sel))%list, Ok sel)
    end.
Proof.
  intros Hl. unfold _get_objects_to_delete. rewrite Hl, bind_at. unfold request at 1.
  destruct (raises w (requests h) call); [done|].
  rewrite bind_at. unfold checked at 1.
  rewrite Removal.select_objects_eq. simpl.
  destruct (if remove_all then _ else _) as [sel|e]; simpl; [|done].
  rewrite bind_at. unfold checked at 1.
  destruct (trace_announce_quiet object_type sel) as (_ & Ho & _).
  simpl. rewrite !Ho. simpl. by rewrite app_nil_r.
Qed.

Lemma lists_only_get_objects w object_type call objs
    (list_objects_function : Build -> IO (list object))
    b remove_all app_names check_leftovers h :
  list_objects_function b = request w call objs ->
  is_deletion call = false -> call <> confirm ->
  lists_only w h (_get_objects_to_delete object_type list_objects_function b
                    remove_all app_names check_leftovers h).
Proof.
  intros Hl Hd Hc. rewrite (get_objects_at w object_type call objs _ _ _ _ _ _ Hl).
  destruct (raises w (requests h) call) eqn:Hr.
  - split_and!; [by repeat constructor|done|].
    intros call' [= <-]. exists []. by rewrite app_nil_r.
  - destruct (outcome _) as [sel|e].
    + destruct (trace_announce_quiet object_type sel) as (Hq & _).
      split_and!; [by constructor|done|done].
    + split_and!; [by repeat constructor|done|done].
Qed.

Lemma lists_only_plan w cl b remove_all app_names h :
  lists_only w h (plan w cl b remove_all app_names h).
Proof.
  unfold plan.
  apply lists_only_bind;
    [by apply (lists_only_get_objects w _ (api_list "Services" b) (services cl))|].
  intros s h1. apply lists_only_bind;
    [by apply (lists_only_get_objects w _ (api_list "Deployments" b) (deployments cl))|].
  intros d h2. apply lists_only_bind;
    [by apply (lists_only_get_objects w _ (api_list "Jobs" b) (jobs cl))|].
  intros j h3. apply lists_only_ret.
Qed.

Lemma requests_announce call object_type sel :
  requests (call :: trace (announce object_type sel)) = requests [call].
Proof.
  destruct (trace_announce_quiet object_type sel) as (_ & _ & Hq).
  unfold requests in *. simpl. rewrite Hq. by destruct (is_request call).
Qed.

(** What a listing step hands back, and when it rejects. *)
Lemma get_objects_value w object_type call objs
    (list_objects_function : Build -> IO (list object))
    b remove_all app_names check_leftovers h :
  list_objects_function b = request w call objs ->
  let r := _get_objects_to_delete object_type list_objects_function b
             remove_all app_names check_leftovers h in
  (forall sel, r.2 = Ok sel ->
     sel = selected remove_all app_names objs /\ requests r.1 = requests [call]) /\
  (forall e, r.2 = Err (rejected e) -> remove_all = false).
Proof.
  intros Hl r. subst r. rewrite (get_objects_at w object_type call objs _ _ _ _ _ _ Hl).
  destruct (raises w (requests h) call); [by split|].
  rewrite Removal.select_objects_eq. unfold selected. simpl.
  destruct remove_all; simpl.
  - split; [|done]. intros sel [= <-]. split; [done|apply requests_announce].
  - destruct check_leftovers; [destruct (decide _)|]; simpl;
      (split; [|done]); try done; intros sel [= <-];
      (split; [done|apply requests_announce]).
Qed.

Lemma plan_value w cl b remove_all app_names h :
  let r := plan w cl b remove_all app_names h in
  (forall s d j, r.2 = Ok (s, d, j) ->
     s = selected remove_all app_names (services cl) /\
     d = selected remove_all app_names (deployments cl) /\
     j = selected remove_all app_names (jobs cl) /\
     requests r.1 = listings b) /\
  (forall e, r.2 = Err (rejected e) -> remove_all = false).
Proof.
  intros r. subst r. unfold plan.
  rewrite bind_at.
  destruct (get_objects_value w "Services" (api_list "Services" b) (services cl)
              (list_services w cl) b remove_all app_names true h eq_refl) as [Hs1 Hs2].
  destruct (_get_objects_to_delete "Services" _ b remove_all app_names true h)
    as [t1 [s|e1]]; simpl in *; [|split; [done|]; intros e [= ->]; by apply (Hs2 e)].
  destruct (Hs1 s eq_refl) as [-> Ht1].
  rewrite bind_at.
  destruct (get_objects_value w "Deployments" (api_list "Deployments" b) (deployments cl)
              (list_deployments w cl) b remove_all app_names true (h ++ t1)%list eq_refl)
    as [Hd1 Hd2].
  destruct (_get_objects_to_delete "Deployments" _ b remove_all app_names true _)
    as [t2 [d|e2]]; simpl in *; [|split; [done|]; intros e [= ->]; by apply (Hd2 e)].
  destruct (Hd1 d eq_refl) as [-> Ht2].
  rewrite bind_at.
  destruct (get_objects_value w "Jobs" (api_list "Jobs" b) (jobs cl)
              (list_jobs w cl) b remove_all app_names false ((h ++ t1) ++ t2)%list eq_refl)
    as [Hj1 Hj2].
  destruct (_get_objects_to_delete "Jobs" _ b remove_all app_names false _)
    as [t3 [j|e3]]; simpl in *; [|split; [done|]; intros e [= ->]; by apply (Hj2 e)].
  destruct (Hj1 j eq_refl) as [-> Ht3].
  split; [|done]. intros s d j [= <- <- <-].
  split_and!; [done|done|done|].
  rewrite app_nil_r, !requests_app, Ht1, Ht2, Ht3. done.
Qed.

(** *** The deletions *)

Lemma attempts_seq w p1 p2 (m1 m2 : IO unit) h :
  attempts w p1 h (m1 h) -> (forall h', attempts w p2 h' (m2 h')) ->
  attempts w (p1 ++ p2) h ((m1;; m2) h).
Proof.
  intros (H1 & Hc1 & H2 & H3) Hm2. rewrite bind_at.
  destruct (m1 h) as [t [[]|e]] eqn:Hm1; simpl in *.
  - destruct (Hm2 (h ++ t)%list) as (G1 & Gc & G2 & G3).
    unfold attempts. simpl. rewrite Removal.deletions_app, (H2 eq_refl).
    split_and!.
    + by apply prefix_app.
    + intros Hin. apply elem_of_app in Hin as [?|?]; done.
    + intros Hok. by rewrite (G2 Hok).
    + intros f Hf. destruct (G3 f Hf) as (before & call & -> & Hb & Hr).
      exists (t ++ before)%list, call. rewrite Hb, !app_assoc.
      split_and!; [done|done|]. by rewrite <- app_assoc in Hr |- *.
  - split_and!; [|done|done|done].
    destruct H1 as [k ->]. exists (k ++ p2)%list. by rewrite app_assoc.
Qed.

Lemma attempts_delete_objects w object_type objs b : forall h,
  attempts w (map (api_delete object_type b) objs) h
    (_delete_objects (fun b obj => request w (api_delete object_type b obj) tt) objs b h).
Proof.
  unfold _delete_objects.
  induction objs as [|o objs IH]; intros h.
  - split_and!; [done|by intros H%elem_of_nil|done|done].
  - simpl for_. simpl map.
    change (api_delete object_type b o :: map (api_delete object_type b) objs)%list
      with ([api_delete object_type b o] ++ map (api_delete object_type b) objs)%list.
    apply attempts_seq; [|apply IH].
    rewrite bind_at. unfold request at 1.
    destruct (raises w (requests h) (api_delete object_type b o)) eqn:Hr; simpl.
    + split_and!; [done|by intros [=]%list_elem_of_singleton|done|].
      intros f [= <-]. exists [], (api_delete object_type b o).
      by rewrite app_nil_r.
    + split_and!; [done| |done|done].
      intros Hin. apply elem_of_cons in Hin as [|Hin]; [done|].
      by apply list_elem_of_singleton in Hin.
Qed.

Lemma attempts_deleting w b s d j h :
  attempts w (map (api_delete "Services" b) s ++
              map (api_delete "Deployments" b) d ++
              map (api_delete "Jobs" b) j) h (deleting w b s d j h).
Proof.
  unfold deleting.
  apply attempts_seq; [apply (attempts_delete_objects w "Services")|]. intros h1.
  apply attempts_seq; [apply (attempts_delete_objects w "Deployments")|]. intros h2.
  apply (attempts_delete_objects w "Jobs").
Qed.

(** *** The prompt *)

(** Lines 254-265 at a history. *)
Lemma confirm_and_delete_at w yes b s d j h :
  confirm_and_delete w yes b s d j h =
  match (map (api_delete "Services" b) s ++ map (api_delete "Deployments" b) d ++
         map (api_delete "Jobs" b) j)%list with
  | [] => ([echo "Nothing to do!"], Ok tt)
  | _ :: _ =>
      if yes then deleting w b s d j h
      else match answer_to_prompt w with
           | aborted => ([confirm], Err Abort)
           | _ => ((confirm :: (deleting w b s d j h).1)%list, (deleting w b s d j h).2)
           end
  end.
Proof.
  assert (((if yes then mret tt else (_ ← click_confirm w; mret tt));;
           deleting w b s d j) h =
          if yes then deleting w b s d j h
          else match answer_to_prompt w with
               | aborted => ([confirm], Err Abort)
               | _ => ((confirm :: (deleting w b s d j h).1)%list,
                       (deleting w b s d j h).2)
               end) as H.
  { rewrite bind_at. destruct yes.
    - simpl. rewrite app_nil_r. by destruct (deleting w b s d j h).
    - rewrite bind_at. unfold click_confirm.
      assert (deleting w b s d j (h ++ [confirm] ++ [])%list = deleting w b s d j h) as Hb.
      { apply blind_deleting. rewrite app_nil_r, requests_app. simpl.
        by rewrite app_nil_r. }
      destruct (answer_to_prompt w); simpl; rewrite ?app_nil_r; try done.
      + rewrite app_nil_r in Hb. by rewrite Hb.
      + rewrite app_nil_r in Hb. by rewrite Hb. }
  unfold confirm_and_delete. fold (deleting w b s d j).
  destruct s as [|s0 s]; [|exact H].
  destruct d as [|d0 d]; [|exact H].
  destruct j as [|j0 j]; [done|exact H].
Qed.

(** *** [remove] *)

Lemma remove_guard w cl kube_context remove_all yes namespace app_names :
  ~ (app_names = [] <-> remove_all = true) ->
  exists m, run (remove w cl kube_context remove_all yes namespace app_names)
            = ([], Err (rejected (BadParameter m))).
Proof.
  intros Hone. destruct app_names as [|n ns], remove_all; simpl.
  - destruct Hone. done.
  - by eexists.
  - by eexists.
  - destruct Hone. split; discriminate.
Qed.

(** Past the guard, [remove] is the plan followed by lines 254-265. *)
Lemma remove_plan w cl kube_context remove_all yes namespace app_names h :
  (app_names = [] <-> remove_all = true) ->
  let b := {| build_env := kube_context; build_namespace := namespace |} in
  remove w cl kube_context remove_all yes namespace app_names h =
  match plan w cl b remove_all app_names h with
  | (t0, Ok (s, d, j)) =>
      ((t0 ++ (confirm_and_delete w yes b s d j (h ++ t0)%list).1)%list,
       (confirm_and_delete w yes b s d j (h ++ t0)%list).2)
  | (t0, Err e) => (t0, Err e)
  end.
Proof.
  intros [H1 H2] b.
  assert (remove w cl kube_context remove_all yes namespace app_names h =
          (s ← _get_objects_to_delete "Services" (list_services w cl) b
                 remove_all app_names true;
           d ← _get_objects_to_delete "Deployments" (list_deployments w cl) b
                 remove_all app_names true;
           j ← _get_objects_to_delete "Jobs" (list_jobs w cl) b
                 remove_all app_names false;
           confirm_and_delete w yes b s d j) h) as ->.
  { unfold remove. destruct app_names as [|n ns], remove_all; try done.
    - by specialize (H1 eq_refl).
    - by specialize (H2 eq_refl). }
  unfold plan. rewrite !bind_at.
  destruct (_get_objects_to_delete "Services" _ b remove_all app_names true h)
    as [t1 [s|e1]]; [|done].
  rewrite !bind_at.
  destruct (_get_objects_to_delete "Deployments" _ b remove_all app_names true _)
    as [t2 [d|e2]]; [|done].
  rewrite !bind_at.
  destruct (_get_objects_to_delete "Jobs" _ b remove_all app_names false _)
    as [t3 [j|e3]]; [|done].
  simpl. rewrite !app_nil_r, <- !app_assoc. done.
Qed.

Lemma deletions_lists_only t :
  Forall (fun e => is_deletion e = false /\ e <> confirm) t -> deletions t = [].
Proof.
  induction 1 as [|e t [He _] _ IH]; [done|]. unfold deletions in *. simpl.
  by rewrite He.
Qed.

Lemma requests_confirm t1 t2 :
  requests (t1 ++ confirm :: t2)%list = requests (t1 ++ t2)%list.
Proof. by rewrite !requests_app. Qed.

(** How lines 254-265 can end. *)
Lemma confirm_and_delete_outcomes w yes b s d j h :
  let planned := (map (api_delete "Services" b) s ++
                  map (api_delete "Deployments" b) d ++
                  map (api_delete "Jobs" b) j)%list in
  let r := confirm_and_delete w yes b s d j h in
  prefix (deletions r.1) planned /\
  (r.2 = Ok tt -> deletions r.1 = planned) /\
  (forall e, r.2 <> Err (rejected e)) /\
  (r.2 = Err Abort ->
     yes = false /\ answer_to_prompt w = aborted /\ r.1 = [confirm]) /\
  (forall call, r.2 = Err (ApiException call) ->
     exists before, r.1 = (before ++ [call])%list /\
                    raises w (requests (h ++ before)) call = true).
Proof.
  intros planned r. subst r. rewrite confirm_and_delete_at. fold planned.
  destruct (attempts_deleting w b s d j h) as (Hp & Hc & Hok & Herr).
  fold planned in Hp, Hok.
  assert (forall e, (deleting w b s d j h).2 <> Err (rejected e)) as Hrej.
  { intros e He. by destruct (Herr _ He) as (? & ? & ? & _). }
  assert ((deleting w b s d j h).2 <> Err Abort) as Hab.
  { intros He. by destruct (Herr _ He) as (? & ? & ? & _). }
  assert (forall call, (deleting w b s d j h).2 = Err (ApiException call) ->
            exists before, (deleting w b s d j h).1 = (before ++ [call])%list /\
                           raises w (requests (h ++ before)) call = true) as Hapi.
  { intros call He. destruct (Herr _ He) as (before & call' & [= <-] & ? & ?). eauto. }
  destruct planned as [|p ps] eqn:Hplanned.
  { simpl. split_and!; done. }
  destruct yes.
  { split_and!; done. }
  assert (deletions (confirm :: (deleting w b s d j h).1)
          = deletions (deleting w b s d j h).1) as Hdel by done.
  destruct (answer_to_prompt w) eqn:Ha; simpl; rewrite ?Hdel.
  - split_and!; [done|done|done|done|].
    intros call He. destruct (Hapi call He) as (before & -> & Hr).
    exists (confirm :: before). split; [done|]. by rewrite requests_confirm.
  - split_and!; [done|done|done|done|].
    intros call He. destruct (Hapi call He) as (before & -> & Hr).
    exists (confirm :: before). split; [done|]. by rewrite requests_confirm.
  - split_and!; [apply prefix_nil|done|done|done|done].
Qed.

(** How [remove] can end once it is past the guard: what it deleted is
    the beginning of what was selected, and all of it when it returns. *)
Lemma remove_outcomes w cl kube_context remove_all yes namespace app_names :
  (app_names = [] <-> remove_all = true) ->
  let b := {| build_env := kube_context; build_namespace := namespace |} in
  let planned := planned_deletions b remove_all app_names cl in
  let r := run (remove w cl kube_context remove_all yes namespace app_names) in
  prefix (deletions r.1) planned /\
  (r.2 = Ok tt -> deletions r.1 = planned) /\
  (forall e, r.2 = Err (rejected e) ->
     remove_all = false /\ deletions r.1 = [] /\ (confirm ∉ r.1)) /\
  (r.2 = Err Abort ->
     yes = false /\ answer_to_prompt w = aborted /\ deletions r.1 = [] /\
     last r.1 = Some confirm) /\
  (forall call, r.2 = Err (ApiException call) ->
     exists before, r.1 = (before ++ [call])%list /\
                    raises w (requests before) call = true).
Proof.
  intros Hone b planned r. subst r. unfold run.
  rewrite (remove_plan w cl kube_context remove_all yes namespace app_names [] Hone).
  fold b.
  destruct (lists_only_plan w cl b remove_all app_names []) as (Hl1 & Hl2 & Hl3).
  destruct (plan_value w cl b remove_all app_names []) as [Hv1 Hv2].
  destruct (plan w cl b remove_all app_names []) as [t0 [[[s d] j]|e]]; simpl in *.
  - destruct (Hv1 s d j eq_refl) as (-> & -> & -> & _).
    pose proof (deletions_lists_only t0 Hl1) as Ht0.
    destruct (confirm_and_delete_outcomes w yes b
                (selected remove_all app_names (services cl))
                (selected remove_all app_names (deployments cl))
                (selected remove_all app_names (jobs cl)) t0)
      as (Hp & Hok & Hrej & Hab & Hapi).
    fold (planned_deletions b remove_all app_names cl) in Hp, Hok. fold planned in Hp, Hok.
    rewrite Removal.deletions_app, Ht0. simpl.
    split_and!; [done|done| | |].
    + intros e He. by destruct (Hrej e).
    + intros He. destruct (Hab He) as (-> & Ha & Hc). rewrite Hc.
      split_and!; [done|done|done|]. by rewrite last_snoc.
    + intros call He. destruct (Hapi call He) as (before & -> & Hr).
      exists (t0 ++ before)%list. by rewrite app_assoc.
  - rewrite (deletions_lists_only t0 Hl1).
    split_and!; [apply prefix_nil|done| | |].
    + intros e' [= ->]. split_and!; [by apply (Hv2 e')|done|].
      intros Hin. rewrite Forall_forall in Hl1. by destruct (Hl1 _ Hin).
    + intros [= ->]. by destruct Hl2.
    + intros call [= ->]. by apply Hl3.
Qed.


(** X23. Whatever the prompt and the cluster do, what [remove] asks the
    cluster to delete is the beginning of what was selected, in the order
    services, deployments, jobs, and all of it when [remove] returns: with
    names, only objects that the listing of their type returned and whose
    logical-name label is one of the names. When [remove] ends in an error
    of its own, it has asked for no deletion and has not prompted. *)
Theorem remove_deletes_selected_in_order
    w cl kube_context remove_all yes namespace app_names :
  let b := {| build_env := kube_context; build_namespace := namespace |} in
  let r := run (remove w cl kube_context remove_all yes namespace app_names) in
  prefix (deletions r.1) (planned_deletions b remove_all app_names cl) /\
  (r.2 = Ok tt -> deletions r.1 = planned_deletions b remove_all app_names cl) /\
  (forall e, r.2 = Err (rejected e) -> deletions r.1 = [] /\ (confirm ∉ r.1)) /\
  (forall object_type b' o,
     app_names <> [] -> api_delete object_type b' o ∈ r.1 ->
     (exists n, metadata_labels o !! name_label = Some n /\ n ∈ app_names) /\
     ((object_type = "Services" /\ o ∈ services cl) \/
      (object_type = "Deployments" /\ o ∈ deployments cl) \/
      (object_type = "Jobs" /\ o ∈ jobs cl))).
Proof.
  intros b r.
  assert (prefix (deletions r.1) (planned_deletions b remove_all app_names cl) /\
          (r.2 = Ok tt -> deletions r.1 = planned_deletions b remove_all app_names cl) /\
          (forall e, r.2 = Err (rejected e) -> deletions r.1 = [] /\ (confirm ∉ r.1)) /\
          (deletions r.1 <> [] -> (app_names = [] <-> remove_all = true)))
    as (Hp & Hok & Hrej & Hguard).
  { destruct (decide (app_names = [] <-> remove_all = true)) as [Hone|Hone].
    - destruct (remove_outcomes w cl kube_context remove_all yes namespace app_names Hone)
        as (Hp & Hok & Hrej & _).
      split_and!; [done|done| |done].
      intros e He. by destruct (Hrej e He) as (_ & ? & ?).
    - destruct (remove_guard w cl kube_context remove_all yes namespace app_names Hone)
        as [m Hm].
      subst r. rewrite Hm. simpl.
      split_and!; [apply prefix_nil|done| |done].
      intros e _. split; [done|]. by intros H%elem_of_nil. }
  split_and!; [done|done|done|].
  intros object_type b' o Hnames Hin.
  assert (api_delete object_type b' o ∈ deletions r.1) as Hd.
  { apply list_elem_of_In, List.filter_In. split; [by apply list_elem_of_In|done]. }
  assert (remove_all = false) as ->.
  { destruct remove_all; [|done]. destruct Hnames. apply Hguard; [|done].
    intros Hnil. rewrite Hnil in Hd. by apply elem_of_nil in Hd. }
  destruct Hp as [k Hk]. assert (api_delete object_type b' o ∈
                                 planned_deletions b false app_names cl) as Hpl.
  { rewrite Hk. apply elem_of_app. by left. }
  assert (forall ot objs, api_delete object_type b' o ∈
            map (api_delete ot b) (selected false app_names objs) ->
          object_type = ot /\ o ∈ objs /\ requested app_names o = true) as Hsel.
  { intros ot objs H. apply list_elem_of_fmap in H as (o' & [= -> _ ->] & Ho').
    unfold selected in Ho'. apply list_elem_of_In, List.filter_In in Ho' as [Ho' Hreq].
    split_and!; [done|by apply list_elem_of_In|done]. }
  assert (requested app_names o = true ->
          exists n, metadata_labels o !! name_label = Some n /\ n ∈ app_names) as Hreq.
  { unfold requested. destruct (metadata_labels o !! name_label) as [n|]; [|done].
    intros H. exists n. split; [done|]. by apply bool_decide_eq_true in H. }
  unfold planned_deletions in Hpl.
  apply elem_of_app in Hpl as [Hpl|Hpl]; [|apply elem_of_app in Hpl as [Hpl|Hpl]];
    apply Hsel in Hpl as (-> & Ho & Hr); (split; [by apply Hreq|]); auto.
Qed.

Lemma remove_guard_same w w' cl kube_context remove_all yes yes' namespace app_names :
  ~ (app_names = [] <-> remove_all = true) ->
  run (remove w cl kube_context remove_all yes namespace app_names) =
  run (remove w' cl kube_context remove_all yes' namespace app_names).
Proof.
  intros Hone. destruct app_names as [|n ns], remove_all; try done.
  - destruct Hone. done.
  - destruct Hone. split; discriminate.
Qed.

Lemma plan_raises w w' cl b remove_all app_names :
  raises w' = raises w ->
  plan w' cl b remove_all app_names = plan w cl b remove_all app_names.
Proof.
  intros H. unfold plan, list_services, list_deployments, list_jobs, request.
  by rewrite H.
Qed.

Lemma deleting_raises w w' b s d j :
  raises w' = raises w -> deleting w' b s d j = deleting w b s d j.
Proof.
  intros H. unfold deleting, delete_service, delete_deployment, delete_job, request.
  by rewrite H.
Qed.

(** X4. The answer to the prompt is not looked at. Without [--yes], and
    unless the prompt is aborted, [remove] ends as it does with [--yes]
    and makes the same calls to the cluster: it only prompts before the
    first deletion. Declining and accepting are the same run. When the
    prompt is aborted nothing is deleted, and [remove] ends there. *)
Theorem remove_yes_only_skips_prompt w cl kube_context remove_all namespace app_names :
  let without := run (remove w cl kube_context remove_all false namespace app_names) in
  let with_yes := run (remove w cl kube_context remove_all true namespace app_names) in
  (answer_to_prompt w <> aborted ->
     without.2 = with_yes.2 /\ requests without.1 = requests with_yes.1 /\
     (without.1 = with_yes.1 \/
      exists before after,
        without.1 = (before ++ confirm :: after)%list /\
        with_yes.1 = (before ++ after)%list /\
        deletions before = [] /\ (confirm ∉ before) /\ (confirm ∉ after))) /\
  (forall w', raises w' = raises w ->
     answer_to_prompt w <> aborted -> answer_to_prompt w' <> aborted ->
     run (remove w' cl kube_context remove_all false namespace app_names) = without) /\
  (answer_to_prompt w = aborted ->
     deletions without.1 = [] /\
     (confirm ∈ without.1 -> without.2 = Err Abort /\ last without.1 = Some confirm)).
Proof.
  intros without with_yes. subst without with_yes.
  destruct (decide (app_names = [] <-> remove_all = true)) as [Hone|Hone].
  2:{ pose proof (remove_guard w cl kube_context remove_all false namespace app_names Hone)
        as [m Hm].
      split_and!.
      - intros _.
        rewrite (remove_guard_same w w cl kube_context remove_all false true
                   namespace app_names Hone).
        split_and!; [done|done|by left].
      - intros w' _ _ _. by apply remove_guard_same.
      - intros _. rewrite Hm. simpl. split; [done|]. by intros H%elem_of_nil. }
  unfold run.
  set (b := {| build_env := kube_context; build_namespace := namespace |}).
  pose proof (remove_plan w cl kube_context remove_all false namespace app_names [] Hone)
    as Hno.
  pose proof (remove_plan w cl kube_context remove_all true namespace app_names [] Hone)
    as Hyes.
  fold b in Hno, Hyes. simpl in Hno, Hyes.
  destruct (lists_only_plan w cl b remove_all app_names []) as (Hl1 & _ & _).
  destruct (plan w cl b remove_all app_names []) as [t0 [[[s d] j]|e]] eqn:Hplan;
    simpl in *.
  2:{ rewrite Hno, Hyes. simpl.
      split_and!.
      - intros _. split_and!; [done|done|by left].
      - intros w' Hw _ _.
        rewrite (remove_plan w' cl kube_context remove_all false namespace app_names []
                   Hone).
        fold b. by rewrite (plan_raises w w' cl b remove_all app_names Hw), Hplan.
      - intros _. split; [by apply deletions_lists_only|].
        intros Hin. rewrite Forall_forall in Hl1. by destruct (Hl1 _ Hin). }
  pose proof (deletions_lists_only t0 Hl1) as Ht0.
  assert (confirm ∉ t0) as Hc0.
  { intros Hin. rewrite Forall_forall in Hl1. by destruct (Hl1 _ Hin). }
  rewrite Hno, Hyes, !confirm_and_delete_at.
  destruct (attempts_deleting w b s d j t0) as (_ & HcD & _ & _).
  set (planned := (map (api_delete "Services" b) s ++
                   map (api_delete "Deployments" b) d ++
                   map (api_delete "Jobs" b) j)%list) in *.
  split_and!.
  - intros Ha. destruct planned as [|p ps]; [split_and!; [done|done|by left]|].
    destruct (answer_to_prompt w); [| |done]; simpl;
      (split_and!; [done|by rewrite requests_confirm|]);
      right; exists t0, (deleting w b s d j t0).1; done.
  - intros w' Hw Ha Ha'.
    rewrite (remove_plan w' cl kube_context remove_all false namespace app_names [] Hone).
    fold b. rewrite (plan_raises w w' cl b remove_all app_names Hw), Hplan.
    simpl. rewrite confirm_and_delete_at. fold planned.
    rewrite (deleting_raises w w' b s d j Hw).
    destruct planned as [|p ps]; [done|].
    by destruct (answer_to_prompt w), (answer_to_prompt w').
  - intros Ha. rewrite Ha. destruct planned as [|p ps]; simpl.
    + rewrite Removal.deletions_app, Ht0. split; [done|].
      intros Hin. apply elem_of_app in Hin as [?|Hin]; [done|].
      by apply list_elem_of_singleton in Hin.
    + rewrite Removal.deletions_app, Ht0. split; [done|].
      intros _. split; [done|]. by rewrite last_snoc.
Qed.

(** *** When nothing fails *)

Lemma agrees_bind {A B} (m : IO A) (m' : M A) (f : A -> IO B) (f' : A -> M B) :
  agrees m m' -> (forall a, agrees (f a) (f' a)) -> agrees (m ≫= f) (m' ≫= f').
Proof.
  intros Hm Hf h. rewrite bind_at, Hm. unfold checked, mbind, M_bind, trace, outcome.
  destruct m' as [t [a|e]]; simpl; [|done].
  rewrite Hf. unfold checked, trace, outcome. by destruct (f' a) as [t' r].
Qed.

Lemma agrees_for {A} (xs : list A) (body : A -> IO unit) (body' : A -> M unit) :
  (forall x, agrees (body x) (body' x)) -> agrees (for_ xs body) (Deploy.for_ xs body').
Proof.
  intros Hb. induction xs as [|x xs IH]; [done|].
  simpl. apply agrees_bind; [apply Hb|]. intros _. apply IH.
Qed.

Section calm.
Context (w : world).
Hypothesis no_call_raises : forall h call, raises w h call = false.
Hypothesis prompt_answered : answer_to_prompt w <> aborted.

Lemma agrees_request {A} call (a : A) :
  agrees (request w call a) (emit call;; mret a).
Proof. intros h. unfold request. by rewrite no_call_raises. Qed.

Lemma agrees_get_objects object_type lf lf' b remove_all app_names check_leftovers :
  agrees (lf b) (lf' b) ->
  agrees (_get_objects_to_delete object_type lf b remove_all app_names check_leftovers)
         (Deploy._get_objects_to_delete object_type lf' b remove_all app_names
            check_leftovers).
Proof.
  intros Hl. unfold _get_objects_to_delete, Deploy._get_objects_to_delete.
  apply agrees_bind; [done|]. intros objects.
  apply agrees_bind; [done|]. intros sel.
  apply agrees_bind; [done|]. by intros _.
Qed.

Lemma agrees_delete_objects object_type objs b :
  agrees (_delete_objects (fun b obj => request w (api_delete object_type b obj) tt) objs b)
         (Deploy._delete_objects (fun b obj => emit (api_delete object_type b obj)) objs b).
Proof.
  apply agrees_for. intros o. apply agrees_bind; [|done].
  intros h. unfold request. by rewrite no_call_raises.
Qed.

Lemma agrees_confirm_and_delete yes b s d j :
  agrees (confirm_and_delete w yes b s d j) (Deploy.confirm_and_delete yes b s d j).
Proof.
  assert (agrees ((if yes then mret tt else (_ ← click_confirm w; mret tt));;
                  _delete_objects (delete_service w) s b;;
                  _delete_objects (delete_deployment w) d b;;
                  _delete_objects (delete_job w) j b)
                 ((if yes then mret tt else emit confirm);;
                  Deploy._delete_objects Deploy.delete_service s b;;
                  Deploy._delete_objects Deploy.delete_deployment d b;;
                  Deploy._delete_objects Deploy.delete_job j b)) as H.
  { apply agrees_bind.
    - destruct yes; [done|]. intros h. rewrite bind_at. unfold click_confirm.
      by destruct (answer_to_prompt w).
    - intros _. apply agrees_bind; [apply (agrees_delete_objects "Services")|].
      intros _. apply agrees_bind; [apply (agrees_delete_objects "Deployments")|].
      intros _. apply (agrees_delete_objects "Jobs"). }
  unfold confirm_and_delete, Deploy.confirm_and_delete.
  destruct s as [|s0 s]; [|exact H].
  destruct d as [|d0 d]; [|exact H].
  destruct j as [|j0 j]; [done|exact H].
Qed.

(** When the prompt is answered and no call to the cluster raises,
    [remove] is the [remove] of [Deploy]. *)
Lemma remove_calm cl kube_context remove_all yes namespace app_names :
  agrees (remove w cl kube_context remove_all yes namespace app_names)
         (Deploy.remove cl kube_context remove_all yes namespace app_names).
Proof.
  unfold remove, Deploy.remove.
  assert (forall b,
    agrees (s ← _get_objects_to_delete "Services" (list_services w cl) b
                  remove_all app_names true;
            d ← _get_objects_to_delete "Deployments" (list_deployments w cl) b
                  remove_all app_names true;
            j ← _get_objects_to_delete "Jobs" (list_jobs w cl) b
                  remove_all app_names false;
            confirm_and_delete w yes b s d j)
           (s ← Deploy._get_objects_to_delete "Services" (Deploy.list_services cl) b
                  remove_all app_names true;
            d ← Deploy._get_objects_to_delete "Deployments" (Deploy.list_deployments cl) b
                  remove_all app_names true;
            j ← Deploy._get_objects_to_delete "Jobs" (Deploy.list_jobs cl) b
                  remove_all app_names false;
            Deploy.confirm_and_delete yes b s d j)) as H.
  { intros b.
    apply agrees_bind; [apply agrees_get_objects, agrees_request|]. intros s.
    apply agrees_bind; [apply agrees_get_objects, agrees_request|]. intros d.
    apply agrees_bind; [apply agrees_get_objects, agrees_request|]. intros j.
    apply agrees_confirm_and_delete. }
  destruct app_names as [|n ns], remove_all; try done; apply H.
Qed.

End calm.

(** [remove --all --yes] when the cluster refuses to delete the
    deployments: the service is deleted, the call for the deployment
    raises, and [remove] ends there. *)
Example remove_all_stops_at_failure :
  let b := {| build_env := "staging"; build_namespace := "default" |} in
  run (remove no_deployment_deleted web_no_job "staging" true true "default" []) =
    ([api_list "Services" b; echo "--> Services to delete:"; echo "    web"; echo "";
      api_list "Deployments" b; echo "--> Deployments to delete:"; echo "    web";
      echo "";
      api_list "Jobs" b;
      api_delete "Services" b web_object; echo "    web deleted";
      api_delete "Deployments" b web_object],
     Err (ApiException (api_delete "Deployments" b web_object))).
Proof. vm_compute. reflexivity. Qed.

(** Answering no to the prompt: the service and the deployment are
    deleted all the same. *)
Example remove_declined_deletes :
  let b := {| build_env := "staging"; build_namespace := "default" |} in
  let r := run (remove (calm declined) web_no_job "staging" false false "default" ["web"]) in
  r.2 = Ok tt /\
  deletions r.1 = [api_delete "Services" b web_object;
                   api_delete "Deployments" b web_object].
Proof. split; vm_compute; reflexivity. Qed.

End FallibleFacts.

(** ** The returned status: its environments and records *)

Module StatusFacts.
Import DockerUtil Spec Sample Aggregator ContainerStatus.

Section status.
Context (cfg : kubetools_config) (all_environments : bool).
Local Abbreviation body := (loop_body cfg all_environments).
Local Abbreviation res := (resolve cfg all_environments).
Local Abbreviation keys := (resolved_keys cfg all_environments).

(** The environments the loop has opened. *)
Lemma loop_environments cs : forall m0 m,
  for_each body m0 cs = Ok m ->
  forall e, is_Some (m !! e) <-> is_Some (m0 !! e) \/ exists n, (e, n) ∈ keys cs.
Proof.
  induction cs as [|c cs IH]; intros m0 m Hm e; simpl in Hm.
  - injection Hm as <-. split; [by left|]. intros [?|[n Hn]]; [done|].
    by apply elem_of_nil in Hn.
  - destruct (body m0 c) as [m1|err] eqn:Hb; simpl in Hm; [|done].
    rewrite (IH _ _ Hm e), keys_cons. clear IH Hm.
    unfold loop_body in Hb.
    destruct (res c) as [[[e0 n0]|]|err] eqn:Hr; simpl in Hb; [| |done].
    + destruct (default ∅ (m0 !! e0) !! n0); [done|]. injection Hb as <-.
      destruct (decide (e = e0)) as [->|Hne].
      * rewrite lookup_insert_eq. split; [|eauto].
        intros _. right. exists n0. left.
      * rewrite lookup_insert_ne by done. split.
        -- intros [?|[n Hn]]; [by left|]. right. exists n. by right.
        -- intros [?|[n Hn]]; [by left|]. right. exists n.
           apply elem_of_cons in Hn as [[= -> ->]|Hn]; done.
    + injection Hb as <-. done.
Qed.

(** X6. In a returned status, a record is there for a reason and its keys
    tell which: its name is declared or a live container was resolved to
    it; it has the two flags exactly when the name is declared, and the
    labels exactly when it is live. *)
Theorem status_record_keys cs st e containers name r :
  get_containers_status cfg all_environments cs = Ok st ->
  environment_of cfg st e = Some containers ->
  containers !! name = Some r ->
  let declared := name ∈ (all_containers cfg).*1 in
  let live := (e, name) ∈ keys cs in
  (declared \/ live) /\
  (is_Some (is_dependency r) <-> declared) /\
  (is_Some (is_deployment r) <-> declared) /\
  (is_Some (labels r) <-> live) /\
  (is_Some (up r) <-> live) /\
  (is_Some (id r) <-> live).
Proof.
  intros Hst He Hr declared live. subst declared live.
  destruct (status_environment cfg all_environments cs st e containers Hst He)
    as (m & Ha & Hm).
  destruct (aggregate_lookup cfg all_environments cs m e containers Ha Hm)
    as (lv & livecs & Hl & -> & Hlive).
  destruct (loop_completed cfg all_environments cs _ _ Hl) as (_ & _ & _ & Hrec).
  rewrite merge_declared_lookup, Hlive in Hr.
  assert (forall d, record_of lv e name = Some d ->
            (e, name) ∈ keys cs /\ exists c, d = get_container_data c) as Hlv.
  { intros d Hd. apply Hrec in Hd as [Hd|(c & Hc & Hrc & ->)].
    - by rewrite record_of_empty in Hd.
    - split; [apply elem_of_keys|]; eauto. }
  assert (record_of lv e name = None -> (e, name) ∉ keys cs) as Hnl.
  { intros Hn Hin. apply elem_of_keys in Hin as (c & Hc & Hrc).
    assert (record_of lv e name = Some (get_container_data c)) as H
      by (apply Hrec; right; eauto).
    congruence. }
  assert (last_declared (all_containers cfg) name = None ->
          name ∉ (all_containers cfg).*1) as Hnd.
  { intros Hn Hin. destruct (last_declared_elem _ _ Hin) as (d & Hd & _). congruence. }
  destruct (last_declared (all_containers cfg) name) as [d|] eqn:Hd.
  - assert (name ∈ (all_containers cfg).*1) as Hin.
    { clear -Hd. induction (all_containers cfg) as [|[n d0] rest IH]; simpl in *; [done|].
      destruct (last_declared rest name); [right; by apply IH|].
      destruct (decide (n = name)) as [->|]; [left|done]. }
    injection Hr as <-.
    destruct (record_of lv e name) as [x|] eqn:Hx; simpl.
    + destruct (Hlv x eq_refl) as [Hk [c ->]]. simpl.
      split_and!; try (split; eauto; done). by left.
    + specialize (Hnl eq_refl).
      split_and!; try (split; [by intros [? ?]|done]); try (split; eauto; done). by left.
  - specialize (Hnd eq_refl).
    destruct (Hlv r Hr) as [Hk [c ->]]. simpl.
    split_and!; try (split; [by intros [? ?]|done]); try (split; eauto; done). by right.
Qed.

End status.

(** X5. With [all_environments], the environments of the returned map are
    exactly the current one and those some live container was resolved
    to: no other key, and none of these missing. *)
Theorem status_environments cfg cs m e :
  get_containers_status cfg true cs = Ok (AllEnvironments m) ->
  (is_Some (m !! e) <-> e = env cfg \/ exists n, (e, n) ∈ resolved_keys cfg true cs).
Proof.
  intros Hst.
  destruct (get_containers_status_inv cfg true cs _ Hst) as (m' & cur & Ha & _ & [= ->]).
  destruct (aggregate_inv cfg true cs m' Ha) as (live & Hl & ->).
  rewrite lookup_fmap, fmap_is_Some.
  pose proof (loop_environments cfg true cs ∅ live Hl e) as Hdom.
  rewrite lookup_empty in Hdom.
  unfold provide_current. destruct (live !! env cfg) as [x|] eqn:Hc.
  - rewrite Hdom. split.
    + intros [[? ?]|?]; [done|by right].
    + intros [->|?]; [|by right]. apply Hdom. rewrite Hc. eauto.
  - destruct (decide (e = env cfg)) as [->|Hne].
    + rewrite lookup_insert_eq. split; [by left|eauto].
    + rewrite lookup_insert_ne by done. rewrite Hdom. split.
      * intros [[? ?]|?]; [done|by right].
      * intros [?|?]; [done|by right].
Qed.

(** The single-container query is made on the current environment. *)
Lemma get_container_status_current cfg name cs r :
  get_container_status cfg name cs = Ok r ->
  exists containers,
    get_containers_status cfg false cs = Ok (CurrentEnvironment containers) /\
    r = containers !! name.
Proof.
  unfold get_container_status.
  destruct (get_containers_status cfg false cs) as [st|e] eqn:Hst; simpl; [|done].
  destruct (get_containers_status_inv cfg false cs st Hst) as (m & cur & _ & _ & ->).
  intros [= <-]. eauto.
Qed.

(** X7. [get_container_status] of a declared container never answers
    [None]: it hands back a record with the declared flags, the
    synthesized one when no live container was resolved to that name in the
    current environment. For a name that is neither declared nor live the
    answer is [None]. *)
Theorem get_container_status_declared cfg name cs r :
  get_container_status cfg name cs = Ok r ->
  (name ∈ (all_containers cfg).*1 ->
   exists d rec,
     r = Some rec /\ last_declared (all_containers cfg) name = Some d /\
     is_dependency rec = Some (default false (decl_is_dependency d)) /\
     is_deployment rec = Some (default false (decl_is_deployment d)) /\
     ((env cfg, name) ∉ resolved_keys cfg false cs -> rec = set_flags d absent)) /\
  (name ∉ (all_containers cfg).*1 ->
   (env cfg, name) ∉ resolved_keys cfg false cs -> r = None).
Proof.
  intros Hr. destruct (get_container_status_current cfg name cs r Hr) as (containers & Hst & ->).
  destruct (status_environment cfg false cs _ (env cfg) containers Hst) as (m & Ha & Hm).
  { simpl. by rewrite decide_True. }
  destruct (aggregate_lookup cfg false cs m _ containers Ha Hm)
    as (lv & livecs & Hl & -> & Hlive).
  destruct (loop_completed cfg false cs _ _ Hl) as (_ & _ & _ & Hrec).
  assert ((env cfg, name) ∉ resolved_keys cfg false cs -> livecs !! name = None) as Hnl.
  { intros Hnot. rewrite Hlive.
    destruct (record_of lv (env cfg) name) as [x|] eqn:Hx; [|done].
    exfalso. apply Hnot. apply Hrec in Hx as [Hx|(c & Hc & Hrc & _)].
    - by rewrite record_of_empty in Hx.
    - apply elem_of_keys. eauto. }
  rewrite merge_declared_lookup. split.
  - intros Hin. destruct (last_declared_elem _ _ Hin) as (d & Hd & _).
    rewrite Hd. exists d. eexists. split_and!; [done|done|done|done|].
    intros Hnot. by rewrite (Hnl Hnot).
  - intros Hnd Hnot.
    destruct (last_declared (all_containers cfg) name) as [d|] eqn:Hd; [|by apply Hnl].
    exfalso. apply Hnd. clear -Hd.
    induction (all_containers cfg) as [|[n d0] rest IH]; simpl in *; [done|].
    destruct (last_declared rest name); [right; by apply IH|].
    destruct (decide (n = name)) as [->|]; [left|done].
Qed.


Lemma status_environments_witness :
  is_Some (returned_environments
             (get_containers_status app_dev true [legacy_web]) !! "dev").
Proof.
  apply (status_environments app_dev [legacy_web]
           (returned_environments (get_containers_status app_dev true [legacy_web])) "dev").
  - vm_compute. reflexivity.
  - by left.
Defined.

Lemma status_record_keys_witness :
  is_Some (labels (set_flags db_decl absent)) <->
  ("dev", "db") ∈ resolved_keys app_dev false [web_1].
Proof.
  apply (status_record_keys app_dev false [web_1]
           (returned (get_containers_status app_dev false [web_1])) "dev"
           (default ∅ (environment_of app_dev
              (returned (get_containers_status app_dev false [web_1])) "dev"))
           "db" (set_flags db_decl absent)).
  - vm_compute. reflexivity.
  - vm_compute. reflexivity.
  - vm_compute. reflexivity.
Defined.

Lemma get_container_status_declared_witness :
  exists d rec,
    returned_record (get_container_status app_dev "db" []) = Some rec /\
    last_declared (all_containers app_dev) "db" = Some d /\
    is_dependency rec = Some (default false (decl_is_dependency d)).
Proof.
  destruct (get_container_status_declared app_dev "db" []
              (returned_record (get_container_status app_dev "db" [])))
    as [H _].
  - vm_compute. reflexivity.
  - destruct H as (d & rec & Hr & Hd & Hdep & _).
    + refine (bool_decide_unpack _ _); vm_compute; exact I.
    + exists d, rec. split_and!; [exact Hr|exact Hd|exact Hdep].
Defined.

End StatusFacts.

(** ** The reader of the command's output: properties *)

Module ReaderFacts.
Import Reader.

Lemma sub_from_sublist s : forall skip,
  sublist (list_ascii_of_string (sub_from skip s)) (list_ascii_of_string s).
Proof.
  induction s as [|c s IH]; intros skip; [constructor|].
  destruct skip as [|k].
  - change (sub_from 0 (String c s))
      with (match match_escape (String c s) with
            | Some (S n) => sub_from n s
            | _ => String c (sub_from 0 s)
            end).
    destruct (match_escape (String c s)) as [[|n]|]; simpl.
    + by apply sublist_skip.
    + by apply sublist_cons.
    + by apply sublist_skip.
  - simpl. by apply sublist_cons.
Qed.

Lemma length_list_ascii s : length (list_ascii_of_string s) = String.length s.
Proof. induction s as [|c s IH]; simpl; [done|by rewrite IH]. Qed.

(** X8. Taking the escape sequences out of a line only deletes
    characters: what is left is the line with some characters removed, in
    the same order, and never longer. *)
Theorem strip_ansi_only_deletes s :
  sublist (list_ascii_of_string (strip_ansi s)) (list_ascii_of_string s) /\
  String.length (strip_ansi s) <= String.length s.
Proof.
  pose proof (sub_from_sublist s 0) as H. split; [exact H|].
  rewrite <- !length_list_ascii. by apply sublist_length.
Qed.

Lemma match_escape_plain c s : plain_char c = true -> match_escape (String c s) = None.
Proof.
  unfold plain_char, match_escape. intros H. apply andb_true_iff in H as [H1 H2].
  apply negb_true_iff in H1, H2. by rewrite H1, H2.
Qed.

Lemma sub_from_plain plain rest :
  all_chars plain_char plain = true ->
  sub_from 0 (plain +:+ rest) = plain +:+ sub_from 0 rest.
Proof.
  induction plain as [|c plain IH]; intros H; [done|].
  simpl in H. apply andb_true_iff in H as [Hc H].
  change (sub_from 0 (String c plain +:+ rest))
    with (match match_escape (String c (plain +:+ rest)) with
          | Some (S n) => sub_from n (plain +:+ rest)
          | _ => String c (sub_from 0 (plain +:+ rest))
          end).
  rewrite (match_escape_plain _ _ Hc). simpl. by rewrite (IH H).
Qed.

Lemma append_empty_r s : s +:+ "" = s.
Proof.
  induction s as [|c s IH]; [done|].
  change (String c s +:+ "") with (String c (s +:+ "")). by rewrite IH.
Qed.

(** X9. A line in which neither [ESC] nor the one-character sequence
    introducer occurs goes through unchanged. *)
Theorem strip_ansi_plain s :
  all_chars plain_char s = true -> strip_ansi s = s.
Proof.
  intros H. unfold strip_ansi.
  rewrite <- (append_empty_r s) at 1. rewrite (sub_from_plain _ _ H). simpl.
  apply append_empty_r.
Qed.

Lemma in_range_bounds lo hi c :
  in_range (String lo "") (String hi "") c = true <->
  (N_of_ascii lo <= N_of_ascii c <= N_of_ascii hi)%N.
Proof.
  unfold in_range. rewrite andb_true_iff, !N.leb_le. tauto.
Qed.

Lemma classes_disjoint c :
  (parameter_char c = true -> intermediate_char c = false /\ final_char c = false) /\
  (intermediate_char c = true -> parameter_char c = false /\ final_char c = false) /\
  (final_char c = true -> parameter_char c = false /\ intermediate_char c = false).
Proof.
  unfold parameter_char, intermediate_char, final_char.
  split_and!; intros H; apply in_range_bounds in H; simpl in H;
    (split; apply not_true_is_false; intros H'; apply in_range_bounds in H';
     simpl in H'; lia).
Qed.

Lemma append_cons c s t : String c s +:+ t = String c (s +:+ t).
Proof. done. Qed.

Lemma append_assoc s t u : (s +:+ t) +:+ u = s +:+ (t +:+ u).
Proof.
  induction s as [|c s IH]; [done|]. rewrite !append_cons. by rewrite IH.
Qed.

Lemma length_append s t : String.length (s +:+ t) = String.length s + String.length t.
Proof.
  induction s as [|c s IH]; [done|]. rewrite append_cons. simpl. by rewrite IH.
Qed.

(** A run of one class is taken whole when what follows it matches. *)
Lemma star_then_run cls k run rest n :
  all_chars cls run = true -> star_then cls k rest = Some n ->
  star_then cls k (run +:+ rest) = Some (String.length run + n).
Proof.
  induction run as [|c run IH]; intros Hrun Hk; [done|].
  simpl in Hrun. apply andb_true_iff in Hrun as [Hc Hrun].
  rewrite append_cons. simpl. by rewrite Hc, (IH Hrun Hk).
Qed.

Lemma star_then_stop cls k c s :
  cls c = false -> star_then cls k (String c s) = k (String c s).
Proof. intros H. simpl. by rewrite H. Qed.

(** The body of a sequence: parameters, intermediates, one final. *)
Lemma match_tail_body params inters f rest :
  all_chars parameter_char params = true ->
  all_chars intermediate_char inters = true ->
  final_char f = true ->
  match_tail (params +:+ inters +:+ String f rest)
    = Some (String.length params + (String.length inters + 1)).
Proof.
  intros Hp Hi Hf. unfold match_tail.
  destruct (classes_disjoint f) as (_ & _ & Hfd). destruct (Hfd Hf) as [Hfp Hfi].
  assert (star_then intermediate_char (one final_char) (inters +:+ String f rest)
          = Some (String.length inters + 1)) as Hinner.
  { apply star_then_run; [done|]. rewrite star_then_stop by done. simpl. by rewrite Hf. }
  apply star_then_run; [done|].
  destruct inters as [|i inters].
  - change ("" +:+ String f rest) with (String f rest) in *.
    rewrite star_then_stop by done. exact Hinner.
  - simpl in Hi. apply andb_true_iff in Hi as [Hic _].
    destruct (classes_disjoint i) as (_ & Hid & _). destruct (Hid Hic) as [Hip _].
    rewrite append_cons in *. rewrite star_then_stop by done. exact Hinner.
Qed.

Lemma sub_from_skip s1 : forall s2,
  sub_from (String.length s1) (s1 +:+ s2) = sub_from 0 s2.
Proof.
  induction s1 as [|c s1 IH]; intros s2; [by destruct s2|].
  rewrite append_cons. simpl. apply IH.
Qed.

(** X10. A complete sequence, that is an introducer, any parameter
    characters, any intermediate characters and one final character, is
    taken out whole wherever it follows text free of [ESC] and of the
    one-character introducer; what comes after it is treated in turn. *)
Theorem strip_ansi_sequence plain intro params inters f rest :
  all_chars plain_char plain = true ->
  intro ∈ introducers ->
  all_chars parameter_char params = true ->
  all_chars intermediate_char inters = true ->
  final_char f = true ->
  strip_ansi (plain +:+ intro +:+ params +:+ inters +:+ String f rest)
    = plain +:+ strip_ansi rest.
Proof.
  intros Hplain Hintro Hp Hi Hf. unfold strip_ansi.
  rewrite (sub_from_plain _ _ Hplain). f_equal.
  pose proof (match_tail_body params inters f rest Hp Hi Hf) as Htail.
  set (body := params +:+ inters +:+ String f "").
  assert (params +:+ inters +:+ String f rest = body +:+ rest) as Hbody.
  { subst body. by rewrite !append_assoc. }
  assert (String.length body = String.length params + (String.length inters + 1)) as Hlen.
  { subst body. by rewrite !length_append. }
  rewrite Hbody in *. rewrite <- Hlen in Htail.
  apply list_elem_of_In in Hintro. destruct Hintro as [<-|[<-|[]]].
  - change (sub_from 0 (String ESC "[" +:+ body +:+ rest))
      with (match match_escape (String ESC (String "[" (body +:+ rest))) with
            | Some (S n) => sub_from n (String "[" (body +:+ rest))
            | _ => String ESC (sub_from 0 (String "[" (body +:+ rest)))
            end).
    assert (match_escape (String ESC (String "[" (body +:+ rest)))
            = Some (S (S (String.length body)))) as ->.
    { unfold match_escape. change (Ascii.eqb ESC CSI) with false.
      change (Ascii.eqb ESC ESC) with true. cbv beta iota. by rewrite Htail. }
    change (sub_from (S (String.length body)) (String "[" (body +:+ rest)))
      with (sub_from (String.length body) (body +:+ rest)).
    apply sub_from_skip.
  - change (sub_from 0 (String CSI "" +:+ body +:+ rest))
      with (match match_escape (String CSI (body +:+ rest)) with
            | Some (S n) => sub_from n (body +:+ rest)
            | _ => String CSI (sub_from 0 (body +:+ rest))
            end).
    assert (match_escape (String CSI (body +:+ rest))
            = Some (S (String.length body))) as ->.
    { unfold match_escape. change (Ascii.eqb CSI CSI) with true.
      cbv beta iota. by rewrite Htail. }
    apply sub_from_skip.
Qed.


(** *** The reading loop *)

Lemma read_command_output_eq decode stdout : forall output_lines,
  (_read_command_output decode stdout output_lines).1
    = (output_lines ++ map clean (decoded decode stdout))%list.
Proof.
  induction stdout as [|l stdout IH]; intros output_lines; simpl.
  - by rewrite app_nil_r.
  - destruct l as [|c l]; [by rewrite app_nil_r|].
    destruct (decode (String c l)) as [text|]; simpl; [|by rewrite app_nil_r].
    rewrite IH. by rewrite <- app_assoc.
Qed.

Lemma decoded_length decode stdout : length (decoded decode stdout) <= length stdout.
Proof.
  induction stdout as [|l stdout IH]; [done|]. simpl.
  destruct l; [simpl; lia|]. destruct (decode _); simpl; lia.
Qed.

(** The reader stops at an empty read, and returns. *)
Lemma read_until_empty decode pre texts post output_lines :
  Forall2 (read_as decode) pre texts ->
  decoded decode (pre ++ "" :: post) = texts /\
  (_read_command_output decode (pre ++ "" :: post) output_lines).2 = Ok tt.
Proof.
  intros H. revert output_lines.
  induction H as [|l text pre texts [Hl Hd] _ IH]; intros output_lines; [done|].
  destruct l as [|c l]; [done|]. simpl. rewrite Hd.
  destruct (IH (output_lines ++ [clean text])%list) as [-> ->]. done.
Qed.

(** It stops at a read that is no text, and ends in the error. *)
Lemma read_until_undecodable decode pre texts bad post output_lines :
  Forall2 (read_as decode) pre texts -> bad <> "" -> decode bad = None ->
  decoded decode (pre ++ bad :: post) = texts /\
  (_read_command_output decode (pre ++ bad :: post) output_lines).2
    = Err (UnicodeDecodeError bad).
Proof.
  intros H Hbad Hnone. revert output_lines.
  induction H as [|l text pre texts [Hl Hd] _ IH]; intros output_lines.
  - destruct bad as [|c bad]; [done|]. simpl. by rewrite Hnone.
  - destruct l as [|c l]; [done|]. simpl. rewrite Hd.
    destruct (IH (output_lines ++ [clean text])%list) as [-> ->]. done.
Qed.

(** It gets through a stream of which every read is text. *)
Lemma read_all decode stdout texts output_lines :
  Forall2 (read_as decode) stdout texts ->
  decoded decode stdout = texts /\
  (_read_command_output decode stdout output_lines).2 = Ok tt.
Proof.
  intros H. revert output_lines.
  induction H as [|l text pre texts [Hl Hd] _ IH]; intros output_lines; [done|].
  destruct l as [|c l]; [done|]. simpl. rewrite Hd.
  destruct (IH (output_lines ++ [clean text])%list) as [-> ->]. done.
Qed.

Lemma sub_from_all_chars cls s : forall skip,
  all_chars cls s = true -> all_chars cls (sub_from skip s) = true.
Proof.
  induction s as [|c s IH]; intros skip H; [done|].
  simpl in H. apply andb_true_iff in H as [Hc H].
  destruct skip as [|k]; [|simpl; by apply IH].
  change (sub_from 0 (String c s))
    with (match match_escape (String c s) with
          | Some (S n) => sub_from n s
          | _ => String c (sub_from 0 s)
          end).
  destruct (match_escape (String c s)) as [[|n]|]; simpl; rewrite ?Hc, ?IH; done.
Qed.

Lemma rstrip_none c s :
  all_chars (fun a => negb (Ascii.eqb a c)) s = true -> rstrip c s = s.
Proof.
  induction s as [|a s IH]; [done|]. simpl. intros H.
  apply andb_true_iff in H as [Ha H]. rewrite (IH H).
  apply negb_true_iff in Ha. rewrite Ha. by destruct s.
Qed.

Lemma rstrip_last c s : rstrip c (s +:+ String c "") = rstrip c s.
Proof.
  induction s as [|a s IH].
  - change (rstrip c ("" +:+ String c ""))
      with (if Ascii.eqb c c then "" else String c ""). by rewrite Ascii.eqb_refl.
  - rewrite append_cons. simpl. by rewrite IH.
Qed.

Lemma lstrip_none c s :
  all_chars (fun a => negb (Ascii.eqb a c)) s = true -> forall t, lstrip c (s +:+ t) =
    match s with EmptyString => lstrip c t | _ => s +:+ t end.
Proof.
  destruct s as [|a s]; [done|]. simpl. intros H t.
  apply andb_true_iff in H as [Ha _]. apply negb_true_iff in Ha.
  rewrite append_cons. simpl. by rewrite Ha.
Qed.

(** What a read gives is cleaned to its text. *)
Lemma strip_line s :
  is_line s -> exists text, no_line_feed text = true /\ strip LF s = text.
Proof.
  intros (text & Htext & [->|[-> Hne]]); exists text; (split; [done|]); unfold strip.
  - rewrite (lstrip_none _ _ Htext). destruct text as [|a text].
    + reflexivity.
    + rewrite rstrip_last. by apply rstrip_none.
  - pose proof (lstrip_none _ _ Htext "") as H. rewrite append_empty_r in H.
    destruct text as [|a text]; [done|]. rewrite H. by apply rstrip_none.
Qed.

Lemma clean_line s : is_line s -> no_line_feed (clean s) = true.
Proof.
  intros Hs. destruct (strip_line s Hs) as (text & Htext & Hstrip).
  unfold clean, strip_ansi. rewrite Hstrip. by apply sub_from_all_chars.
Qed.

(** X11. The reader only appends to the buffer: what was there stays in
    front, and at most one line is added for each read. It gets through
    the reads until one is empty or is no text: the cleaned text of each
    read before that one is added, in order, and nothing that is read
    after it. At an empty read, or when the stream ends, the reader
    returns; at a read that is no text it ends in the decoding error.
    When the texts are lines as [readline] gives them, no added line has
    a line feed in it. *)
Theorem read_command_output_appends decode stdout output_lines :
  exists new,
    (_read_command_output decode stdout output_lines).1 = (output_lines ++ new)%list /\
    length new <= length stdout /\
    (forall pre texts post,
       stdout = (pre ++ "" :: post)%list -> Forall2 (read_as decode) pre texts ->
       new = map clean texts /\
       (_read_command_output decode stdout output_lines).2 = Ok tt) /\
    (forall pre texts bad post,
       stdout = (pre ++ bad :: post)%list -> Forall2 (read_as decode) pre texts ->
       bad <> "" -> decode bad = None ->
       new = map clean texts /\
       (_read_command_output decode stdout output_lines).2
         = Err (UnicodeDecodeError bad)) /\
    (forall texts,
       Forall2 (read_as decode) stdout texts ->
       new = map clean texts /\
       (_read_command_output decode stdout output_lines).2 = Ok tt /\
       (Forall is_line texts -> Forall (fun l => no_line_feed l = true) new)).
Proof.
  exists (map clean (decoded decode stdout)). split_and!.
  - apply read_command_output_eq.
  - rewrite length_map. apply decoded_length.
  - intros pre texts post -> Hpre.
    destruct (read_until_empty decode pre texts post output_lines Hpre) as [-> ->]. done.
  - intros pre texts bad post -> Hpre Hbad Hnone.
    destruct (read_until_undecodable decode pre texts bad post output_lines
                Hpre Hbad Hnone) as [-> ->]. done.
  - intros texts Hall.
    destruct (read_all decode stdout texts output_lines Hall) as [-> ->].
    split_and!; [done|done|]. intros Hlines.
    apply Forall_fmap. eapply Forall_impl; [exact Hlines|]. intros l. apply clean_line.
Qed.

(** *** Joining the lines *)

Lemma no_line_feed_contains s :
  no_line_feed s = true -> Py.contains (String LF "") s = false.
Proof.
  induction s as [|c s IH]; [done|]. unfold no_line_feed in *. intros H.
  simpl in H. apply andb_true_iff in H as [Hc H]. apply negb_true_iff in Hc.
  change (Py.contains (String LF "") (String c s))
    with ((if ascii_dec LF c then String.prefix "" s else false)
          || Py.contains (String LF "") s).
  rewrite (IH H), orb_false_r.
  destruct (ascii_dec LF c) as [Heq|_]; [|done].
  rewrite <- Heq in Hc. by rewrite Ascii.eqb_refl in Hc.
Qed.

Lemma split_join lines :
  lines <> [] -> Forall (fun l => no_line_feed l = true) lines ->
  Py.split LF (Py.join Process.newline lines) = lines.
Proof.
  induction lines as [|l lines IH]; [done|]. intros _ Hall.
  apply Forall_cons in Hall as [Hl Hall].
  destruct lines as [|l' lines].
  - simpl. apply Aggregator.split_no_separator. by apply no_line_feed_contains.
  - change (Py.join Process.newline (l :: l' :: lines))
      with (l +:+ String LF (Py.join Process.newline (l' :: lines))).
    rewrite Aggregator.split_at_separator by (by apply no_line_feed_contains).
    by rewrite IH.
Qed.

(** X12. The output of a captured run can be cut back into the lines that
    were read: when the command wrote at least one line and every read is
    the text of a line, cutting the output handed back at line feeds gives
    exactly the cleaned texts, one for each read. *)
Theorem captured_output_lines decode stdout texts returncode :
  stdout <> [] -> Forall2 (read_as decode) stdout texts -> Forall is_line texts ->
  exists out,
    Process._run_process_with_spinner
      (Process.exits (_read_command_output decode stdout []).1 returncode)
      = Ok (returncode, Some out) /\
    Py.split LF out = map clean texts.
Proof.
  intros Hne Hall Hlines. eexists. split; [reflexivity|].
  rewrite read_command_output_eq.
  destruct (read_all decode stdout texts [] Hall) as [-> _]. simpl.
  apply split_join.
  - apply Forall2_length in Hall. destruct stdout; [done|]. by destruct texts.
  - apply Forall_fmap. eapply Forall_impl; [exact Hlines|]. intros l. apply clean_line.
Qed.


Lemma strip_ansi_plain_witness : strip_ansi "Pulling web" = "Pulling web".
Proof. apply strip_ansi_plain. vm_compute. reflexivity. Defined.

Lemma strip_ansi_sequence_witness :
  strip_ansi ("status: " +:+ String ESC "[" +:+ "1;32" +:+ "" +:+ String "m" "ok")
    = "status: " +:+ strip_ansi "ok".
Proof.
  apply (strip_ansi_sequence "status: " (String ESC "[") "1;32" "" "m" "ok").
  - vm_compute. reflexivity.
  - left.
  - vm_compute. reflexivity.
  - vm_compute. reflexivity.
  - vm_compute. reflexivity.
Defined.

Lemma captured_output_lines_witness :
  exists out,
    Process._run_process_with_spinner
      (Process.exits (_read_command_output decode_ascii two_reads []).1 (Some 0%Z))
      = Ok (Some 0%Z, Some out) /\
    Py.split LF out = map clean two_reads.
Proof.
  apply (captured_output_lines decode_ascii two_reads two_reads (Some 0%Z)).
  - discriminate.
  - repeat constructor; try discriminate; vm_compute; reflexivity.
  - repeat constructor.
    + exists "Pulling web". split; [vm_compute; reflexivity|by left].
    + exists (String ESC "[32m" +:+ "done" +:+ String ESC "[0m").
      split; [vm_compute; reflexivity|by left].
Defined.

(** The two lines, as they end up in the buffer. *)
Example two_reads_cleaned :
  _read_command_output decode_ascii two_reads [] = (["Pulling web"; "done"], Ok tt).
Proof. vm_compute. reflexivity. Qed.

(** A read that is no text ends the reader: the line before it is in the
    buffer, the one after it is not. *)
Example broken_reads_cut :
  _read_command_output decode_ascii broken_reads [] =
    (["Pulling web"],
     Err (UnicodeDecodeError (String (ascii_of_nat 255) (String LF "")))).
Proof. vm_compute. reflexivity. Qed.

End ReaderFacts.

(** ** From [deploy] to [show] *)

Module AnnotationsFacts.
Import Deploy Annotations.

(** X19. What [deploy] records is what [show] displays: with the keys of
    [show] being those [deploy] writes, the version of a deployed
    application reads [branch=..., tag=..., commit=...], in this order,
    without the branch on a detached [HEAD], and without the tag when no
    tag points at the commit or the tag command failed. *)
Theorem version_info_of_deploy build commit_hash branch_name git_tag :
  _get_version_info deploy_keys (annotations build commit_hash branch_name git_tag) =
  Py.join ", "
    ((if bool_decide (branch_name = "HEAD") then [] else bit "branch" branch_name) ++
     bit "tag" (default "" git_tag) ++
     bit "commit" commit_hash)%list.
Proof.
  unfold _get_version_info, annotations, deploy_keys. simpl.
  assert (forall (m : gmap string string) k k' v,
            k <> k' -> <[k' := v]> m !! k = m !! k) as Hne
    by (intros; by apply lookup_insert_ne).
  destruct git_tag as [tag|]; destruct (bool_decide (branch_name = "HEAD"));
    rewrite ?lookup_insert_eq, ?Hne, ?lookup_insert_eq, ?Hne, ?lookup_insert_eq,
            ?Hne, ?lookup_insert_eq, ?lookup_empty by done; simpl;
    destruct commit_hash, branch_name; try destruct tag; reflexivity.
Qed.

End AnnotationsFacts.

(** ** The commands of the development environment: properties *)

Module EnvironmentFacts.
Import Environment EnvironmentSpec.

Section logic.
Context (w : world) (P : event -> Prop).

Lemma sat_ret {A} (I : kubetools_config -> Prop) (Q : A -> Prop) (a : A) :
  Q a -> sat I I P Q (mret a).
Proof.
  intros HQ s HI. exists []. simpl. rewrite app_nil_r.
  split_and!; [done|constructor|done|]. by intros a' [= <-].
Qed.

Lemma sat_raise {A} (I : kubetools_config -> Prop) (Q : A -> Prop) e :
  sat I I P Q (raise e).
Proof.
  intros s HI. exists []. simpl. rewrite app_nil_r.
  split_and!; [done|constructor|done|done].
Qed.

Lemma sat_echo (I : kubetools_config -> Prop) line :
  P (echo line) -> sat I I P (fun _ => True) (click_echo line).
Proof.
  intros HP s HI. exists [echo line]. simpl.
  split_and!; [done|by constructor|done|done].
Qed.

Lemma sat_do (I : kubetools_config -> Prop) c :
  (forall cfg, I cfg -> P (called (c cfg))) -> sat I I P (fun _ => True) (do w c).
Proof.
  intros HP s HI. exists [called (c (config s))]. simpl.
  split_and!; [done|constructor; [by apply HP|constructor]|done|done].
Qed.

Lemma sat_ask {A} (I : kubetools_config -> Prop) c (answer : list event -> kubetools_config -> A) :
  (forall cfg, I cfg -> P (called (c cfg))) ->
  sat I I P (fun _ => True) (ask w c answer).
Proof.
  intros HP s HI. exists [called (c (config s))]. simpl.
  split_and!; [done|constructor; [by apply HP|constructor]|done|done].
Qed.

Lemma sat_get_config (I : kubetools_config -> Prop) : sat I I P I get_config.
Proof.
  intros s HI. exists []. simpl. rewrite app_nil_r.
  split_and!; [done|constructor|done|]. by intros a [= <-].
Qed.

Lemma sat_set_config (I J : kubetools_config -> Prop) cfg :
  J cfg -> sat I J P (fun _ => True) (set_config cfg).
Proof.
  intros HJ s HI. exists []. simpl. rewrite app_nil_r.
  split_and!; [done|constructor|done|done].
Qed.

Lemma sat_read (I : kubetools_config -> Prop) command :
  sat I I P (fun words => exists cfg, I cfg /\ words = contents cfg command)
      (read command).
Proof.
  intros s HI. exists []. simpl. rewrite app_nil_r.
  split_and!; [done|constructor|done|]. intros a [= <-]. eauto.
Qed.

Lemma sat_extend (I J : kubetools_config -> Prop) command arguments :
  (forall cfg, I cfg ->
     J {| env := env cfg; upgrades := upgrades cfg; tests := tests cfg;
          contents := fun r => if decide (r = command)
                               then (contents cfg r ++ arguments)%list
                               else contents cfg r |}) ->
  sat I J P (fun _ => True) (extend command arguments).
Proof.
  intros HJ s HI. exists []. simpl. rewrite app_nil_r.
  split_and!; [done|constructor|by apply HJ|done].
Qed.

(** Lines 237-238. *)
Lemma sat_extend_if_any (I J : kubetools_config -> Prop) command arguments :
  (forall cfg, I cfg ->
     J {| env := env cfg; upgrades := upgrades cfg; tests := tests cfg;
          contents := fun r => if decide (r = command)
                               then (contents cfg r ++ arguments)%list
                               else contents cfg r |}) ->
  (arguments = [] -> forall cfg, I cfg -> J cfg) ->
  sat I J P (fun _ => True)
      (match arguments with
       | [] => mret tt
       | _ :: _ => extend command arguments
       end).
Proof.
  intros Hext Hnil. destruct arguments as [|a arguments']; [|by apply sat_extend].
  intros s HI. exists []. simpl. rewrite app_nil_r.
  split_and!; [done|constructor|by apply Hnil|done].
Qed.

Lemma sat_weaken {A} (I I' J J' : kubetools_config -> Prop) (Q : A -> Prop) (m : Eff A) :
  sat I J P Q m -> (forall cfg, I' cfg -> I cfg) -> (forall cfg, J cfg -> J' cfg) ->
  sat I' J' P Q m.
Proof.
  intros Hm HI HJ s Hs. destruct (Hm s (HI _ Hs)) as (new & ? & ? & ? & ?).
  exists new. split_and!; [done|done|by apply HJ|done].
Qed.

Lemma sat_bind {A B} (I J K : kubetools_config -> Prop)
    (Q : A -> Prop) (R : B -> Prop) (m : Eff A) (f : A -> Eff B) :
  sat I J P Q m -> (forall cfg, J cfg -> K cfg) ->
  (forall a, Q a -> sat J K P R (f a)) ->
  sat I K P R (m ≫= f).
Proof.
  intros Hm HJK Hf s HI. destruct (Hm s HI) as (new & Hh & Hnew & HJ & HQ).
  unfold mbind, Eff_bind. destruct (m s) as [s' [a|e]] eqn:Hms; simpl in *.
  - destruct (Hf a (HQ a eq_refl) s' HJ) as (new' & Hh' & Hnew' & HK & HR).
    exists (new ++ new')%list. rewrite Hh', Hh, app_assoc.
    split_and!; [done|by apply Forall_app|done|done].
  - exists new. split_and!; [done|done|by apply HJK|done].
Qed.

(** The usual case: one invariant, nothing known of the values. *)
Lemma sat_seq {A B} (I : kubetools_config -> Prop) (Q : A -> Prop) (R : B -> Prop)
    (m : Eff A) (f : A -> Eff B) :
  sat I I P Q m -> (forall a, Q a -> sat I I P R (f a)) -> sat I I P R (m ≫= f).
Proof. intros Hm Hf. by apply sat_bind with I Q. Qed.

Lemma sat_post {A} (I J : kubetools_config -> Prop) (Q R : A -> Prop) (m : Eff A) :
  sat I J P Q m -> (forall a, Q a -> R a) -> sat I J P R m.
Proof.
  intros Hm HQR s HI. destruct (Hm s HI) as (new & ? & ? & ? & HQ).
  exists new. split_and!; [done|done|done|]. intros a Ha. by apply HQR, HQ.
Qed.

Lemma sat_for {A} (I : kubetools_config -> Prop) (xs : list A) (body : A -> Eff unit) :
  (forall x, x ∈ xs -> sat I I P (fun _ => True) (body x)) ->
  sat I I P (fun _ => True) (for_ xs body).
Proof.
  induction xs as [|x xs IH]; intros Hb; [by apply sat_ret|].
  simpl. apply sat_seq with (fun _ => True); [apply Hb; left|].
  intros _ _. apply IH. intros y Hy. apply Hb. by right.
Qed.

Lemma sat_try_finally {A} (I J K : kubetools_config -> Prop) (Q : A -> Prop)
    (body : Eff A) (cleanup : Eff unit) :
  sat I J P Q body -> sat J K P (fun _ => True) cleanup ->
  sat I K P Q (try_finally body cleanup).
Proof.
  intros Hb Hc s HI. destruct (Hb s HI) as (new & Hh & Hnew & HJ & HQ).
  unfold try_finally. destruct (body s) as [s' r] eqn:Hbs; simpl in *.
  destruct (Hc s' HJ) as (new' & Hh' & Hnew' & HK & _).
  destruct (cleanup s') as [s'' [[]|e]] eqn:Hcs; simpl in *;
    exists (new ++ new')%list; rewrite Hh', Hh, app_assoc;
    (split_and!; [done|by apply Forall_app|done|done]).
Qed.

Lemma sat_try_except (I J K : kubetools_config -> Prop)
    (body handler orelse : Eff unit) :
  sat I J P (fun _ => True) body ->
  sat J K P (fun _ => True) handler -> sat J K P (fun _ => True) orelse ->
  sat I K P (fun _ => True) (try_except_raise_else body handler orelse).
Proof.
  intros Hb Hh Ho s HI. destruct (Hb s HI) as (new & Hhist & Hnew & HJ & _).
  unfold try_except_raise_else. destruct (body s) as [s' [[]|e]] eqn:Hbs; simpl in *.
  - destruct (Ho s' HJ) as (new' & Hh' & Hnew' & HK & _).
    exists (new ++ new')%list. rewrite Hh', Hhist, app_assoc.
    split_and!; [done|by apply Forall_app|done|done].
  - destruct (Hh s' HJ) as (new' & Hh' & Hnew' & HK & _).
    destruct (handler s') as [s'' [[]|e']] eqn:Hhs; simpl in *;
      exists (new ++ new')%list; rewrite Hh', Hhist, app_assoc;
      (split_and!; [done|by apply Forall_app|done|done]).
Qed.

End logic.


Lemma upgrade_run_other containers no_upgrade is_testing cfg0 ev :
  (forall cfg n cmd envs, ev <> called (run_container cfg n cmd envs)) ->
  runs_declared_upgrade containers no_upgrade is_testing cfg0 ev.
Proof. intros H cfg n cmd envs Hev. by destruct (H cfg n cmd envs). Qed.

Lemma sat_run_upgrade w containers is_testing cfg0 upgrade_containers u :
  (containers <> [] -> upgrade_containers = containers) ->
  u ∈ default [] (upgrades cfg0) ->
  sat (fun cfg => cfg = cfg0) (fun cfg => cfg = cfg0)
      (runs_declared_upgrade containers false is_testing cfg0) (fun _ => True)
      (run_upgrade w containers upgrade_containers is_testing u).
Proof.
  intros Hcs Hu. unfold run_upgrade.
  destruct (is_testing && negb (default true (item_test_condition u))) eqn:Htest;
    [by apply sat_ret|].
  apply sat_seq with (fun _ => True).
  { apply sat_ask. intros cfg _. by apply upgrade_run_other. }
  intros container_name _.
  destruct (negb (bool_decide (containers = []))
            && negb (bool_decide (container_name ∈ upgrade_containers))) eqn:Hskip;
    [by apply sat_ret|].
  unfold command_of. destruct (item_command u) as [command|] eqn:Hcmd.
  2:{ apply sat_seq with (fun _ => False); [apply sat_raise|]. by intros ? []. }
  apply sat_seq with (fun c => c = command); [by apply sat_ret|]. intros ? ->.
  apply sat_seq with (fun _ => True).
  { eapply sat_post; [apply sat_read|done]. }
  intros words _. apply sat_seq with (fun _ => True).
  { apply sat_echo. by apply upgrade_run_other. }
  intros _ _. apply sat_seq with (fun _ => True); [|intros _ _; apply sat_echo;
                                                     by apply upgrade_run_other].
  apply sat_do. intros cfg -> cfg' n cmd envs [= <- <- <- <-].
  split_and!; [done|done|done| |].
  - intros Hne. apply andb_false_iff in Hskip as [H|H].
    + apply negb_false_iff, bool_decide_eq_true in H. done.
    + apply negb_false_iff, bool_decide_eq_true in H. by rewrite <- (Hcs Hne).
  - exists u, command. split_and!; [done|done|done|].
    intros ->. simpl in Htest. intros Hc. by rewrite Hc in Htest.
Qed.

Lemma sat_up w containers no_upgrade is_testing cfg0 :
  sat (fun cfg => cfg = cfg0) (fun cfg => cfg = cfg0)
      (runs_declared_upgrade containers no_upgrade is_testing cfg0) (fun _ => True)
      (up w containers no_upgrade is_testing).
Proof.
  unfold up.
  apply sat_seq with (fun _ => True).
  { apply sat_ask. intros cfg _. by apply upgrade_run_other. }
  intros statuses _.
  repeat (apply sat_seq with (fun _ => True);
          [first [apply sat_echo; by apply upgrade_run_other
                 |apply sat_do; intros cfg _; by apply upgrade_run_other]
          |intros _ _]).
  apply sat_seq with (fun _ => True).
  2:{ intros _ _.
      repeat (apply sat_seq with (fun _ => True);
              [first [apply sat_echo; by apply upgrade_run_other
                     |apply sat_do; intros cfg _; by apply upgrade_run_other]
              |intros _ _]).
      apply sat_echo. by apply upgrade_run_other. }
  destruct no_upgrade; [by apply sat_ret|].
  set (upgrade_containers := match containers with [] => statuses | _ :: _ => containers end).
  assert (containers <> [] -> upgrade_containers = containers) as Hcs
    by (subst upgrade_containers; by destruct containers).
  destruct upgrade_containers as [|c cs] eqn:Huc; [by apply sat_ret|].
  apply sat_seq with (fun _ => True).
  { apply sat_echo. by apply upgrade_run_other. }
  intros _ _. apply sat_seq with (fun cfg => cfg = cfg0); [apply sat_get_config|].
  intros cfg ->. apply sat_for. intros u Hu. by apply sat_run_upgrade.
Qed.

(** X13. Whatever the calls answer, [up] changes nothing in the
    configuration and every upgrade it runs is one of the configuration,
    run with its own command: none with [--no-upgrade], only in the
    containers named on the command line when some are named, and never,
    when testing, an upgrade whose [test] condition is false. *)
Theorem up_runs_declared_upgrades w containers no_upgrade is_testing s :
  exists new,
    history (up w containers no_upgrade is_testing s).1 = (history s ++ new)%list /\
    config (up w containers no_upgrade is_testing s).1 = config s /\
    forall cfg n cmd envs, called (run_container cfg n cmd envs) ∈ new ->
      cfg = config s /\ envs = None /\ no_upgrade = false /\
      (containers <> [] -> n ∈ containers) /\
      exists u command,
        u ∈ default [] (upgrades (config s)) /\ item_command u = Some command /\
        cmd = contents (config s) command /\
        (is_testing = true -> item_test_condition u <> Some false).
Proof.
  destruct (sat_up w containers no_upgrade is_testing (config s) s eq_refl)
    as (new & Hh & Hnew & Hc & _).
  exists new. split_and!; [done|done|].
  intros cfg n cmd envs Hin. rewrite Forall_forall in Hnew.
  by apply (Hnew _ Hin cfg n cmd envs).
Qed.


Section test.
Context (w : world).

(** [up] under any invariant of the configuration: its events are echoes
    and the calls of [made_by_up], given the configuration. *)
Lemma sat_up_calls (I : kubetools_config -> Prop) (P : event -> Prop)
    containers no_upgrade is_testing :
  (forall line, P (echo line)) ->
  (forall cfg c, I cfg -> made_by_up c -> config_of c = cfg -> P (called c)) ->
  sat I I P (fun _ => True) (up w containers no_upgrade is_testing).
Proof.
  intros Hecho Hcall.
  assert (forall A (c : kubetools_config -> call) (answer : list event -> kubetools_config -> A),
            (forall cfg, made_by_up (c cfg) /\ config_of (c cfg) = cfg) ->
            sat I I P (fun _ => True) (ask w c answer)) as Hask.
  { intros A c answer Hc. apply sat_ask. intros cfg HI. destruct (Hc cfg). by apply (Hcall cfg). }
  assert (forall (c : kubetools_config -> call),
            (forall cfg, made_by_up (c cfg) /\ config_of (c cfg) = cfg) ->
            sat I I P (fun _ => True) (do w c)) as Hdo.
  { intros c Hc. apply sat_do. intros cfg HI. destruct (Hc cfg). by apply (Hcall cfg). }
  unfold up.
  apply sat_seq with (fun _ => True); [by apply Hask|]. intros statuses _.
  repeat (apply sat_seq with (fun _ => True);
          [first [by apply sat_echo | by apply Hdo]|intros _ _]).
  apply sat_seq with (fun _ => True).
  2:{ intros _ _.
      repeat (apply sat_seq with (fun _ => True);
              [first [by apply sat_echo | by apply Hdo]|intros _ _]).
      by apply sat_echo. }
  destruct (if no_upgrade then [] else
              match containers with [] => statuses | _ :: _ => containers end)
    as [|c cs]; [by apply sat_ret|].
  apply sat_seq with (fun _ => True); [by apply sat_echo|]. intros _ _.
  apply sat_seq with (fun _ => True).
  { eapply sat_post; [apply sat_get_config|done]. }
  intros cfg _. apply sat_for. intros u _. unfold run_upgrade.
  destruct (is_testing && negb (default true (item_test_condition u)));
    [by apply sat_ret|].
  apply sat_seq with (fun _ => True); [by apply Hask|]. intros container_name _.
  destruct (negb (bool_decide (containers = []))
            && negb (bool_decide (container_name ∈ c :: cs))); [by apply sat_ret|].
  unfold command_of. destruct (item_command u) as [command|].
  2:{ apply sat_seq with (fun _ => False); [apply sat_raise|]. by intros ? []. }
  apply sat_seq with (fun _ => True); [by apply sat_ret|]. intros command' _.
  apply sat_seq with (fun _ => True).
  { eapply sat_post; [apply sat_read|done]. }
  intros words _.
  repeat (apply sat_seq with (fun _ => True);
          [first [by apply sat_echo | by apply Hdo]|intros _ _]).
  by apply sat_echo.
Qed.

Lemma sat_destroy (I : kubetools_config -> Prop) (P : event -> Prop) containers :
  (forall line, P (echo line)) ->
  (forall cfg, I cfg -> P (called (destroy_containers cfg containers))) ->
  sat I I P (fun _ => True) (destroy w containers).
Proof.
  intros Hecho Hcall. unfold destroy.
  apply sat_seq with (fun _ => True); [by apply sat_echo|]. intros _ _.
  apply sat_seq with (fun _ => True); [by apply sat_do|]. intros _ _.
  by apply sat_echo.
Qed.

(** The tests loop under an invariant that does not look at what the list
    objects hold. *)
Lemma sat_run_tests (I : kubetools_config -> Prop) (P : event -> Prop) arguments todo :
  (forall cfg c, I cfg ->
     I {| env := env cfg; upgrades := upgrades cfg; tests := tests cfg;
          contents := c |}) ->
  (forall line, P (echo line)) ->
  (forall cfg t, I cfg -> P (called (find_container_for_config cfg t))) ->
  (forall cfg n cmd envars, I cfg ->
     P (called (run_container cfg n cmd (Some envars)))) ->
  sat I I P (fun _ => True) (run_tests w arguments todo).
Proof.
  intros HI Hecho Hfind Hrun.
  induction todo as [|t todo IH]; [by apply sat_ret|].
  simpl. unfold command_of. destruct (item_command t) as [c|] eqn:Hc.
  2:{ apply sat_seq with (fun _ => False); [apply sat_raise|]. by intros ? []. }
  apply sat_seq with (fun c' => c' = c); [by apply sat_ret|]. intros ? ->.
  apply sat_seq with (fun _ => True).
  { apply sat_extend_if_any; [|done]. intros cfg Hcfg. by apply HI. }
  intros _ _.
  apply sat_seq with (fun _ => True).
  { apply sat_ask. intros cfg Hcfg. by apply Hfind. }
  intros n _.
  apply sat_seq with (fun _ => True).
  { eapply sat_post; [apply sat_read|done]. }
  intros words _.
  apply sat_seq with (fun _ => True); [by apply sat_echo|]. intros _ _.
  apply sat_seq with (fun _ => True).
  { apply sat_do. intros cfg Hcfg. by apply Hrun. }
  intros _ _. apply sat_seq with (fun _ => True); [by apply sat_echo|]. intros _ _.
  apply IH.
Qed.

(** The body of the [try] of [test]: [J1] holds until the tests start,
    [J2] when the body ends. *)
Lemma sat_test_body (J1 J2 : kubetools_config -> Prop) (P : event -> Prop) arguments :
  (forall cfg, J1 cfg -> J2 cfg) ->
  (forall line, P (echo line)) ->
  (forall cfg c, J1 cfg -> made_by_up c -> config_of c = cfg -> P (called c)) ->
  (forall cfg0 ts, J1 cfg0 -> tests cfg0 = Some ts ->
     sat J1 J2 P (fun _ => True) (run_tests w arguments ts)) ->
  sat J1 J2 P (fun _ => True) (test_body w arguments).
Proof.
  intros H12 Hecho Hup Htests. unfold test_body.
  apply sat_bind with J1 (fun _ => True); [by apply sat_up_calls|done|]. intros _ _.
  apply sat_bind with J1 (fun _ => True); [by apply sat_echo|done|]. intros _ _.
  apply sat_bind with J1 (fun _ => True); [by apply sat_echo|done|]. intros _ _.
  apply sat_bind with J1 J1; [apply sat_get_config|done|]. intros cfg0 Hcfg0.
  assert (sat J1 J2 P (fun _ : () => True)
            (raise (KubeDevError "No tests provided in kubetools config!"))) as Hraise.
  { apply sat_weaken with J1 J1; [apply sat_raise|done|done]. }
  destruct (tests cfg0) as [[|t ts]|] eqn:Hts; [done| |done].
  by apply (Htests cfg0).
Qed.

(** The whole of [test] after the environment is set. *)
Lemma sat_test_try (J1 J2 : kubetools_config -> Prop) (P : event -> Prop)
    keep_containers arguments :
  (forall cfg, J1 cfg -> J2 cfg) ->
  (forall line, P (echo line)) ->
  (forall cfg c, J1 cfg -> made_by_up c -> config_of c = cfg -> P (called c)) ->
  (forall cfg0 ts, J1 cfg0 -> tests cfg0 = Some ts ->
     sat J1 J2 P (fun _ => True) (run_tests w arguments ts)) ->
  (keep_containers = false ->
   forall cfg, J2 cfg -> P (called (destroy_containers cfg []))) ->
  sat J1 J2 P (fun _ => True)
    (try_finally
       (try_except_raise_else
          (test_body w arguments)
          (click_echo (style w "Exception!" (Some "red") true))
          (click_echo (style w "--> Tests complete" (Some "green") false)))
       (if keep_containers then mret tt else destroy w [])).
Proof.
  intros H12 Hecho Hup Htests Hdestroy.
  apply sat_try_finally with J2.
  - apply sat_try_except with J2; [by apply sat_test_body|by apply sat_echo..].
  - destruct keep_containers; [by apply sat_ret|].
    apply sat_destroy; [done|]. by apply Hdestroy.
Qed.

(** The same, under one invariant that does not look at what the list
    objects hold. *)
Lemma sat_test_try_any (J : kubetools_config -> Prop) (P : event -> Prop)
    keep_containers arguments :
  (forall cfg c, J cfg ->
     J {| env := env cfg; upgrades := upgrades cfg; tests := tests cfg;
          contents := c |}) ->
  (forall line, P (echo line)) ->
  (forall cfg c, J cfg -> made_by_up c -> config_of c = cfg -> P (called c)) ->
  (forall cfg t, J cfg -> P (called (find_container_for_config cfg t))) ->
  (forall cfg n cmd envars, J cfg ->
     P (called (run_container cfg n cmd (Some envars)))) ->
  (keep_containers = false ->
   forall cfg, J cfg -> P (called (destroy_containers cfg []))) ->
  sat J J P (fun _ => True)
    (try_finally
       (try_except_raise_else
          (test_body w arguments)
          (click_echo (style w "Exception!" (Some "red") true))
          (click_echo (style w "--> Tests complete" (Some "green") false)))
       (if keep_containers then mret tt else destroy w [])).
Proof.
  intros Hind Hecho Hup Hfind Hrun Hdestroy.
  apply sat_test_try; try done.
  intros cfg0 ts _ _. by apply sat_run_tests.
Qed.

Lemma sat_set_test_env (P : event -> Prop) cfg0 :
  sat (fun cfg => cfg = cfg0)
      (fun cfg => env cfg = test_environment w cfg0 /\
                  upgrades cfg = upgrades cfg0 /\ tests cfg = tests cfg0 /\
                  contents cfg = contents cfg0)
      P (fun _ => True) (set_test_env w).
Proof.
  intros [cfg h] Hs. simpl in Hs. subst cfg.
  exists []. unfold set_test_env, test_environment, mbind, Eff_bind.
  simpl. destruct (bool_decide _); simpl; rewrite app_nil_r;
    (split_and!; try done; constructor).
Qed.

(** X14. Whatever the calls answer and however [test] ends, every call it
    makes is given a configuration whose environment is [test] when the
    configuration had none or the default one, and its own environment
    otherwise; the configuration is left with that environment. *)
Theorem test_runs_in_test_environment keep_containers arguments s :
  exists new,
    history (test w keep_containers arguments s).1 = (history s ++ new)%list /\
    env (config (test w keep_containers arguments s).1)
      = test_environment w (config s) /\
    forall c, called c ∈ new -> env (config_of c) = test_environment w (config s).
Proof.
  set (E := test_environment w (config s)).
  assert (sat (fun cfg => cfg = config s) (fun cfg => env cfg = E)
              (fun ev => forall c, ev = called c -> env (config_of c) = E)
              (fun _ => True) (test w keep_containers arguments)) as Hsat.
  { unfold test.
    apply sat_bind with (fun cfg => env cfg = E) (fun _ => True).
    - intros s' Hs'. destruct (sat_set_test_env
                                 (fun ev => forall c, ev = called c -> env (config_of c) = E)
                                 (config s) s' Hs') as (new & ? & ? & (? & _) & ?).
      by exists new.
    - done.
    - intros _ _. apply sat_test_try_any; try done.
      + intros cfg c Hcfg _ Hc c' [= <-]. by rewrite Hc.
      + intros cfg t Hcfg c [= <-]. done.
      + intros cfg n cmd envars Hcfg c [= <-]. done.
      + intros _ cfg Hcfg c [= <-]. done. }
  destruct (Hsat s eq_refl) as (new & Hh & Hnew & Henv & _).
  exists new. split_and!; [done|done|].
  intros c Hc. rewrite Forall_forall in Hnew. by apply (Hnew _ Hc).
Qed.

Lemma holders_snoc command ran t :
  holders command (ran ++ [t]) =
  holders command ran + (if holds command t then 1 else 0).
Proof.
  unfold holders. rewrite List.filter_app, length_app. simpl.
  by destruct (holds command t).
Qed.

Lemma repeated_snoc k arguments :
  repeated (S k) arguments = (repeated k arguments ++ arguments)%list.
Proof.
  unfold repeated. rewrite replicate_S_end, concat_app. simpl.
  by rewrite app_nil_r.
Qed.

Lemma repeated_nil k : repeated k [] = [].
Proof. unfold repeated. induction k as [|k IH]; simpl; done. Qed.

(** An entry whose list object no entry before it holds. *)
Lemma holders_fresh command ran t rest :
  NoDup (omap item_command (ran ++ t :: rest)%list) -> item_command t = Some command ->
  holders command ran = 0.
Proof.
  intros Hnd Ht. rewrite omap_app in Hnd. simpl in Hnd. rewrite Ht in Hnd.
  apply NoDup_app in Hnd as (_ & Hnotin & _).
  unfold holders. induction ran as [|x ran IH]; [done|]. simpl in *.
  destruct (holds command x) eqn:Hx.
  - exfalso. unfold holds in Hx. apply bool_decide_eq_true in Hx.
    rewrite Hx in Hnotin. apply (Hnotin command); left.
  - apply IH. intros c Hc. apply Hnotin.
    destruct (item_command x); [by right|done].
Qed.

(** A list object that is the command of none of the entries. *)
Lemma holders_none command its :
  (forall t, t ∈ its -> item_command t <> Some command) -> holders command its = 0.
Proof.
  unfold holders. induction its as [|x its IH]; intros H; [done|]. simpl.
  unfold holds at 1. rewrite bool_decide_eq_false_2 by (apply H; left).
  apply IH. intros t Ht. apply H. by right.
Qed.

(** The tests loop: before each test, every list object holds what it held
    at first, followed by the arguments once for each test already run
    that has it as its command. *)
Lemma sat_run_tests_shared (P : event -> Prop) before arguments ts :
  (forall line, P (echo line)) ->
  (forall cfg t, P (called (find_container_for_config cfg t))) ->
  (forall ran t rest command cfg n,
     ts = (ran ++ t :: rest)%list -> item_command t = Some command ->
     P (called (run_container cfg n (command_run before arguments ran command)
                  (Some (envars_run before arguments ran t))))) ->
  forall todo ran, ts = (ran ++ todo)%list ->
    sat (extended before arguments ran) (fun _ => True) P (fun _ => True)
        (run_tests w arguments todo).
Proof.
  intros Hecho Hfind Hrun.
  induction todo as [|t todo IH]; intros ran Hts.
  { apply sat_weaken with (extended before arguments ran) (extended before arguments ran);
      [by apply sat_ret|done|done]. }
  set (I := extended before arguments ran).
  set (I' := extended before arguments (ran ++ [t])).
  simpl. unfold command_of. destruct (item_command t) as [command|] eqn:Hc.
  { apply sat_bind with I (fun c => c = command); [by apply sat_ret|done|].
    intros ? ->.
    assert (forall cfg, I' cfg ->
              contents cfg command = command_run before arguments ran command)
      as Hheld.
    { intros cfg Hcfg. rewrite (Hcfg command), holders_snoc.
      unfold holds. rewrite bool_decide_eq_true_2 by done.
      by rewrite Nat.add_1_r. }
    assert (forall cfg, I' cfg -> envars_of cfg t = envars_run before arguments ran t)
      as Henv.
    { intros cfg Hcfg. unfold envars_of, envars_run.
      destruct (item_environment t) as [environment|]; [|done]. apply Hcfg. }
    apply sat_bind with I' (fun _ => True); [|done|].
    { apply sat_extend_if_any.
      - intros cfg Hcfg r. simpl.
        rewrite (Hcfg r), holders_snoc. unfold holds.
        destruct (decide (r = command)) as [->|Hne].
        + rewrite bool_decide_eq_true_2 by done.
          by rewrite Nat.add_1_r, repeated_snoc, app_assoc.
        + rewrite bool_decide_eq_false_2 by congruence.
          by rewrite Nat.add_0_r.
      - intros Hnil cfg Hcfg r. rewrite (Hcfg r), Hnil. by rewrite !repeated_nil. }
    intros _ _.
    apply sat_bind with I' (fun _ => True); [by apply sat_ask|done|]. intros n _.
    apply sat_bind with I' (fun _ => True);
      [eapply sat_post; [apply sat_read|done]|done|].
    intros words _.
    apply sat_bind with I' (fun _ => True); [by apply sat_echo|done|]. intros _ _.
    apply sat_bind with I' (fun _ => True); [|done|].
    { apply sat_do. intros cfg Hcfg. rewrite (Hheld cfg Hcfg), (Henv cfg Hcfg).
      by apply (Hrun ran t todo). }
    intros _ _.
    apply sat_bind with I' (fun _ => True); [by apply sat_echo|done|]. intros _ _.
    apply IH. by rewrite <- app_assoc. }
  apply sat_bind with I (fun _ => False); [apply sat_raise|done|]. by intros ? [].
Qed.

(** X15. Whatever the calls answer, every test command [test] runs is run
    for a test of the configuration. It is what the command of that test
    held at first followed by the extra arguments of the command line:
    once for this test, and once more for each test before it that has
    the same list object as its command. The environment variables are
    those of that test (none when it declares none), as their list holds
    them then. When no list object is the command of two tests, or the
    command of one and the environment of one, the test is run with its
    command followed by the arguments, and with its environment. *)
Theorem test_runs_declared_tests keep_containers arguments s :
  exists new,
    history (test w keep_containers arguments s).1 = (history s ++ new)%list /\
    forall cfg n cmd envars,
      called (run_container cfg n cmd (Some envars)) ∈ new ->
      exists ts i t command,
        tests (config s) = Some ts /\ ts !! i = Some t /\
        item_command t = Some command /\
        cmd = (contents (config s) command ++
               repeated (S (holders command (take i ts))) arguments)%list /\
        envars = match item_environment t with
                 | Some environment =>
                     (contents (config s) environment ++
                      repeated (holders environment (take (S i) ts)) arguments)%list
                 | None => []
                 end /\
        (separate ts ->
         cmd = (contents (config s) command ++ arguments)%list /\
         envars = envars_of (config s) t).
Proof.
  set (P := fun ev => forall cfg n cmd envars,
              ev = called (run_container cfg n cmd (Some envars)) ->
              exists ts i t command,
                tests (config s) = Some ts /\ ts !! i = Some t /\
                item_command t = Some command /\
                cmd = (contents (config s) command ++
                       repeated (S (holders command (take i ts))) arguments)%list /\
                envars = match item_environment t with
                         | Some environment =>
                             (contents (config s) environment ++
                              repeated (holders environment (take (S i) ts))
                                       arguments)%list
                         | None => []
                         end /\
                (separate ts ->
                 cmd = (contents (config s) command ++ arguments)%list /\
                 envars = envars_of (config s) t)).
  set (J := fun cfg => tests cfg = tests (config s) /\
                       contents cfg = contents (config s)).
  assert (sat (fun cfg => cfg = config s) (fun _ => True) P
              (fun _ => True) (test w keep_containers arguments)) as Hsat.
  { unfold test.
    apply sat_bind with J (fun _ => True).
    - intros s' Hs'. destruct (sat_set_test_env P (config s) s' Hs')
        as (new & ? & ? & (_ & _ & ? & ?) & ?). by exists new.
    - done.
    - intros _ _. apply sat_test_try; try done.
      + intros cfg c _ Hup _ cfg' n cmd envars [= ->]. done.
      + intros cfg0 ts [Hts0 _] Hts. rewrite Hts0 in Hts.
        apply sat_weaken with (extended (contents (config s)) arguments [])
                              (fun _ => True); [|..|done].
        * apply (sat_run_tests_shared P (contents (config s)) arguments ts); try done.
          intros ran t rest command cfg n Hsplit Hcmd cfg' n' cmd envars [= <- <- <- <-].
          assert (take (S (length ran)) ts = (ran ++ [t])%list) as Htake.
          { rewrite Hsplit, (cons_middle t ran rest), app_assoc.
            replace (S (length ran)) with (length (ran ++ [t])).
            - apply take_app_length.
            - rewrite length_app. simpl. lia. }
          exists ts, (length ran), t, command.
          split_and!; [done| |done| | |].
          -- rewrite Hsplit. by apply list_lookup_middle.
          -- rewrite Hsplit, take_app_length. done.
          -- rewrite Htake. done.
          -- intros [Hnd Hsep]. split.
             ++ rewrite Hsplit in Hnd. unfold command_run.
                rewrite (holders_fresh command ran t rest Hnd Hcmd).
                unfold repeated. simpl. by rewrite app_nil_r.
             ++ unfold envars_run, envars_of.
                destruct (item_environment t) as [environment|] eqn:He; [|done].
                rewrite holders_none.
                ** unfold repeated. simpl. by rewrite app_nil_r.
                ** intros t' Ht'. apply (Hsep t t' environment); [| |done].
                   --- rewrite Hsplit. apply elem_of_app. right. left.
                   --- rewrite <- Htake in Ht'. by apply (subseteq_take (S (length ran))).
        * intros cfg [_ Hc] command. rewrite Hc. unfold repeated, holders. simpl.
          by rewrite app_nil_r. }
  destruct (Hsat s eq_refl) as (new & Hh & Hnew & _).
  exists new. split; [done|].
  intros cfg n cmd envars Hin. rewrite Forall_forall in Hnew.
  by apply (Hnew _ Hin cfg n cmd envars).
Qed.


Lemma try_finally_state {A} (body : Eff A) (cleanup : Eff unit) s :
  (try_finally body cleanup s).1 = (cleanup (body s).1).1.
Proof.
  unfold try_finally. destruct (body s) as [s' r]. simpl.
  by destruct (cleanup s') as [s'' [[]|e]].
Qed.

Lemma bind_state_Ok {A B} (m : Eff A) (f : A -> Eff B) s a :
  (m s).2 = Ok a -> (m ≫= f) s = f a (m s).1.
Proof. unfold mbind, Eff_bind. destruct (m s) as [s' r]. simpl. by intros ->. Qed.

Lemma set_test_env_returns s : ((set_test_env w) s).2 = Ok tt.
Proof.
  unfold set_test_env, mbind, Eff_bind. simpl. by destruct (bool_decide _).
Qed.

Lemma set_test_env_history s : history ((set_test_env w) s).1 = history s.
Proof.
  unfold set_test_env, mbind, Eff_bind. simpl. by destruct (bool_decide _).
Qed.

(** X16. [test] destroys the containers last, and always: unless
    [--keep-containers] is given, however the run and the tests end, what
    [test] does ends with the call that destroys the containers, followed
    by nothing but output, and that is its only such call; with
    [--keep-containers] it makes no such call. *)
Theorem test_destroys_last keep_containers arguments s :
  exists before,
    Forall not_destroy before /\
    match keep_containers return Prop with
    | true => history (test w true arguments s).1 = (history s ++ before)%list
    | false =>
        exists cfg after,
          history (test w false arguments s).1 =
            (history s ++ before ++
             echo "--> Destroying containers" ::
             called (destroy_containers cfg []) :: after)%list /\
          Forall is_output after /\
          env cfg = test_environment w (config s)
    end.
Proof.
  set (tried := try_except_raise_else
                  (test_body w arguments)
                  (click_echo (style w "Exception!" (Some "red") true))
                  (click_echo (style w "--> Tests complete" (Some "green") false))).
  assert (sat (fun cfg => env cfg = test_environment w (config s))
              (fun cfg => env cfg = test_environment w (config s))
              not_destroy (fun _ => True) tried) as Htried.
  { apply sat_try_except with (fun cfg => env cfg = test_environment w (config s));
      [|by apply sat_echo..].
    apply sat_test_body; try done.
    - intros cfg c _ Hup _ cfg' cs [= ->]. done.
    - intros cfg0 ts _ _. by apply sat_run_tests. }
  destruct (sat_set_test_env not_destroy (config s) s eq_refl)
    as (_ & _ & _ & (Henv & _) & _).
  destruct (Htried _ Henv) as (before & Hh & Hbefore & Henv' & _).
  rewrite set_test_env_history in Hh.
  exists before. split; [done|].
  assert (forall k, (test w k arguments s).1 =
            ((if k then mret tt else destroy w [])
               ((tried ((set_test_env w s).1)).1)).1) as Htest.
  { intros k. unfold test.
    rewrite (bind_state_Ok _ _ s tt (set_test_env_returns s)).
    apply try_finally_state. }
  destruct keep_containers; rewrite Htest.
  - done.
  - set (s1 := (tried ((set_test_env w s).1)).1) in *.
    exists (config s1).
    unfold destroy, mbind, Eff_bind, click_echo, do. simpl.
    destruct (raises w _ _); simpl; rewrite Hh, <- !app_assoc; simpl.
    + exists []. split_and!; [done|constructor|done].
    + exists [echo "--> Dev environment down"].
      split_and!; [done|by repeat constructor|done].
Qed.




Lemma bind_assoc_at {A B C} (m : Eff A) (f : A -> Eff B) (g : B -> Eff C) s :
  ((m ≫= f) ≫= g) s = (m ≫= (fun a => f a ≫= g)) s.
Proof. unfold mbind, Eff_bind. by destruct (m s) as [s' [a|e]]. Qed.

Lemma echo_bind {B} line (k : unit -> Eff B) s :
  (click_echo line ≫= k) s = k tt (record (echo line) s).
Proof. done. Qed.

Lemma do_bind {B} c (k : unit -> Eff B) s :
  (do w c ≫= k) s =
  match raises w (history s) (c (config s)) with
  | Some e => (record (called (c (config s))) s, Err e)
  | None => k tt (record (called (c (config s))) s)
  end.
Proof. unfold mbind, Eff_bind, do. by destruct (raises w _ _). Qed.

(** X18. [reload] either destroys or stops the containers named, never
    both, and does so before anything else; when that call ends in an
    exception, [reload] ends in it and [up] is not started. *)
Theorem reload_stops_or_destroys containers destroy_flag no_upgrade s :
  exists rest,
    history (reload w containers destroy_flag no_upgrade s).1 =
      (history s ++ reload_first destroy_flag containers (config s) ++ rest)%list /\
    (forall cfg cs, called (destroy_containers cfg cs) ∉ rest) /\
    (forall cfg cs, called (stop_containers cfg cs) ∉ rest) /\
    (forall c e, last (reload_first destroy_flag containers (config s)) = Some (called c) ->
       raises w (history s ++ removelast (reload_first destroy_flag containers (config s))) c
         = Some e ->
       rest = [] /\ (reload w containers destroy_flag no_upgrade s).2 = Err e).
Proof.
  set (P := fun ev => (forall cfg cs, ev <> called (destroy_containers cfg cs)) /\
                      (forall cfg cs, ev <> called (stop_containers cfg cs))).
  assert (forall A (m : Eff A), sat (fun _ => True) (fun _ => True) P (fun _ => True) m ->
            forall s', exists rest, history (m s').1 = (history s' ++ rest)%list /\
              (forall cfg cs, called (destroy_containers cfg cs) ∉ rest) /\
              (forall cfg cs, called (stop_containers cfg cs) ∉ rest)) as Hsat.
  { intros A m Hm s'. destruct (Hm s' I) as (rest & Hh & Hrest & _).
    exists rest. rewrite Forall_forall in Hrest.
    split_and!; [done|..]; intros cfg cs Hin; destruct (Hrest _ Hin) as [H1 H2];
      [by apply (H1 cfg cs)|by apply (H2 cfg cs)]. }
  assert (forall line, P (echo line)) as Hecho by (by split).
  assert (sat (fun _ => True) (fun _ => True) P (fun _ => True)
              (up w containers no_upgrade false)) as Hu.
  { apply sat_up_calls; [done|]. intros cfg c _ Hc _. split; intros cfg' cs [= ->]; done. }
  unfold reload, reload_first.
  set (u := up w containers no_upgrade false) in *. clearbody u.
  destruct destroy_flag.
  - set (k := fun _ : unit => click_echo "--> Dev environment down";;
                              click_echo "";; u).
    assert (forall s', (destroy w containers;; click_echo "";; u) s' =
              (click_echo "--> Destroying containers";;
               do w (fun cfg => destroy_containers cfg containers) ≫= k) s') as Heq.
    { intros s'. unfold destroy, k, mbind, Eff_bind, click_echo, do. simpl.
      by destruct (raises w _ _). }
    rewrite Heq, echo_bind, do_bind. simpl.
    destruct (raises w (history s ++ [echo "--> Destroying containers"])
                (destroy_containers (config s) containers)) as [e|] eqn:Hr; simpl.
    + exists []. rewrite <- app_assoc. simpl.
      split_and!; [done|intros ? ? H; by apply elem_of_nil in H..|].
      intros c e' [= <-] He'. rewrite Hr in He'. by injection He' as <-.
    + assert (sat (fun _ => True) (fun _ => True) P (fun _ => True) (k tt)) as Hk.
      { unfold k. apply sat_seq with (fun _ => True); [by apply sat_echo|]. intros _ _.
        apply sat_seq with (fun _ => True); [by apply sat_echo|]. by intros _ _. }
      destruct (Hsat _ _ Hk
                  (record (called (destroy_containers (config s) containers))
                     (record (echo "--> Destroying containers") s)))
        as (rest & Hh & Hd & Hs).
      exists rest. split_and!; [|done|done|].
      * rewrite Hh. simpl. by rewrite <- !app_assoc.
      * intros c e [= <-] He. by rewrite Hr in He.
  - set (k := fun _ : unit => click_echo "--> Containers stopped";; click_echo "";;
                              do w (fun cfg => print_containers cfg None);;
                              click_echo "";; u).
    assert (forall s', (stop w containers;; click_echo "";; u) s' =
              (click_echo "--> Stopping containers";;
               do w (fun cfg => stop_containers cfg containers) ≫= k) s') as Heq.
    { intros s'. unfold stop, k, mbind, Eff_bind, click_echo, do. simpl.
      destruct (raises w _ (stop_containers _ _)); [done|].
      by destruct (raises w _ (print_containers _ _)). }
    rewrite Heq, echo_bind, do_bind. simpl.
    destruct (raises w (history s ++ [echo "--> Stopping containers"])
                (stop_containers (config s) containers)) as [e|] eqn:Hr; simpl.
    + exists []. rewrite <- app_assoc. simpl.
      split_and!; [done|intros ? ? H; by apply elem_of_nil in H..|].
      intros c e' [= <-] He'. rewrite Hr in He'. by injection He' as <-.
    + assert (sat (fun _ => True) (fun _ => True) P (fun _ => True) (k tt)) as Hk.
      { unfold k. apply sat_seq with (fun _ => True); [by apply sat_echo|]. intros _ _.
        apply sat_seq with (fun _ => True); [by apply sat_echo|]. intros _ _.
        apply sat_seq with (fun _ => True).
        { apply sat_do. intros cfg _. by split. }
        intros _ _. apply sat_seq with (fun _ => True); [by apply sat_echo|]. by intros _ _. }
      destruct (Hsat _ _ Hk
                  (record (called (stop_containers (config s) containers))
                     (record (echo "--> Stopping containers") s)))
        as (rest & Hh & Hd & Hs).
      exists rest. split_and!; [|done|done|].
      * rewrite Hh. simpl. by rewrite <- !app_assoc.
      * intros c e [= <-] He. by rewrite Hr in He.
Qed.

End test.


(** [test -- -x] on [project]: the upgrade that is for tests runs, the
    test runs with the extra argument, in the [test] environment, and the
    containers are destroyed at the end. The list object of the test is
    left with the argument in it. *)
Example test_project_calls :
  let started :=
    {| env := Some "test"; upgrades := upgrades project; tests := tests project;
       contents := contents project |} in
  let tested := config (test calm false ["-x"] (fresh project)).1 in
  (test calm false ["-x"] (fresh project)).2 = Ok tt /\
  contents tested 2 = ["pytest"; "-x"] /\
  map (fun c => match c with
                | run_container _ n cmd envars => Some (n, cmd, envars)
                | _ => None
                end)
      (calls_of (history (test calm false ["-x"] (fresh project)).1)) =
    [None; None; None; None;
     Some ("web", ["./manage.py"; "migrate"], None);
     None; None;
     Some ("web", ["pytest"; "-x"], Some ["CI=1"]);
     None].
Proof. split_and!; vm_compute; reflexivity. Qed.

(** [test -- -x] on [aliased], where the two tests have the same list
    object as their command: the second test is run with the argument
    twice. *)
Example aliased_tests_accumulate :
  omap (fun c => match c with
                 | run_container _ _ cmd (Some _) => Some cmd
                 | _ => None
                 end)
       (calls_of (history (test calm true ["-x"] (fresh aliased)).1)) =
    [["pytest"; "-x"]; ["pytest"; "-x"; "-x"]].
Proof. vm_compute. reflexivity. Qed.


End EnvironmentFacts.

(** ** The returned status: order of the listing, names and legacy containers *)

Module StatusOrder.
Import DockerUtil Spec Sample Aggregator ContainerStatus StatusFacts.

Lemma resolved_keys_Permutation cfg all_environments cs cs' :
  cs ≡ₚ cs' ->
  resolved_keys cfg all_environments cs ≡ₚ resolved_keys cfg all_environments cs'.
Proof. intros H. unfold resolved_keys. by rewrite H. Qed.

(** Two completed loops over the same containers, in any order, build the
    same map. *)
Lemma loop_order cfg all_environments cs cs' live live' :
  cs ≡ₚ cs' ->
  for_each (loop_body cfg all_environments) ∅ cs = Ok live ->
  for_each (loop_body cfg all_environments) ∅ cs' = Ok live' ->
  live = live'.
Proof.
  intros Hp Hl Hl'.
  destruct (loop_completed cfg all_environments cs _ _ Hl) as (_ & _ & _ & Hrec).
  destruct (loop_completed cfg all_environments cs' _ _ Hl') as (_ & _ & _ & Hrec').
  pose proof (loop_environments cfg all_environments cs _ _ Hl) as Hdom.
  pose proof (loop_environments cfg all_environments cs' _ _ Hl') as Hdom'.
  assert (forall e n, record_of live e n = record_of live' e n) as Hsame.
  { intros e n. apply option_eq. intros d. rewrite Hrec, Hrec'.
    split; (intros [?|(c & Hc & ?)]; [by left|right; exists c; split; [|done]]).
    - by rewrite <- Hp.
    - by rewrite Hp. }
  apply map_eq. intros e.
  destruct (live !! e) as [c1|] eqn:H1; destruct (live' !! e) as [c2|] eqn:H2.
  - f_equal. apply map_eq. intros n. specialize (Hsame e n).
    unfold record_of in Hsame. by rewrite H1, H2 in Hsame.
  - exfalso. assert (is_Some (live' !! e)) as [? ?]; [|congruence].
    apply Hdom'. assert (is_Some (live !! e)) as Hs by eauto.
    apply Hdom in Hs as [Hs|[n Hn]]; [by left|]. right. exists n.
    by rewrite <- (resolved_keys_Permutation cfg all_environments cs cs' Hp).
  - exfalso. assert (is_Some (live !! e)) as [? ?]; [|congruence].
    apply Hdom. assert (is_Some (live' !! e)) as Hs by eauto.
    apply Hdom' in Hs as [Hs|[n Hn]]; [by left|]. right. exists n.
    by rewrite (resolved_keys_Permutation cfg all_environments cs cs' Hp).
  - done.
Qed.

(** X20. The returned status does not depend on the order in which the
    containers were listed: when it is returned for a listing, it is
    returned, and is the same, for the same containers in any other
    order. *)
Theorem status_order_independent cfg all_environments cs cs' st :
  cs ≡ₚ cs' ->
  get_containers_status cfg all_environments cs = Ok st ->
  get_containers_status cfg all_environments cs' = Ok st.
Proof.
  intros Hp Hst.
  destruct (returns_only_when_unique cfg all_environments cs st Hst) as [Hall Hnd].
  destruct (returns_when_unique cfg all_environments cs') as [st' Hst'].
  { by rewrite <- Hp. }
  { by rewrite <- (resolved_keys_Permutation cfg all_environments cs cs' Hp). }
  rewrite Hst'. f_equal.
  destruct (get_containers_status_inv cfg all_environments cs st Hst)
    as (m & cur & Ha & Hm & ->).
  destruct (get_containers_status_inv cfg all_environments cs' st' Hst')
    as (m' & cur' & Ha' & Hm' & ->).
  destruct (aggregate_inv cfg all_environments cs m Ha) as (live & Hl & ->).
  destruct (aggregate_inv cfg all_environments cs' m' Ha') as (live' & Hl' & ->).
  rewrite (loop_order cfg all_environments cs cs' live live' Hp Hl Hl') in *.
  rewrite Hm in Hm'. injection Hm' as <-. done.
Qed.

Lemma status_order_independent_witness :
  get_containers_status app_dev true [bare_web; web_1]
    = Ok (returned (get_containers_status app_dev true [web_1; bare_web])).
Proof.
  apply (status_order_independent app_dev true [web_1; bare_web] [bare_web; web_1]).
  - apply perm_swap.
  - vm_compute. reflexivity.
Defined.

(** X21. The logical name is what stands between the first and the second
    underscore of the container name: the service for a name made as
    [project_service_index], and only the part of the service before its
    first underscore when the service has one. *)
Theorem logical_name_is_second_segment c project component rest :
  Py.contains "_" project = false -> Py.contains "_" component = false ->
  container_name c = project +:+ "_" +:+ component +:+ "_" +:+ rest ->
  get_name c = Ok component.
Proof. apply get_name_component. Qed.

Lemma logical_name_is_second_segment_witness :
  get_name (mk_container "appdev_my_service_1" "0000" "running" []) = Ok "my".
Proof.
  apply (logical_name_is_second_segment _ "appdev" "my" "service_1").
  - vm_compute. reflexivity.
  - vm_compute. reflexivity.
  - reflexivity.
Defined.

(** X22. A container made before the environment label existed, in a
    compose project named by the project name followed by the environment,
    is kept by the project filter and resolved to that environment,
    provided the project name is not empty and does not occur in the name
    of the environment. *)
Theorem legacy_container_environment cfg all_environments c e n :
  container_labels c !! env_label = None ->
  container_labels c !! compose_project_label = Some (docker_name cfg +:+ e) ->
  docker_name cfg <> "" -> Py.contains (docker_name cfg) e = false ->
  get_name c = Ok n ->
  resolve cfg all_environments c = Ok (Some (e, n)).
Proof.
  intros Henv Hcp Hne Hc Hn.
  rewrite (resolve_processed cfg all_environments c _ n Hcp); [|by intros _; apply prefix_app|done].
  by rewrite get_env_legacy_prefix.
Qed.

Lemma legacy_container_environment_witness :
  resolve app_dev true legacy_web = Ok (Some ("dev", "web")).
Proof.
  apply (legacy_container_environment app_dev true legacy_web "dev" "web").
  - vm_compute. reflexivity.
  - vm_compute. reflexivity.
  - discriminate.
  - vm_compute. reflexivity.
  - vm_compute. reflexivity.
Defined.

End StatusOrder.
